(** * obfsclient: the obfs2 client session, its key derivation and the
      shutdown handler, embedded from [obfs2client.cc] and [main.cc].

    Bytes are integers in [0, 256) carried in [Z]; a buffer is a [list Z].
    Machine words are [Z] with their wrap-around written out. *)

From Stdlib Require Import ZArith List Bool Lia.
From Stdlib Require String.
Import ListNotations.
Local Open Scope Z_scope.

Definition bytes := list Z.

(** ** Byte-level helpers shared by the primitives *)

Definition w32 (x : Z) : Z := x mod 4294967296.

(** [htonl] followed by a byte-wise view of the word: the four bytes of a
    32-bit value in network order. *)
Definition htonl_bytes (x : Z) : bytes :=
  [ Z.shiftr x 24 mod 256; Z.shiftr x 16 mod 256; Z.shiftr x 8 mod 256; x mod 256 ].

(** [ntohl] of the word stored in four consecutive bytes; what is read from
    a byte of memory is a value in [0, 256). *)
Definition ntohl_bytes (b : bytes) : Z :=
  match b with
  | [b0; b1; b2; b3] =>
      ((b0 mod 256 * 256 + b1 mod 256) * 256 + b2 mod 256) * 256 + b3 mod 256
  | _ => 0
  end.

Definition ascii_bytes (cs : list nat) : bytes := map Z.of_nat cs.

Fixpoint chunks (fuel : nat) (n : nat) (l : bytes) : list bytes :=
  match fuel with
  | O => []
  | S fuel' =>
      match l with
      | [] => []
      | _ => firstn n l :: chunks fuel' n (skipn n l)
      end
  end.

(** ** SHA-256 *)

Module Sha256.

(** Modelled from the spec: [crypto::Sha256] is not among the sources; the
    spec names it "SHA-256 digest", so it is written out after FIPS 180-4.
    Its constants are computed (fractional parts of square and cube roots
    of the first primes) instead of tabulated. *)

Definition kDigestLength : Z := 32.

Definition primes64 : list Z :=
  [ 2; 3; 5; 7; 11; 13; 17; 19; 23; 29; 31; 37; 41; 43; 47; 53;
    59; 61; 67; 71; 73; 79; 83; 89; 97; 101; 103; 107; 109; 113; 127; 131;
    137; 139; 149; 151; 157; 163; 167; 173; 179; 181; 191; 193; 197; 199;
    211; 223; 227; 229; 233; 239; 241; 251; 257; 263; 269; 271; 277; 281;
    283; 293; 307; 311 ].

(** Integer cube root, one bit at a time from the top. *)
Fixpoint icbrt_bits (n : Z) (bit : nat) (acc : Z) : Z :=
  match bit with
  | O => acc
  | S b =>
      let cand := acc + Z.shiftl 1 (Z.of_nat b) in
      icbrt_bits n b (if cand * cand * cand <=? n then cand else acc)
  end.

Definition frac_sqrt32 (p : Z) : Z := w32 (Z.sqrt (p * 2 ^ 64)).
Definition frac_cbrt32 (p : Z) : Z := w32 (icbrt_bits (p * 2 ^ 96) 40 0).

Definition K : list Z := Eval vm_compute in map frac_cbrt32 primes64.
Definition H0 : list Z := Eval vm_compute in map frac_sqrt32 (firstn 8 primes64).

Definition add32 (x y : Z) : Z := w32 (x + y).
Definition rotr (n x : Z) : Z := Z.lor (Z.shiftr x n) (w32 (Z.shiftl x (32 - n))).
Definition not32 (x : Z) : Z := Z.lxor x 4294967295.

Definition Ch (x y z : Z) : Z := Z.lxor (Z.land x y) (Z.land (not32 x) z).
Definition Maj (x y z : Z) : Z :=
  Z.lxor (Z.lxor (Z.land x y) (Z.land x z)) (Z.land y z).
Definition bsig0 (x : Z) : Z := Z.lxor (Z.lxor (rotr 2 x) (rotr 13 x)) (rotr 22 x).
Definition bsig1 (x : Z) : Z := Z.lxor (Z.lxor (rotr 6 x) (rotr 11 x)) (rotr 25 x).
Definition ssig0 (x : Z) : Z := Z.lxor (Z.lxor (rotr 7 x) (rotr 18 x)) (Z.shiftr x 3).
Definition ssig1 (x : Z) : Z := Z.lxor (Z.lxor (rotr 17 x) (rotr 19 x)) (Z.shiftr x 10).

(** Padding: a 1 bit, zeros up to 56 mod 64, the bit length on 64 bits. *)
Definition pad (msg : bytes) : bytes :=
  let len := Z.of_nat (length msg) in
  let zeros := Z.to_nat ((55 - len) mod 64) in
  msg ++ [128] ++ repeat 0 zeros
      ++ htonl_bytes (Z.shiftr (len * 8) 32) ++ htonl_bytes (w32 (len * 8)).

Definition block_words (blk : bytes) : list Z :=
  map ntohl_bytes (chunks 16 4 blk).

(** The message schedule, kept newest first. *)
Fixpoint schedule (n : nat) (rev_w : list Z) : list Z :=
  match n with
  | O => rev_w
  | S n' =>
      let wt := add32 (add32 (ssig1 (nth 1 rev_w 0)) (nth 6 rev_w 0))
                      (add32 (ssig0 (nth 14 rev_w 0)) (nth 15 rev_w 0)) in
      schedule n' (wt :: rev_w)
  end.

Definition hstate := (Z * Z * Z * Z * Z * Z * Z * Z)%type.

Definition round (st : hstate) (kw : Z * Z) : hstate :=
  let '(a, b, c, d, e, f, g, h) := st in
  let t1 := add32 (add32 (add32 h (bsig1 e)) (add32 (Ch e f g) (fst kw))) (snd kw) in
  let t2 := add32 (bsig0 a) (Maj a b c) in
  (add32 t1 t2, a, b, c, add32 d t1, e, f, g).

Definition compress (st : hstate) (blk : bytes) : hstate :=
  let ws := rev (schedule 48 (rev (block_words blk))) in
  let '(a, b, c, d, e, f, g, h) := fold_left round (combine K ws) st in
  let '(a0, b0, c0, d0, e0, f0, g0, h0) := st in
  (add32 a0 a, add32 b0 b, add32 c0 c, add32 d0 d,
   add32 e0 e, add32 f0 f, add32 g0 g, add32 h0 h).

Definition init : hstate :=
  (nth 0 H0 0, nth 1 H0 0, nth 2 H0 0, nth 3 H0 0,
   nth 4 H0 0, nth 5 H0 0, nth 6 H0 0, nth 7 H0 0).

Definition output (st : hstate) : bytes :=
  let '(a, b, c, d, e, f, g, h) := st in
  htonl_bytes a ++ htonl_bytes b ++ htonl_bytes c ++ htonl_bytes d ++
  htonl_bytes e ++ htonl_bytes f ++ htonl_bytes g ++ htonl_bytes h.

(** Modelled from the spec: the digest function of [crypto::Sha256], the
    spec's "SHA-256 digest". *)
Definition sha256 (msg : bytes) : bytes :=
  let p := pad msg in
  output (fold_left compress (chunks (length p) 64 p) init).

(** Modelled from the spec: [Sha256::digest(buf, len, out, out_len)] of the
    missing class; false when the library underneath fails or the output
    size is not the digest length ("output is exactly 32 bytes"). *)
Definition digest (fails : bool) (buf : bytes) (out_len : Z) : option bytes :=
  if fails then None
  else if out_len =? kDigestLength then Some (sha256 buf) else None.

End Sha256.

(** ** AES-128 and its counter mode *)

Fixpoint xor_bytes (a b : bytes) : bytes :=
  match a, b with
  | x :: a', y :: b' => Z.lxor x y :: xor_bytes a' b'
  | _, _ => []
  end.

Module Aes128.

(** Modelled from the spec: the block cipher behind [crypto::AesCtr128] is
    not among the sources; the spec names it AES-128, so it is written out
    after FIPS 197.  The S-box is computed from the field inverse and the
    affine map instead of tabulated. *)

Definition kKeyLength : Z := 16.

Definition xtime (b : Z) : Z :=
  let s := 2 * b in if s <? 256 then s else Z.lxor (s - 256) 27.

Fixpoint gmul_loop (n : nat) (a b acc : Z) : Z :=
  match n with
  | O => acc
  | S n' => gmul_loop n' (xtime a) (Z.shiftr b 1)
                      (if Z.odd b then Z.lxor acc a else acc)
  end.

Definition gmul (a b : Z) : Z := gmul_loop 8 a b 0.

(** The inverse in GF(2^8) is the 254th power (0 maps to 0). *)
Definition ginv (x : Z) : Z :=
  let x2 := gmul x x in
  let x4 := gmul x2 x2 in
  let x8 := gmul x4 x4 in
  let x16 := gmul x8 x8 in
  let x32 := gmul x16 x16 in
  let x64 := gmul x32 x32 in
  let x128 := gmul x64 x64 in
  gmul x2 (gmul x4 (gmul x8 (gmul x16 (gmul x32 (gmul x64 x128))))).

Definition rotl8 (b n : Z) : Z :=
  Z.lor (Z.shiftl b n) (Z.shiftr b (8 - n)) mod 256.

Definition sbox_of (b : Z) : Z :=
  let i := ginv b in
  Z.lxor (Z.lxor (Z.lxor i (rotl8 i 1)) (Z.lxor (rotl8 i 2) (rotl8 i 3)))
         (Z.lxor (rotl8 i 4) 99).

Definition sbox_table : list Z :=
  Eval vm_compute in map (fun n => sbox_of (Z.of_nat n)) (seq 0 256).

Definition sbox (b : Z) : Z := nth (Z.to_nat b) sbox_table 0.

Definition sub_bytes (st : bytes) : bytes := map sbox st.

(** The state is held column by column: byte [4c + r] is row r of column c. *)
Definition shift_rows (st : bytes) : bytes :=
  map (fun i => nth (4 * ((i / 4 + i mod 4) mod 4) + i mod 4)%nat st 0) (seq 0 16).

Definition mix_column (col : bytes) : bytes :=
  match col with
  | [a0; a1; a2; a3] =>
      [ Z.lxor (Z.lxor (gmul 2 a0) (gmul 3 a1)) (Z.lxor a2 a3);
        Z.lxor (Z.lxor a0 (gmul 2 a1)) (Z.lxor (gmul 3 a2) a3);
        Z.lxor (Z.lxor a0 a1) (Z.lxor (gmul 2 a2) (gmul 3 a3));
        Z.lxor (Z.lxor (gmul 3 a0) a1) (Z.lxor a2 (gmul 2 a3)) ]
  | _ => col
  end.

Definition mix_columns (st : bytes) : bytes :=
  concat (map mix_column (chunks 4 4 st)).

(** One step of the key schedule: the next round key from the current one. *)
Definition next_round_key (rk : bytes) (rcon : Z) : bytes :=
  match chunks 4 4 rk with
  | [w0; w1; w2; w3] =>
      let t := match w3 with
               | [b0; b1; b2; b3] =>
                   [Z.lxor (sbox b1) rcon; sbox b2; sbox b3; sbox b0]
               | _ => w3
               end in
      let v0 := xor_bytes w0 t in
      let v1 := xor_bytes w1 v0 in
      let v2 := xor_bytes w2 v1 in
      let v3 := xor_bytes w3 v2 in
      v0 ++ v1 ++ v2 ++ v3
  | _ => rk
  end.

Fixpoint rounds (n : nat) (rk : bytes) (rcon : Z) (st : bytes) : bytes :=
  let rk' := next_round_key rk rcon in
  match n with
  | O => xor_bytes (shift_rows (sub_bytes st)) rk'
  | S n' =>
      rounds n' rk' (xtime rcon)
             (xor_bytes (mix_columns (shift_rows (sub_bytes st))) rk')
  end.

(** Modelled from the spec: the AES-128 block encryption under the spec's
    "AES-128-CTR stream cipher". *)
Definition encrypt_block (key blk : bytes) : bytes :=
  rounds 9 key 1 (xor_bytes blk key).

End Aes128.

Module AesCtr128.

(** Modelled from the spec: the counter-mode class is not among the
    sources.  The spec gives it a settable key and IV, a counter "initialized
    from the 16-byte IV block treated as a big-endian integer and
    incremented by one per 16-byte block processed", and lets every call
    fail.  The context records the key, the IV block and the number of bytes
    processed since [set_state]; byte [p] of the stream is byte [p mod 16]
    of the block encrypted under counter [IV + p / 16].

    A call fails when the library underneath does ([fails]), when
    [set_state] gets a key or counter block of the wrong size, and when
    [process] runs on a context that has no state. *)

Record ctx := mk { has_state : bool; key : bytes; iv : bytes; pos : nat }.

Definition kIvLength : Z := 16.

Definition unset : ctx := mk false [] [] 0.

Definition be_int (b : bytes) : Z := fold_left (fun acc x => acc * 256 + x) b 0.

Definition be_block (x : Z) : bytes :=
  map (fun i => Z.shiftr x (8 * Z.of_nat (15 - i)) mod 256) (seq 0 16).

Definition counter_block (ivb : bytes) (blk : nat) : bytes :=
  be_block ((be_int ivb + Z.of_nat blk) mod 2 ^ 128).

Definition keystream_byte (k ivb : bytes) (p : nat) : Z :=
  nth (p mod 16) (Aes128.encrypt_block k (counter_block ivb (p / 16))) 0.

Definition keystream (k ivb : bytes) (p n : nat) : bytes :=
  map (keystream_byte k ivb) (seq p n).

(** Modelled from the spec: [set_state(key, nonce, nonce_len, ctr, ctr_len)]
    of the missing class ("settable key+IV").  The counter block is the nonce
    followed by the counter bytes; every caller passes [nullptr, 0] for the
    nonce, and the earlier client's three-argument call has none. *)
Definition set_state (fails : bool) (k : bytes) (nonce : option bytes)
           (ctr : bytes) : option ctx :=
  let blk := match nonce with Some n => n ++ ctr | None => ctr end in
  if fails then None
  else if (Z.of_nat (length k) =? Aes128.kKeyLength)
          && (Z.of_nat (length blk) =? kIvLength)
       then Some (mk true k blk 0)
       else None.

(** Modelled from the spec: [process(buf, len, out)] of the missing class;
    the bytes come out XORed with the stream, which moves on by [len]. *)
Definition process (fails : bool) (c : ctx) (buf : bytes) : option (bytes * ctx) :=
  if fails then None
  else if has_state c
       then Some (xor_bytes buf (keystream (key c) (iv c) (pos c) (length buf)),
                  mk true (key c) (iv c) (pos c + length buf))
       else None.

End AesCtr128.

(** ** The runtime the session runs on *)

(** What a callback can end with: it returns, or an [SL_ASSERT] stops the
    process, or (in the model only) the recorded random draws run out.
    [SL_ASSERT] is a macro of a header that is not among the sources; it is
    taken to do what an assertion does. *)
Inductive outcome (A : Type) : Type :=
| Returned (a : A)
| AssertFailed
| NoMoreDraws.
Arguments Returned {A} a.
Arguments AssertFailed {A}.
Arguments NoMoreDraws {A}.

(** Fault injection: entry [i] tells whether the [i]-th fallible library call
    a callback makes (in program order) fails; calls beyond the list succeed. *)
Definition Faults := list bool.
Definition fault (f : Faults) (i : nat) : bool := nth i f false.
Definition no_faults : Faults := [].

Module Libevent.

(** libevent's buffers, after its documentation: an [evbuffer] is a byte
    queue; a [bufferevent] has an input queue (bytes read from the socket)
    and an output queue (bytes to be written to it). *)

Record bufferevent := mk { input : bytes; output : bytes }.

Definition set_input (b : bufferevent) (i : bytes) : bufferevent := mk i (output b).

Definition evbuffer_get_length (buf : bytes) : Z := Z.of_nat (length buf).

(** Returns the byte count, the bytes, and the queue left; -1 on failure. *)
Definition evbuffer_remove (fails : bool) (buf : bytes) (n : nat) : Z * bytes * bytes :=
  if fails then (-1, [], buf)
  else (Z.of_nat (length (firstn n buf)), firstn n buf, skipn n buf).

Definition evbuffer_drain (buf : bytes) (n : nat) : bytes := skipn n buf.

(** The first [n] bytes made contiguous; [nullptr] on failure or when the
    queue is shorter. *)
Definition evbuffer_pullup (fails : bool) (buf : bytes) (n : nat) : option bytes :=
  if fails then None
  else if (n <=? length buf)%nat then Some (firstn n buf) else None.

Definition bufferevent_write (fails : bool) (b : bufferevent) (data : bytes)
  : Z * bufferevent :=
  if fails then (-1, b) else (0, mk (input b) (output b ++ data)).

(** Moves the whole queue [buf] to the output of [b]. *)
Definition bufferevent_write_buffer (fails : bool) (b : bufferevent) (buf : bytes)
  : Z * bufferevent * bytes :=
  if fails then (-1, b, buf) else (0, mk (input b) (output b ++ buf), []).

End Libevent.

Module Rand.

(** Modelled from the spec: the "secure random byte source".  The source is
    a stream of bytes and a read position; a read can fail. *)

Record ctx := mk { entropy : nat -> Z; taken : nat }.

Definition peek (r : ctx) (n : nat) : bytes :=
  map (fun i => entropy r i mod 256) (seq (taken r) n).

Definition skip (r : ctx) (n : nat) : ctx := mk (entropy r) (taken r + n).

Definition get_bytes (fails : bool) (r : ctx) (n : nat) : option (bytes * ctx) :=
  if fails then None else Some (peek r n, skip r n).

(** One 32-bit draw. *)
Definition draw32 (r : ctx) : Z * ctx := (ntohl_bytes (peek r 4), skip r 4).

End Rand.

(** ** Constants of the obfs2 transport *)

(** Modelled from the spec: the header that declares these constants is not
    among the sources; the values are the spec's (SEED_LEN 16, MAGIC
    0x2BF5CA7E, kMaxPadding 8192). *)
Definition kSeedLength : Z := 16.
Definition kMagicValue : Z := 0x2BF5CA7E.
Definition kMaxPadding : Z := 8192.

(** [size_t] subtraction, wrap-around written out. *)
Definition size_sub (a b : Z) : Z := (a - b) mod 2 ^ 64.

(** ** [Client::mac] (and the identical [Obfs2Client::mac]) *)

(** A pointer argument is [None] when null; its length argument is the
    length of the list.  The result is the returned flag and the content of
    [digest] afterwards. *)
Definition mac (sha_fails : bool) (key : option bytes) (buf : option bytes)
           (digest : bytes) : bool * bytes :=
  match key with
  | None => (false, digest)
  | Some k =>
      if Z.of_nat (length k) =? 0 then (false, digest) else
      match buf with
      | None => (false, digest)
      | Some b =>
          if Z.of_nat (length b) =? 0 then (false, digest) else
          if negb (Z.of_nat (length digest) =? Sha256.kDigestLength)
          then (false, digest) else
          let to_sha := k ++ b ++ k in
          match Sha256.digest sha_fails to_sha (Z.of_nat (length digest)) with
          | Some d => (true, d)
          | None => (false, digest)
          end
      end
  end.

(** ** The session framework *)

Inductive State : Type :=
| kINVALID | kCONNECTING | kESTABLISHED
| kFLUSHING_INCOMING | kFLUSHING_OUTGOING | kCLOSED.

Inductive Reply : Type :=
| kSUCCEDED | kGENERAL_FAILURE | kNETWORK_UNREACHABLE
| kHOST_UNREACHABLE | kCOMMAND_NOT_SUPPORTED.

Definition State_eqb (a b : State) : bool :=
  match a, b with
  | kINVALID, kINVALID | kCONNECTING, kCONNECTING | kESTABLISHED, kESTABLISHED
  | kFLUSHING_INCOMING, kFLUSHING_INCOMING
  | kFLUSHING_OUTGOING, kFLUSHING_OUTGOING | kCLOSED, kCLOSED => true
  | _, _ => false
  end.

Definition Reply_eqb (a b : Reply) : bool :=
  match a, b with
  | kSUCCEDED, kSUCCEDED | kGENERAL_FAILURE, kGENERAL_FAILURE
  | kNETWORK_UNREACHABLE, kNETWORK_UNREACHABLE
  | kHOST_UNREACHABLE, kHOST_UNREACHABLE
  | kCOMMAND_NOT_SUPPORTED, kCOMMAND_NOT_SUPPORTED => true
  | _, _ => false
  end.

(** Modelled from the spec: the reply record the session writes to the
    SOCKS client is built by the session class, which is not among the
    sources.  The spec shows it as "05 00 00 01 ..." for SUCCEEDED and with
    "REP != 0" for a refusal: version 5, the reply code, a reserved zero and
    the address type IPv4; the bound address and port that follow are taken
    to be zero.  The reply codes are those of the SOCKS5 protocol. *)
Definition reply_code (reply : Reply) : Z :=
  match reply with
  | kSUCCEDED => 0
  | kGENERAL_FAILURE => 1
  | kNETWORK_UNREACHABLE => 3
  | kHOST_UNREACHABLE => 4
  | kCOMMAND_NOT_SUPPORTED => 7
  end.

Definition socks5_reply_record (reply : Reply) : bytes :=
  [5; reply_code reply; 0; 1; 0; 0; 0; 0; 0; 0].

(** The same for the SOCKS4 reply of the earlier session class: a zero
    byte, 90 (granted) or 91 (rejected), and six bytes of port and address
    taken to be zero. *)
Definition socks4_reply_record (success : bool) : bytes :=
  [0; if success then 90 else 91; 0; 0; 0; 0; 0; 0].

Module Obfs2.

Import Libevent.

(** The members of [obfs2::Client], those it inherits from the session
    class included.  [replies_] logs the replies handed to
    [send_socks5_response]; [close_scheduled_] is set by
    [server_.close_session(this)]. *)
Record Client := mkClient {
  state_ : State;
  incoming_ : bufferevent;
  outgoing_ : bufferevent;
  replies_ : list Reply;
  close_scheduled_ : bool;
  rand_ : Rand.ctx;
  init_seed_ : bytes;
  resp_seed_ : bytes;
  initiator_aes_ : AesCtr128.ctx;
  responder_aes_ : AesCtr128.ctx;
  received_seed_hdr_ : bool;
  resp_pad_len_ : Z
}.

Definition set_state_ (v : State) (s : Client) : Client :=
  mkClient v (incoming_ s) (outgoing_ s) (replies_ s) (close_scheduled_ s)
           (rand_ s) (init_seed_ s) (resp_seed_ s) (initiator_aes_ s)
           (responder_aes_ s) (received_seed_hdr_ s) (resp_pad_len_ s).
Definition set_incoming (v : bufferevent) (s : Client) : Client :=
  mkClient (state_ s) v (outgoing_ s) (replies_ s) (close_scheduled_ s)
           (rand_ s) (init_seed_ s) (resp_seed_ s) (initiator_aes_ s)
           (responder_aes_ s) (received_seed_hdr_ s) (resp_pad_len_ s).
Definition set_outgoing (v : bufferevent) (s : Client) : Client :=
  mkClient (state_ s) (incoming_ s) v (replies_ s) (close_scheduled_ s)
           (rand_ s) (init_seed_ s) (resp_seed_ s) (initiator_aes_ s)
           (responder_aes_ s) (received_seed_hdr_ s) (resp_pad_len_ s).
Definition set_replies (v : list Reply) (s : Client) : Client :=
  mkClient (state_ s) (incoming_ s) (outgoing_ s) v (close_scheduled_ s)
           (rand_ s) (init_seed_ s) (resp_seed_ s) (initiator_aes_ s)
           (responder_aes_ s) (received_seed_hdr_ s) (resp_pad_len_ s).
Definition set_close_scheduled (v : bool) (s : Client) : Client :=
  mkClient (state_ s) (incoming_ s) (outgoing_ s) (replies_ s) v
           (rand_ s) (init_seed_ s) (resp_seed_ s) (initiator_aes_ s)
           (responder_aes_ s) (received_seed_hdr_ s) (resp_pad_len_ s).
Definition set_rand (v : Rand.ctx) (s : Client) : Client :=
  mkClient (state_ s) (incoming_ s) (outgoing_ s) (replies_ s) (close_scheduled_ s)
           v (init_seed_ s) (resp_seed_ s) (initiator_aes_ s)
           (responder_aes_ s) (received_seed_hdr_ s) (resp_pad_len_ s).
Definition set_init_seed (v : bytes) (s : Client) : Client :=
  mkClient (state_ s) (incoming_ s) (outgoing_ s) (replies_ s) (close_scheduled_ s)
           (rand_ s) v (resp_seed_ s) (initiator_aes_ s)
           (responder_aes_ s) (received_seed_hdr_ s) (resp_pad_len_ s).
Definition set_resp_seed (v : bytes) (s : Client) : Client :=
  mkClient (state_ s) (incoming_ s) (outgoing_ s) (replies_ s) (close_scheduled_ s)
           (rand_ s) (init_seed_ s) v (initiator_aes_ s)
           (responder_aes_ s) (received_seed_hdr_ s) (resp_pad_len_ s).
Definition set_initiator_aes (v : AesCtr128.ctx) (s : Client) : Client :=
  mkClient (state_ s) (incoming_ s) (outgoing_ s) (replies_ s) (close_scheduled_ s)
           (rand_ s) (init_seed_ s) (resp_seed_ s) v
           (responder_aes_ s) (received_seed_hdr_ s) (resp_pad_len_ s).
Definition set_responder_aes (v : AesCtr128.ctx) (s : Client) : Client :=
  mkClient (state_ s) (incoming_ s) (outgoing_ s) (replies_ s) (close_scheduled_ s)
           (rand_ s) (init_seed_ s) (resp_seed_ s) (initiator_aes_ s)
           v (received_seed_hdr_ s) (resp_pad_len_ s).
Definition set_received_seed_hdr (v : bool) (s : Client) : Client :=
  mkClient (state_ s) (incoming_ s) (outgoing_ s) (replies_ s) (close_scheduled_ s)
           (rand_ s) (init_seed_ s) (resp_seed_ s) (initiator_aes_ s)
           (responder_aes_ s) v (resp_pad_len_ s).
Definition set_resp_pad_len (v : Z) (s : Client) : Client :=
  mkClient (state_ s) (incoming_ s) (outgoing_ s) (replies_ s) (close_scheduled_ s)
           (rand_ s) (init_seed_ s) (resp_seed_ s) (initiator_aes_ s)
           (responder_aes_ s) (received_seed_hdr_ s) v.

(** Modelled from the spec: [send_socks5_response] is a member of the
    session class, which is not among the sources.  The spec: it "writes
    the SOCKS5 reply; on SUCCEEDED flips state to ESTABLISHED; on any other
    reply arranges post-flush close.  Returns true iff reply was
    SUCCEEDED."  The reply record is queued on the output of [incoming_],
    the SOCKS client's endpoint, and the call is logged in [replies_];
    after a refusal the session waits in FLUSHING_INCOMING for the reply to
    be flushed. *)
Definition send_socks5_response (reply : Reply) (s : Client) : bool * Client :=
  let s := set_replies (replies_ s ++ [reply]) s in
  let s := set_incoming
             (mk (input (incoming_ s))
                 (output (incoming_ s) ++ socks5_reply_record reply)) s in
  if Reply_eqb reply kSUCCEDED
  then (true, set_state_ kESTABLISHED s)
  else (false, set_state_ kFLUSHING_INCOMING s).

(** Modelled from the spec: [server_.close_session(this)] "schedules this
    session for destruction after the current callback returns.
    Idempotent." *)
Definition close_session (s : Client) : Client := set_close_scheduled true s.

(** Modelled from the spec: [pad_dist_] is declared in the missing header;
    the spec: "Choose PADLEN uniformly from {0, ..., kMaxPadding}".  One
    32-bit draw, reduced to that range. *)
Definition pad_dist_ (r : Rand.ctx) : Z * Rand.ctx :=
  let '(v, r') := Rand.draw32 r in (v mod (kMaxPadding + 1), r').

Definition init_mac_key : bytes :=
  ascii_bytes [73;110;105;116;105;97;116;111;114;32;
               111;98;102;117;115;99;97;116;105;111;110;32;
               112;97;100;100;105;110;103]%nat.
Definition resp_mac_key : bytes :=
  ascii_bytes [82;101;115;112;111;110;100;101;114;32;
               111;98;102;117;115;99;97;116;105;111;110;32;
               112;97;100;100;105;110;103]%nat.
Definition init_data : bytes :=
  ascii_bytes [73;110;105;116;105;97;116;111;114;32;
               111;98;102;117;115;99;97;116;101;100;32;
               100;97;116;97]%nat.
Definition resp_data : bytes :=
  ascii_bytes [82;101;115;112;111;110;100;101;114;32;
               111;98;102;117;115;99;97;116;101;100;32;
               100;97;116;97]%nat.

Definition fresh_digest : bytes := repeat 0 (Z.to_nat Sha256.kDigestLength).
Definition key_part (b : bytes) : bytes := firstn (Z.to_nat Aes128.kKeyLength) b.
Definition iv_part (b : bytes) : bytes := skipn (Z.to_nat Aes128.kKeyLength) b.

(** [Client::kdf_obfs2].  Fallible calls in order: mac, set_state, mac,
    set_state. *)
Definition kdf_obfs2 (f : Faults) (s : Client) : bool * Client :=
  let to_mac := init_seed_ s ++ resp_seed_ s in
  let sekrit := fresh_digest in
  let '(ok, sekrit) := mac (fault f 0) (Some init_data) (Some to_mac) sekrit in
  if negb ok then (false, s) else
  match AesCtr128.set_state (fault f 1) (key_part sekrit) None (iv_part sekrit) with
  | None => (false, s)
  | Some aes =>
      let s := set_initiator_aes aes s in
      let '(ok, sekrit) := mac (fault f 2) (Some resp_data) (Some to_mac) sekrit in
      if negb ok then (false, s) else
      match AesCtr128.set_state (fault f 3) (key_part sekrit) None (iv_part sekrit) with
      | None => (false, s)
      | Some aes => (true, set_responder_aes aes s)
      end
  end.

Definition general_failure (s : Client) : outcome (bool * Client) :=
  Returned (send_socks5_response kGENERAL_FAILURE s).

(** [Client::on_outgoing_connected].  Fallible calls in order: get_bytes,
    mac, set_state, process, write, write, get_bytes, process, write. *)
Definition on_outgoing_connected (f : Faults) (s : Client) : outcome (bool * Client) :=
  (* Derive INIT_SEED *)
  match Rand.get_bytes (fault f 0) (rand_ s) (Z.to_nat kSeedLength) with
  | None => general_failure s
  | Some (seed, r) =>
  let s := set_init_seed seed (set_rand r s) in
  (* Derive INIT_PAD_KEY *)
  let '(ok, init_pad_key) :=
    mac (fault f 1) (Some init_mac_key) (Some (init_seed_ s)) fresh_digest in
  if negb ok then general_failure s else
  match AesCtr128.set_state (fault f 2) (key_part init_pad_key) None
                            (iv_part init_pad_key) with
  | None => general_failure s
  | Some aes =>
  let s := set_initiator_aes aes s in
  (* Generate the encrypted data *)
  let '(padlen, r) := pad_dist_ (rand_ s) in
  let s := set_rand r s in
  let pad_hdr := htonl_bytes kMagicValue ++ htonl_bytes padlen in
  (* Encrypt *)
  match AesCtr128.process (fault f 3) (initiator_aes_ s) pad_hdr with
  | None => general_failure s
  | Some (pad_hdr, aes) =>
  let s := set_initiator_aes aes s in
  (* Send INIT_SEED *)
  let '(ret, out) := bufferevent_write (fault f 4) (outgoing_ s) (init_seed_ s) in
  if negb (ret =? 0) then general_failure s else
  let s := set_outgoing out s in
  (* Send the header *)
  let '(ret, out) := bufferevent_write (fault f 5) (outgoing_ s) pad_hdr in
  if negb (ret =? 0) then general_failure s else
  let s := set_outgoing out s in
  (* Generate and send the random data *)
  if padlen >? 0 then
    match Rand.get_bytes (fault f 6) (rand_ s) (Z.to_nat padlen) with
    | None => general_failure s
    | Some (padding, r) =>
    let s := set_rand r s in
    match AesCtr128.process (fault f 7) (initiator_aes_ s) padding with
    | None => general_failure s
    | Some (padding, aes) =>
    let s := set_initiator_aes aes s in
    let '(ret, out) := bufferevent_write (fault f 8) (outgoing_ s) padding in
    if negb (ret =? 0) then general_failure s else
    Returned (true, set_outgoing out s)
    end end
  else Returned (true, s)
  end end end.

(** [Client::on_incoming_data].  Fallible calls in order: pullup, process,
    write_buffer.  The cipher writes over the pulled-up bytes, which are
    the head of the queue itself. *)
Definition on_incoming_data (f : Faults) (s : Client) : outcome (bool * Client) :=
  if negb (State_eqb (state_ s) kESTABLISHED) then AssertFailed else
  let buf := input (incoming_ s) in
  let len := evbuffer_get_length buf in
  if len =? 0 then Returned (true, s) else
  match evbuffer_pullup (fault f 0) buf (Z.to_nat len) with
  | None => Returned (false, close_session s)
  | Some p =>
  match AesCtr128.process (fault f 1) (initiator_aes_ s) p with
  | None => Returned (false, close_session s)
  | Some (p, aes) =>
  let s := set_initiator_aes aes s in
  let s := set_incoming (set_input (incoming_ s) (p ++ skipn (Z.to_nat len) buf)) s in
  let '(ret, out, buf) :=
    bufferevent_write_buffer (fault f 2) (outgoing_ s) (input (incoming_ s)) in
  if negb (ret =? 0) then Returned (false, close_session s) else
  Returned (true, set_incoming (set_input (incoming_ s) buf) (set_outgoing out s))
  end end.

(** [resp_seed_] is an array of [kSeedLength] bytes: what it holds after
    [data] was copied to its start. *)
Definition store_seed (old data : bytes) : bytes :=
  firstn (Z.to_nat kSeedLength) (data ++ skipn (length data) old).

(** What the first block of [on_outgoing_data_connecting] ends with: a
    [return], or falling through to the padding block. *)
Inductive flow : Type :=
| Return (r : bool * Client)
| Continue (s : Client).

Definition refuse (s : Client) : flow :=
  Return (send_socks5_response kGENERAL_FAILURE s).

(** The block under [if (!received_seed_hdr_)].  Fallible calls in order:
    remove, mac, set_state, remove, process, then the four of [kdf_obfs2]. *)
Definition read_seed_hdr (f : Faults) (s : Client) : flow :=
  let buf := input (outgoing_ s) in
  let len := evbuffer_get_length buf in
  if len <? kSeedLength + 4 * 2 then Return (true, s) else
  (* Obtain RESP_SEED, and derive RESP_PAD_KEY *)
  let '(n, seed, buf) := evbuffer_remove (fault f 0) buf (Z.to_nat kSeedLength) in
  let s := set_outgoing (set_input (outgoing_ s) buf) s in
  let s := set_resp_seed (store_seed (resp_seed_ s) seed) s in
  if negb (n =? kSeedLength) then refuse s else
  let '(ok, resp_pad_key) :=
    mac (fault f 1) (Some resp_mac_key) (Some (resp_seed_ s)) fresh_digest in
  if negb ok then refuse s else
  match AesCtr128.set_state (fault f 2) (key_part resp_pad_key) None
                            (iv_part resp_pad_key) with
  | None => refuse s
  | Some aes =>
  let s := set_responder_aes aes s in
  (* Validate the header and obtain padlen *)
  let '(n, pad_hdr, buf) := evbuffer_remove (fault f 3) (input (outgoing_ s)) 8 in
  let s := set_outgoing (set_input (outgoing_ s) buf) s in
  if negb (n =? 4 * 2) then refuse s else
  match AesCtr128.process (fault f 4) (responder_aes_ s) pad_hdr with
  | None => refuse s
  | Some (pad_hdr, aes) =>
  let s := set_responder_aes aes s in
  if negb (ntohl_bytes (firstn 4 pad_hdr) =? kMagicValue) then refuse s else
  let s := set_resp_pad_len (ntohl_bytes (skipn 4 pad_hdr)) s in
  if resp_pad_len_ s >? kMaxPadding then refuse s else
  (* Derive the actual keys *)
  let '(ok, s) := kdf_obfs2 (skipn 5 f) s in
  if negb ok then refuse s else
  Continue (set_received_seed_hdr true s)
  end end.

(** The block under "Skip the responder padding" and the final reply. *)
Definition skip_responder_padding (s : Client) : bool * Client :=
  if resp_pad_len_ s >? 0 then
    let buf := input (outgoing_ s) in
    let len := evbuffer_get_length buf in
    let to_drain := Z.min (resp_pad_len_ s) len in
    let s := set_outgoing
               (set_input (outgoing_ s) (evbuffer_drain buf (Z.to_nat to_drain))) s in
    let s := set_resp_pad_len (size_sub (resp_pad_len_ s) to_drain) s in
    if resp_pad_len_ s >? 0 then (true, s)
    else send_socks5_response kSUCCEDED s
  else send_socks5_response kSUCCEDED s.

(** [Client::on_outgoing_data_connecting]. *)
Definition on_outgoing_data_connecting (f : Faults) (s : Client)
  : outcome (bool * Client) :=
  if negb (State_eqb (state_ s) kCONNECTING) then AssertFailed else
  if negb (received_seed_hdr_ s) then
    match read_seed_hdr f s with
    | Return r => Returned r
    | Continue s => Returned (skip_responder_padding s)
    end
  else Returned (skip_responder_padding s).

(** [Client::on_outgoing_data].  Fallible calls in order: pullup, process,
    write_buffer. *)
Definition on_outgoing_data (f : Faults) (s : Client) : outcome (bool * Client) :=
  if negb (State_eqb (state_ s) kESTABLISHED) then AssertFailed else
  let buf := input (outgoing_ s) in
  let len := evbuffer_get_length buf in
  if len =? 0 then Returned (true, s) else
  match evbuffer_pullup (fault f 0) buf (Z.to_nat len) with
  | None => Returned (false, close_session s)
  | Some p =>
  match AesCtr128.process (fault f 1) (responder_aes_ s) p with
  | None => Returned (false, close_session s)
  | Some (p, aes) =>
  let s := set_responder_aes aes s in
  let s := set_outgoing (set_input (outgoing_ s) (p ++ skipn (Z.to_nat len) buf)) s in
  let '(ret, inc, buf) :=
    bufferevent_write_buffer (fault f 2) (incoming_ s) (input (outgoing_ s)) in
  if negb (ret =? 0) then Returned (false, close_session s) else
  Returned (true, set_outgoing (set_input (outgoing_ s) buf) (set_incoming inc s))
  end end.

End Obfs2.

(** ** The earlier client, [Obfs2Client] *)

Module Legacy.

Import Libevent.

(** What [gen_padlen] ends with: a value and the draws left, a failed
    [SL_ASSERT] with the value that failed it, or the recorded draws used
    up while the loop still wants one. *)
Inductive padlen_result : Type :=
| PadLen (ret : Z) (rest : list Z)
| PadAssertFailed (ret : Z)
| PadNoMoreDraws.

(** [Obfs2Client::gen_padlen].  A draw is the 32-bit value one call of
    [evutil_secure_rng_get_bytes(&ret, sizeof(ret))] leaves in [ret]; the
    [do]/[while] loop takes one draw per turn. *)
Fixpoint gen_padlen (draws : list Z) : padlen_result :=
  match draws with
  | [] => PadNoMoreDraws
  | d :: rest =>
      let ret := Z.land (w32 d) 0x2fff in
      if ret >? kMaxPadding then gen_padlen rest
      else if ret <? kMaxPadding then PadLen ret rest
           else PadAssertFailed ret
  end.

(** The members of [Obfs2Client] the embedded functions touch, with the
    random sources they read: OpenSSL's [RAND_bytes], and libevent's secure
    generator as the 32-bit draws it gives [gen_padlen] and the bytes it
    gives the padding.  [incoming_] is the SOCKS client's endpoint;
    [socks4_replies_] logs the arguments of [send_socks4_response]. *)
Record Obfs2Client := mkObfs2Client {
  state_ : State;
  incoming_ : bufferevent;
  outgoing_ : bufferevent;
  socks4_replies_ : list bool;
  init_seed_ : bytes;
  resp_seed_ : bytes;
  initiator_aes_ : AesCtr128.ctx;
  responder_aes_ : AesCtr128.ctx;
  received_seed_hdr_ : bool;
  resp_pad_len_ : Z;
  openssl_rand : Rand.ctx;
  evutil_draws : list Z;
  evutil_rand : Rand.ctx
}.

Definition set_state_ (v : State) (s : Obfs2Client) : Obfs2Client :=
  mkObfs2Client v (incoming_ s) (outgoing_ s) (socks4_replies_ s) (init_seed_ s)
                (resp_seed_ s) (initiator_aes_ s) (responder_aes_ s)
                (received_seed_hdr_ s) (resp_pad_len_ s) (openssl_rand s)
                (evutil_draws s) (evutil_rand s).
Definition set_incoming (v : bufferevent) (s : Obfs2Client) : Obfs2Client :=
  mkObfs2Client (state_ s) v (outgoing_ s) (socks4_replies_ s) (init_seed_ s)
                (resp_seed_ s) (initiator_aes_ s) (responder_aes_ s)
                (received_seed_hdr_ s) (resp_pad_len_ s) (openssl_rand s)
                (evutil_draws s) (evutil_rand s).
Definition set_outgoing (v : bufferevent) (s : Obfs2Client) : Obfs2Client :=
  mkObfs2Client (state_ s) (incoming_ s) v (socks4_replies_ s) (init_seed_ s)
                (resp_seed_ s) (initiator_aes_ s) (responder_aes_ s)
                (received_seed_hdr_ s) (resp_pad_len_ s) (openssl_rand s)
                (evutil_draws s) (evutil_rand s).
Definition set_socks4_replies (v : list bool) (s : Obfs2Client) : Obfs2Client :=
  mkObfs2Client (state_ s) (incoming_ s) (outgoing_ s) v (init_seed_ s)
                (resp_seed_ s) (initiator_aes_ s) (responder_aes_ s)
                (received_seed_hdr_ s) (resp_pad_len_ s) (openssl_rand s)
                (evutil_draws s) (evutil_rand s).
Definition set_init_seed (v : bytes) (s : Obfs2Client) : Obfs2Client :=
  mkObfs2Client (state_ s) (incoming_ s) (outgoing_ s) (socks4_replies_ s) v
                (resp_seed_ s) (initiator_aes_ s) (responder_aes_ s)
                (received_seed_hdr_ s) (resp_pad_len_ s) (openssl_rand s)
                (evutil_draws s) (evutil_rand s).
Definition set_resp_seed (v : bytes) (s : Obfs2Client) : Obfs2Client :=
  mkObfs2Client (state_ s) (incoming_ s) (outgoing_ s) (socks4_replies_ s)
                (init_seed_ s) v (initiator_aes_ s) (responder_aes_ s)
                (received_seed_hdr_ s) (resp_pad_len_ s) (openssl_rand s)
                (evutil_draws s) (evutil_rand s).
Definition set_initiator_aes (v : AesCtr128.ctx) (s : Obfs2Client) : Obfs2Client :=
  mkObfs2Client (state_ s) (incoming_ s) (outgoing_ s) (socks4_replies_ s)
                (init_seed_ s) (resp_seed_ s) v (responder_aes_ s)
                (received_seed_hdr_ s) (resp_pad_len_ s) (openssl_rand s)
                (evutil_draws s) (evutil_rand s).
Definition set_responder_aes (v : AesCtr128.ctx) (s : Obfs2Client) : Obfs2Client :=
  mkObfs2Client (state_ s) (incoming_ s) (outgoing_ s) (socks4_replies_ s)
                (init_seed_ s) (resp_seed_ s) (initiator_aes_ s) v
                (received_seed_hdr_ s) (resp_pad_len_ s) (openssl_rand s)
                (evutil_draws s) (evutil_rand s).
Definition set_received_seed_hdr (v : bool) (s : Obfs2Client) : Obfs2Client :=
  mkObfs2Client (state_ s) (incoming_ s) (outgoing_ s) (socks4_replies_ s)
                (init_seed_ s) (resp_seed_ s) (initiator_aes_ s) (responder_aes_ s)
                v (resp_pad_len_ s) (openssl_rand s) (evutil_draws s)
                (evutil_rand s).
Definition set_resp_pad_len (v : Z) (s : Obfs2Client) : Obfs2Client :=
  mkObfs2Client (state_ s) (incoming_ s) (outgoing_ s) (socks4_replies_ s)
                (init_seed_ s) (resp_seed_ s) (initiator_aes_ s) (responder_aes_ s)
                (received_seed_hdr_ s) v (openssl_rand s) (evutil_draws s)
                (evutil_rand s).
Definition set_openssl_rand (v : Rand.ctx) (s : Obfs2Client) : Obfs2Client :=
  mkObfs2Client (state_ s) (incoming_ s) (outgoing_ s) (socks4_replies_ s)
                (init_seed_ s) (resp_seed_ s) (initiator_aes_ s) (responder_aes_ s)
                (received_seed_hdr_ s) (resp_pad_len_ s) v (evutil_draws s)
                (evutil_rand s).
Definition set_evutil_draws (v : list Z) (s : Obfs2Client) : Obfs2Client :=
  mkObfs2Client (state_ s) (incoming_ s) (outgoing_ s) (socks4_replies_ s)
                (init_seed_ s) (resp_seed_ s) (initiator_aes_ s) (responder_aes_ s)
                (received_seed_hdr_ s) (resp_pad_len_ s) (openssl_rand s) v
                (evutil_rand s).
Definition set_evutil_rand (v : Rand.ctx) (s : Obfs2Client) : Obfs2Client :=
  mkObfs2Client (state_ s) (incoming_ s) (outgoing_ s) (socks4_replies_ s)
                (init_seed_ s) (resp_seed_ s) (initiator_aes_ s) (responder_aes_ s)
                (received_seed_hdr_ s) (resp_pad_len_ s) (openssl_rand s)
                (evutil_draws s) v.

(** Modelled from the spec: [send_socks4_response] belongs to the session
    class of that version, which is not among the sources; it is taken to
    be to SOCKS4 what the spec says of [send_socks5_response]: it queues
    the reply record on the output of [incoming_] and sets the state. *)
Definition send_socks4_response (success : bool) (s : Obfs2Client) : Obfs2Client :=
  set_state_ (if success then kESTABLISHED else kFLUSHING_INCOMING)
    (set_incoming
       (mk (input (incoming_ s))
           (output (incoming_ s) ++ socks4_reply_record success))
       (set_socks4_replies (socks4_replies_ s ++ [success]) s)).

Definition out_error (s : Obfs2Client) : outcome Obfs2Client :=
  Returned (send_socks4_response false s).

(** [Obfs2Client::on_outgoing_connected].  Fallible calls in order:
    RAND_bytes, mac, set_state, process, write, write, write. *)
Definition on_outgoing_connected (f : Faults) (s : Obfs2Client) : outcome Obfs2Client :=
  (* Derive INIT_SEED *)
  match Rand.get_bytes (fault f 0) (openssl_rand s) (Z.to_nat kSeedLength) with
  | None => out_error s
  | Some (seed, r) =>
  let s := set_init_seed seed (set_openssl_rand r s) in
  (* Derive INIT_PAD_KEY *)
  let '(ok, init_pad_key) :=
    mac (fault f 1) (Some Obfs2.init_mac_key) (Some (init_seed_ s)) Obfs2.fresh_digest in
  if negb ok then out_error s else
  match AesCtr128.set_state (fault f 2) (Obfs2.key_part init_pad_key) None
                            (Obfs2.iv_part init_pad_key) with
  | None => out_error s
  | Some aes =>
  let s := set_initiator_aes aes s in
  (* Generate the encrypted data *)
  match gen_padlen (evutil_draws s) with
  | PadNoMoreDraws => NoMoreDraws
  | PadAssertFailed _ => AssertFailed
  | PadLen padlen draws =>
  let s := set_evutil_draws draws s in
  let pad_hdr := htonl_bytes kMagicValue ++ htonl_bytes padlen in
  (* Encrypt *)
  match AesCtr128.process (fault f 3) (initiator_aes_ s) pad_hdr with
  | None => out_error s
  | Some (pad_hdr, aes) =>
  let s := set_initiator_aes aes s in
  (* Send init_seed *)
  let '(ret, out) := bufferevent_write (fault f 4) (outgoing_ s) (init_seed_ s) in
  if negb (ret =? 0) then out_error s else
  let s := set_outgoing out s in
  (* Send the header *)
  let '(ret, out) := bufferevent_write (fault f 5) (outgoing_ s) pad_hdr in
  if negb (ret =? 0) then out_error s else
  let s := set_outgoing out s in
  (* Generate and send the random data; the padding is not encrypted *)
  if padlen >? 0 then
    let padding := Rand.peek (evutil_rand s) (Z.to_nat padlen) in
    let s := set_evutil_rand (Rand.skip (evutil_rand s) (Z.to_nat padlen)) s in
    let '(ret, out) := bufferevent_write (fault f 6) (outgoing_ s) padding in
    if negb (ret =? 0) then out_error s else Returned (set_outgoing out s)
  else Returned s
  end end end end.

(** [Obfs2Client::kdf_obfs2], the text of [Client::kdf_obfs2] but for the
    three-argument [set_state]. *)
Definition kdf_obfs2 (f : Faults) (s : Obfs2Client) : bool * Obfs2Client :=
  let to_mac := init_seed_ s ++ resp_seed_ s in
  let sekrit := Obfs2.fresh_digest in
  let '(ok, sekrit) := mac (fault f 0) (Some Obfs2.init_data) (Some to_mac) sekrit in
  if negb ok then (false, s) else
  match AesCtr128.set_state (fault f 1) (Obfs2.key_part sekrit) None
                            (Obfs2.iv_part sekrit) with
  | None => (false, s)
  | Some aes =>
      let s := set_initiator_aes aes s in
      let '(ok, sekrit) := mac (fault f 2) (Some Obfs2.resp_data) (Some to_mac) sekrit in
      if negb ok then (false, s) else
      match AesCtr128.set_state (fault f 3) (Obfs2.key_part sekrit) None
                                (Obfs2.iv_part sekrit) with
      | None => (false, s)
      | Some aes => (true, set_responder_aes aes s)
      end
  end.

(** What the first block of [on_outgoing_data_connecting] ends with: a
    [return], or falling through to the padding block. *)
Inductive flow : Type :=
| Return (s : Obfs2Client)
| Continue (s : Obfs2Client).

Definition goto_out_error (s : Obfs2Client) : flow :=
  Return (send_socks4_response false s).

(** The block under [if (!received_seed_hdr_)].  Fallible calls in order:
    pullup, mac, set_state, process, then the four of [kdf_obfs2].  The
    header is decrypted where it lies: bytes 16 to 23 of the queue. *)
Definition read_seed_hdr (f : Faults) (s : Obfs2Client) : flow :=
  let seed_hdr_sz := kSeedLength + 4 * 2 in
  let buf := input (outgoing_ s) in
  let len := evbuffer_get_length buf in
  if len <? seed_hdr_sz then Return s else
  match evbuffer_pullup (fault f 0) buf (Z.to_nat seed_hdr_sz) with
  | None => goto_out_error s
  | Some p =>
  (* Obtain RESP_SEED, and derive RESP_PAD_KEY *)
  let s := set_resp_seed
             (Obfs2.store_seed (resp_seed_ s) (firstn (Z.to_nat kSeedLength) p)) s in
  let '(ok, resp_pad_key) :=
    mac (fault f 1) (Some Obfs2.resp_mac_key) (Some (resp_seed_ s))
        Obfs2.fresh_digest in
  if negb ok then goto_out_error s else
  match AesCtr128.set_state (fault f 2) (Obfs2.key_part resp_pad_key) None
                            (Obfs2.iv_part resp_pad_key) with
  | None => goto_out_error s
  | Some aes =>
  let s := set_responder_aes aes s in
  (* Validate the header and obtain padlen *)
  match AesCtr128.process (fault f 3) (responder_aes_ s)
                          (skipn (Z.to_nat kSeedLength) p) with
  | None => goto_out_error s
  | Some (pad_hdr, aes) =>
  let s := set_responder_aes aes s in
  let s := set_outgoing
             (set_input (outgoing_ s)
                (firstn (Z.to_nat kSeedLength) p ++ pad_hdr
                 ++ skipn (Z.to_nat seed_hdr_sz) buf)) s in
  if negb (ntohl_bytes (firstn 4 pad_hdr) =? kMagicValue) then goto_out_error s else
  let s := set_resp_pad_len (ntohl_bytes (skipn 4 pad_hdr)) s in
  if resp_pad_len_ s >? kMaxPadding then goto_out_error s else
  let s := set_outgoing
             (set_input (outgoing_ s)
                (evbuffer_drain (input (outgoing_ s)) (Z.to_nat seed_hdr_sz))) s in
  (* Derive the actual keys *)
  let '(ok, s) := kdf_obfs2 (skipn 4 f) s in
  if negb ok then goto_out_error s else
  Continue (set_received_seed_hdr true s)
  end end end.

(** The block under "Skip the responder padding" and the final reply. *)
Definition skip_responder_padding (s : Obfs2Client) : Obfs2Client :=
  if resp_pad_len_ s >? 0 then
    let buf := input (outgoing_ s) in
    let len := evbuffer_get_length buf in
    let to_drain := Z.min (resp_pad_len_ s) len in
    let s := set_outgoing
               (set_input (outgoing_ s) (evbuffer_drain buf (Z.to_nat to_drain))) s in
    let s := set_resp_pad_len (size_sub (resp_pad_len_ s) to_drain) s in
    if resp_pad_len_ s >? 0 then s
    else send_socks4_response true s
  else send_socks4_response true s.

(** [Obfs2Client::on_outgoing_data_connecting]. *)
Definition on_outgoing_data_connecting (f : Faults) (s : Obfs2Client)
  : outcome Obfs2Client :=
  if negb (State_eqb (state_ s) kCONNECTING) then AssertFailed else
  if negb (received_seed_hdr_ s) then
    match read_seed_hdr f s with
    | Return s => Returned s
    | Continue s => Returned (skip_responder_padding s)
    end
  else Returned (skip_responder_padding s).

End Legacy.

(** ** The SIGINT handler of [main] *)

Module Main.

(** Modelled from the spec: [Socks5Server] is not among the sources; the
    spec gives it [close] ("stop accepting, keep live sessions") and
    [close_sessions] ("tear down all live sessions"). *)
Record Socks5Server := mkServer { accepting : bool; sessions : list nat }.

Definition close (srv : Socks5Server) : Socks5Server :=
  mkServer false (sessions srv).
Definition close_sessions (srv : Socks5Server) : Socks5Server :=
  mkServer (accepting srv) [].

(** The globals [nr_sigints] and [ev_base] (as whether
    [event_base_loopbreak] was called on it) and the list the handler gets
    as its argument. *)
Record Process := mkProcess {
  nr_sigints : Z;
  listeners : list Socks5Server;
  loop_broken : bool
}.

(** [int] increment, two's-complement wrap-around written out. *)
Definition int_incr (n : Z) : Z := (n + 1 + 2 ^ 31) mod 2 ^ 32 - 2 ^ 31.

Definition event_base_loopbreak (p : Process) : Process :=
  mkProcess (nr_sigints p) (listeners p) true.

(** The lambda installed with [evsignal_new(ev_base, SIGINT, cb, &listeners)]. *)
Definition cb (p : Process) : Process :=
  let p := mkProcess (int_incr (nr_sigints p)) (listeners p) (loop_broken p) in
  if nr_sigints p =? 1 then
    mkProcess (nr_sigints p) (map close (listeners p)) (loop_broken p)
  else if nr_sigints p =? 2 then
    (* FALLSTHROUGH *)
    event_base_loopbreak
      (mkProcess (nr_sigints p) (map close_sessions (listeners p)) (loop_broken p))
  else event_base_loopbreak p.

(** [event_base_dispatch] as far as SIGINT goes: each delivered signal runs
    the handler, until the loop has been told to break. *)
Fixpoint event_base_dispatch (signals : nat) (p : Process) : Process :=
  match signals with
  | O => p
  | S n => if loop_broken p then p else event_base_dispatch n (cb p)
  end.

(** The process as [main] leaves it before [event_base_dispatch]. *)
Definition started (servers : list Socks5Server) : Process :=
  mkProcess 0 servers false.

End Main.

(** ** Runs of a session *)

Module Run.

Import Libevent Obfs2.

(** The runtime queues bytes read from the SOCKS client, or from the
    bridge, on the endpoint's input before it calls the session. *)
Definition arrive_incoming (chunk : bytes) (s : Client) : Client :=
  set_incoming (mk (input (incoming_ s) ++ chunk) (output (incoming_ s))) s.
Definition arrive_outgoing (chunk : bytes) (s : Client) : Client :=
  set_outgoing (mk (input (outgoing_ s) ++ chunk) (output (outgoing_ s))) s.

(** The SOCKS client submits the chunks one read at a time; [None] as soon
    as a call does not return true. *)
Fixpoint submit (cs : list bytes) (s : Client) : option Client :=
  match cs with
  | [] => Some s
  | c :: rest =>
      match on_incoming_data no_faults (arrive_incoming c s) with
      | Returned (true, s') => submit rest s'
      | _ => None
      end
  end.

(** The bridge's bytes arrive one read at a time. *)
Fixpoint deliver (ds : list bytes) (s : Client) : option Client :=
  match ds with
  | [] => Some s
  | d :: rest =>
      match on_outgoing_data no_faults (arrive_outgoing d s) with
      | Returned (true, s') => deliver rest s'
      | _ => None
      end
  end.

(** The test peer of the spec's splice scenario: it holds the two
    contexts as the session had them when the splice began, takes the
    initiator keystream off what it receives and echoes the result under
    the responder keystream. *)
Definition peer_echo (init resp : AesCtr128.ctx) (wire : bytes) : option bytes :=
  match AesCtr128.process false init wire with
  | None => None
  | Some (plain, _) =>
      match AesCtr128.process false resp plain with
      | None => None
      | Some (echo, _) => Some echo
      end
  end.

(** The handshake reads of a session: each read of the bridge's bytes
    calls [on_outgoing_data_connecting] while the session is CONNECTING;
    the run ends when a call refuses (returns false) or the state has left
    CONNECTING. *)
Fixpoint handshake (reads : list (Faults * bytes)) (s : Client) : outcome Client :=
  match reads with
  | [] => Returned s
  | (f, chunk) :: rest =>
      if State_eqb (state_ s) kCONNECTING then
        match on_outgoing_data_connecting f (arrive_outgoing chunk s) with
        | Returned (true, s') => handshake rest s'
        | Returned (false, s') => Returned s'
        | AssertFailed => AssertFailed
        | NoMoreDraws => NoMoreDraws
        end
      else Returned s
  end.

(** A responder's hello for [seed]: the seed, then header and padding under
    the responder pad cipher. *)
Definition responder_hello (seed : bytes) (magic padlen : Z) (padding : bytes) : bytes :=
  let '(_, k) := mac false (Some resp_mac_key) (Some seed) fresh_digest in
  seed ++ xor_bytes (htonl_bytes magic ++ htonl_bytes padlen ++ padding)
                    (AesCtr128.keystream (key_part k) (iv_part k) 0
                                         (8 + length padding)).

(** A session as the SOCKS front-end hands it over: CONNECTING, nothing
    buffered, no keys. *)
Definition connecting (r : Rand.ctx) : Client :=
  mkClient kCONNECTING (mk [] []) (mk [] []) [] false r
           (repeat 0 16) (repeat 0 16) AesCtr128.unset AesCtr128.unset false 0.

(** A random source whose first draws are: a seed 16, 17, ..., 31 and a
    padding length of 5. *)
Definition sample_rand : Rand.ctx :=
  Rand.mk (fun i => if (i <? 16)%nat then 16 + Z.of_nat i
                    else if (i <? 19)%nat then 0
                    else if (i =? 19)%nat then 5
                    else Z.of_nat (3 * i)) 0.

Definition sample_peer_seed : bytes := map Z.of_nat (seq 100 16).

End Run.

(** ** The earlier client's splice *)

Module LegacySplice.

Import Libevent.

(** An [Obfs2Client] with what its two data callbacks touch besides its
    members: whether the object was deleted. *)
Record Session := mkSession {
  members : Legacy.Obfs2Client;
  deleted : bool
}.

Definition set_members (v : Legacy.Obfs2Client) (x : Session) : Session :=
  mkSession v (deleted x).

(** [delete this]. *)
Definition delete_this (x : Session) : Session := mkSession (members x) true.

(** [Obfs2Client::on_incoming_data].  Fallible calls in order: pullup,
    process, write.  The cipher writes over the pulled-up bytes, which are
    the head of the queue itself; the queue is drained after the write. *)
Definition on_incoming_data (f : Faults) (x : Session) : Session :=
  if negb (State_eqb (Legacy.state_ (members x)) kESTABLISHED) then x else
  let buf := input (Legacy.incoming_ (members x)) in
  let len := evbuffer_get_length buf in
  if len =? 0 then x else
  match evbuffer_pullup (fault f 0) buf (Z.to_nat len) with
  | None => delete_this x
  | Some p =>
  match AesCtr128.process (fault f 1) (Legacy.initiator_aes_ (members x)) p with
  | None => delete_this x
  | Some (p, aes) =>
  let x := set_members (Legacy.set_initiator_aes aes (members x)) x in
  let x := set_members
             (Legacy.set_incoming
                (set_input (Legacy.incoming_ (members x))
                           (p ++ skipn (Z.to_nat len) buf)) (members x)) x in
  let '(ret, out) :=
    bufferevent_write (fault f 2) (Legacy.outgoing_ (members x)) p in
  if negb (ret =? 0) then delete_this x else
  let x := set_members (Legacy.set_outgoing out (members x)) x in
  set_members
    (Legacy.set_incoming
       (set_input (Legacy.incoming_ (members x))
          (evbuffer_drain (input (Legacy.incoming_ (members x))) (Z.to_nat len)))
       (members x)) x
  end end.

(** [Obfs2Client::on_outgoing_data].  Fallible calls in order: pullup,
    process, write. *)
Definition on_outgoing_data (f : Faults) (x : Session) : Session :=
  if negb (State_eqb (Legacy.state_ (members x)) kESTABLISHED) then x else
  let buf := input (Legacy.outgoing_ (members x)) in
  let len := evbuffer_get_length buf in
  if len =? 0 then x else
  match evbuffer_pullup (fault f 0) buf (Z.to_nat len) with
  | None => delete_this x
  | Some p =>
  match AesCtr128.process (fault f 1) (Legacy.responder_aes_ (members x)) p with
  | None => delete_this x
  | Some (p, aes) =>
  let x := set_members (Legacy.set_responder_aes aes (members x)) x in
  let x := set_members
             (Legacy.set_outgoing
                (set_input (Legacy.outgoing_ (members x))
                           (p ++ skipn (Z.to_nat len) buf)) (members x)) x in
  let '(ret, inc) :=
    bufferevent_write (fault f 2) (Legacy.incoming_ (members x)) p in
  if negb (ret =? 0) then delete_this x else
  let x := set_members (Legacy.set_incoming inc (members x)) x in
  set_members
    (Legacy.set_outgoing
       (set_input (Legacy.outgoing_ (members x))
          (evbuffer_drain (input (Legacy.outgoing_ (members x))) (Z.to_nat len)))
       (members x)) x
  end end.

End LegacySplice.

(** ** Start-up: [init_statedir], [init_libevent], [init_pt] and [main] *)

Module Startup.

Import String.StringSyntax.
Local Open Scope string_scope.

Definition kObfs2MethodName : String.string := "obfs2".
Definition kObfs3MethodName : String.string := "obfs3".
Definition kScrambleSuitMethodName : String.string := "scramblesuit".

(** What the world outside answers [main]: the parsed command line
    ([parse.error()] and the entries of [options]), the pluggable-transport
    configuration library (whether [allium_ptcfg_init] gives a
    configuration, [allium_ptcfg_is_server], the value the second
    [allium_ptcfg_state_dir] returns, and the value of
    [allium_ptcfg_method_requested] for a name), whether the n-th call of
    [event_base_new] gives a base, and whether [bind] and [addr] succeed on
    the listener of a method. *)
Record Host := mkHost {
  parse_error : bool;
  kHELP : bool;
  kUNKNOWN : bool;
  kVERSION : bool;
  kDEBUG : bool;
  kUNSAFE_LOGS : bool;
  kWAIT_FOR_DEBUGGER : bool;
  allium_ptcfg_init : bool;
  allium_ptcfg_is_server : bool;
  allium_ptcfg_state_dir : Z;
  allium_ptcfg_method_requested : String.string -> Z;
  event_base_new : nat -> bool;
  bind : String.string -> bool;
  addr : String.string -> bool
}.

(** The calls [main] makes that the outside sees: what it prints, and what
    it tells the configuration library. *)
Inductive Call : Type :=
| printUsage
| printVersion
| allium_ptcfg_method_error (name msg : String.string)
| allium_ptcfg_cmethod_report (name : String.string) (socks_ver : Z)
| allium_ptcfg_methods_done
| allium_ptcfg_free.

(** A listener as [init_pt] constructs it: the factory of its method, and
    [scrub_addrs]. *)
Record Listener := mkListener { factory : String.string; scrub_addrs : bool }.

(** The global [ev_base] (whether it is not null, and how often
    [event_base_new] was called), the two lists of [main], the number of
    objects [init_pt] has created with [new] and not deleted, and the calls
    made so far. *)
Record Program := mkProgram {
  ev_base : bool;
  event_base_new_calls : nat;
  factories : list String.string;
  listeners : list Listener;
  allocated : nat;
  calls : list Call
}.

Definition start : Program := mkProgram false 0 [] [] 0 [].

Definition call (c : Call) (p : Program) : Program :=
  mkProgram (ev_base p) (event_base_new_calls p) (factories p) (listeners p)
            (allocated p) (calls p ++ [c]).

(** [init_statedir]: false when the second [allium_ptcfg_state_dir] does
    not return 0. *)
Definition init_statedir (h : Host) : bool := allium_ptcfg_state_dir h =? 0.

(** [init_libevent]. *)
Definition init_libevent (h : Host) (p : Program) : bool * Program :=
  let p :=
    if negb (ev_base p)
    then mkProgram (event_base_new h (event_base_new_calls p))
                   (S (event_base_new_calls p)) (factories p) (listeners p)
                   (allocated p) (calls p)
    else p in
  (ev_base p, p).

(** The label [out_free] of [init_pt]: both objects are deleted. *)
Definition out_free (p : Program) : bool * Program :=
  (false,
   mkProgram (ev_base p) (event_base_new_calls p) (factories p) (listeners p)
             (allocated p - 2) (calls p)).

(** [init_pt<Factory>], with the factory named by its method. *)
Definition init_pt (h : Host) (name : String.string) (scrub_addrs : bool)
           (p : Program) : bool * Program :=
  if negb (allium_ptcfg_method_requested h name =? 1) then (false, p) else
  let '(ok, p) := init_libevent h p in
  if negb ok then (false, call (allium_ptcfg_method_error name "event_base_new()") p)
  else
  (* new Factory, new Socks5Server *)
  let p := mkProgram (ev_base p) (event_base_new_calls p) (factories p)
                     (listeners p) (allocated p + 2) (calls p) in
  if negb (bind h name)
  then out_free (call (allium_ptcfg_method_error name "Socks5::bind()") p)
  else
  if negb (addr h name)
  then out_free (call (allium_ptcfg_method_error name "Socks5::addr()") p)
  else
  let p := mkProgram (ev_base p) (event_base_new_calls p)
                     (factories p ++ [name])
                     (listeners p ++ [mkListener name scrub_addrs])
                     (allocated p) (calls p) in
  (true, call (allium_ptcfg_cmethod_report name 5) p).

(** How [main] ends: it returns a value; or it enters
    [event_base_dispatch] and returns 0 when the loop ends; or it stays in
    [while (wait_for_debugger) sleep(0)], which nothing in the program
    ends; or its [SL_ASSERT] fails. *)
Inductive Ending : Type :=
| Returns (code : Z) (p : Program)
| Dispatches (p : Program)
| Sleeps
| Asserts (p : Program).

(** [main]. *)
Definition main (h : Host) : Ending :=
  (* Parse the command line arguments *)
  if parse_error h then Returns 1 start else
  if kHELP h || kUNKNOWN h then Returns 0 (call printUsage start) else
  if kVERSION h then Returns 0 (call printVersion start) else
  let scrub_ips := negb (kUNSAFE_LOGS h) in
  if kWAIT_FOR_DEBUGGER h then Sleeps else
  (* Start the PT configuration *)
  if negb (allium_ptcfg_init h) then Returns (-1) start else
  if allium_ptcfg_is_server h
  then Returns (-1) (call allium_ptcfg_free (call allium_ptcfg_methods_done start))
  else
  (* Determine the state directory and initialize logging *)
  if negb (init_statedir h)
  then Returns (-1) (call allium_ptcfg_free (call allium_ptcfg_methods_done start))
  else
  (* init_logging(state_dir, debug) configures the logger and nothing else *)
  (* Attempt to initialize the supported PTs *)
  let dispatch_loop := false in
  let '(r, p) := init_pt h kObfs3MethodName scrub_ips start in
  let dispatch_loop := dispatch_loop || r in
  let '(r, p) := init_pt h kObfs2MethodName scrub_ips p in
  let dispatch_loop := dispatch_loop || r in
  let '(r, p) := init_pt h kScrambleSuitMethodName scrub_ips p in
  let dispatch_loop := dispatch_loop || r in
  (* Done with the config! *)
  let p := call allium_ptcfg_free (call allium_ptcfg_methods_done p) in
  if negb (length (factories p) =? length (listeners p))%nat then Asserts p else
  if dispatch_loop then Dispatches p else Returns 0 p.

End Startup.

(** * Notions the statements use, and sample sessions *)

(** An ESTABLISHED session with keyed ciphers and empty read buffers. *)
Definition sample_established : Obfs2.Client :=
  Obfs2.mkClient kESTABLISHED (Libevent.mk [] []) (Libevent.mk [] [7; 7])
                 [kSUCCEDED] false Run.sample_rand
                 (map Z.of_nat (seq 16 16)) Run.sample_peer_seed
                 (AesCtr128.mk true (map Z.of_nat (seq 0 16)) (repeat 255 16) 0)
                 (AesCtr128.mk true (map Z.of_nat (seq 32 16)) (repeat 1 16) 0)
                 true 0.

(** The context [kdf_obfs2] and the handshake install for a secret. *)
Definition keyed_from (secret : bytes) : AesCtr128.ctx :=
  AesCtr128.mk true (Obfs2.key_part secret) (Obfs2.iv_part secret) 0.

Definition init_secret (init_seed resp_seed : bytes) : bytes :=
  Sha256.sha256 (Obfs2.init_data ++ (init_seed ++ resp_seed) ++ Obfs2.init_data).
Definition resp_secret (init_seed resp_seed : bytes) : bytes :=
  Sha256.sha256 (Obfs2.resp_data ++ (init_seed ++ resp_seed) ++ Obfs2.resp_data).

(** The session [kdf_obfs2] leaves when it returns true. *)
Definition with_session_keys (s : Obfs2.Client) : Obfs2.Client :=
  Obfs2.set_responder_aes
    (keyed_from (resp_secret (Obfs2.init_seed_ s) (Obfs2.resp_seed_ s)))
    (Obfs2.set_initiator_aes
       (keyed_from (init_secret (Obfs2.init_seed_ s) (Obfs2.resp_seed_ s))) s).

(** The spec's test vector: both seeds all-zero. *)
Definition zero_seeds_session : Obfs2.Client := Run.connecting Run.sample_rand.

Definition zero_seeds_init_secret : bytes :=
  [146; 13; 246; 50; 141; 167; 91; 201; 142; 125; 89; 203; 85; 111; 135; 33;
   38; 14; 79; 225; 231; 63; 218; 249; 5; 26; 14; 129; 110; 166; 58; 68].

Definition zero_seeds_resp_secret : bytes :=
  [21; 214; 79; 229; 153; 198; 211; 124; 20; 117; 126; 173; 211; 217; 92; 47;
   86; 213; 184; 211; 185; 179; 151; 34; 106; 170; 172; 220; 173; 201; 186; 50].

(** What the first 24 buffered bytes say, computed apart from the session:
    the pad secret of the responder's seed and the header it decrypts. *)
Definition responder_pad_secret (seed : bytes) : bytes :=
  Sha256.sha256 (Obfs2.resp_mac_key ++ seed ++ Obfs2.resp_mac_key).

Definition responder_header (buf : bytes) : bytes :=
  let k := responder_pad_secret (firstn 16 buf) in
  xor_bytes (firstn 8 (skipn 16 buf))
            (AesCtr128.keystream (Obfs2.key_part k) (Obfs2.iv_part k) 0 8).

Definition header_magic (buf : bytes) : Z :=
  ntohl_bytes (firstn 4 (responder_header buf)).
Definition header_padlen (buf : bytes) : Z :=
  ntohl_bytes (skipn 4 (responder_header buf)).

(** The session after seed and header were read and the keys derived. *)
Definition after_seed_hdr (s : Obfs2.Client) : Obfs2.Client :=
  let buf := Libevent.input (Obfs2.outgoing_ s) in
  let seed := firstn 16 buf in
  Obfs2.mkClient
    (Obfs2.state_ s) (Obfs2.incoming_ s)
    (Libevent.mk (skipn 24 buf) (Libevent.output (Obfs2.outgoing_ s)))
    (Obfs2.replies_ s) (Obfs2.close_scheduled_ s) (Obfs2.rand_ s)
    (Obfs2.init_seed_ s) seed
    (keyed_from (init_secret (Obfs2.init_seed_ s) seed))
    (keyed_from (resp_secret (Obfs2.init_seed_ s) seed))
    true (header_padlen buf).

(** A session that was refused from [s]: GENERAL_FAILURE was sent, the
    session waits to be closed, and at most the 24 bytes of seed and header
    were taken from the buffer. *)
Definition refused_from (s s' : Obfs2.Client) : Prop :=
  Obfs2.replies_ s' = Obfs2.replies_ s ++ [kGENERAL_FAILURE]
  /\ Obfs2.state_ s' = kFLUSHING_INCOMING
  /\ Obfs2.received_seed_hdr_ s' = Obfs2.received_seed_hdr_ s
  /\ Obfs2.init_seed_ s' = Obfs2.init_seed_ s
  /\ exists n, (n <= 24)%nat
       /\ Libevent.input (Obfs2.outgoing_ s')
          = skipn n (Libevent.input (Obfs2.outgoing_ s)).

(** Two sessions with a hello buffered: one whose header carries the magic
    0xDEADBEEF, one whose header announces 9000 bytes of padding. *)
Definition bad_magic_session : Obfs2.Client :=
  Run.arrive_outgoing (Run.responder_hello Run.sample_peer_seed 0xDEADBEEF 0 [])
                      (Run.connecting Run.sample_rand).
Definition oversized_session : Obfs2.Client :=
  Run.arrive_outgoing (Run.responder_hello Run.sample_peer_seed kMagicValue 9000 [])
                      (Run.connecting Run.sample_rand).

(** A session with ten bytes of a hello buffered, and one with a whole
    hello (three bytes of padding) and two bytes of data behind it. *)
Definition short_session : Obfs2.Client :=
  Run.arrive_outgoing (map Z.of_nat (seq 100 10)) (Run.connecting Run.sample_rand).
Definition hello_session : Obfs2.Client :=
  Run.arrive_outgoing
    (Run.responder_hello Run.sample_peer_seed kMagicValue 3 [9; 9; 9] ++ [1; 2])
    (Run.connecting Run.sample_rand).

(** Once seed and header were read, both ciphers are the ones [kdf_obfs2]
    keyed, and none of their stream was used. *)
Definition session_keyed (s : Obfs2.Client) : Prop :=
  Obfs2.received_seed_hdr_ s = true ->
  Obfs2.initiator_aes_ s
  = keyed_from (init_secret (Obfs2.init_seed_ s) (Obfs2.resp_seed_ s))
  /\ Obfs2.responder_aes_ s
     = keyed_from (resp_secret (Obfs2.init_seed_ s) (Obfs2.resp_seed_ s)).

(** The pad secret of an initiator seed, and the hello [Client] sends for a
    seed, a padding length and padding bytes: seed in clear, then header and
    padding under the pad cipher, one stream from position 0. *)
Definition initiator_pad_secret (seed : bytes) : bytes :=
  Sha256.sha256 (Obfs2.init_mac_key ++ seed ++ Obfs2.init_mac_key).

Definition initiator_header (padlen : Z) : bytes :=
  htonl_bytes kMagicValue ++ htonl_bytes padlen.

Definition initiator_hello (seed : bytes) (padlen : Z) (padding : bytes) : bytes :=
  let k := initiator_pad_secret seed in
  seed
  ++ xor_bytes (initiator_header padlen)
               (AesCtr128.keystream (Obfs2.key_part k) (Obfs2.iv_part k) 0 8)
  ++ xor_bytes padding
               (AesCtr128.keystream (Obfs2.key_part k) (Obfs2.iv_part k) 8
                                    (length padding)).

(** What the random source gives a call of [on_outgoing_connected]. *)
Definition drawn_seed (r : Rand.ctx) : bytes := Rand.peek r 16.
Definition drawn_padlen (r : Rand.ctx) : Z := fst (Obfs2.pad_dist_ (Rand.skip r 16)).
Definition drawn_padding (r : Rand.ctx) : bytes :=
  Rand.peek (snd (Obfs2.pad_dist_ (Rand.skip r 16))) (Z.to_nat (drawn_padlen r)).

(** A session of the earlier client, about to send its hello: libevent's
    generator will give [gen_padlen] the draws 0x3001 (rejected: it masks to
    8193) and 5, and the padding the bytes 200, 201, ... *)
Definition legacy_connecting : Legacy.Obfs2Client :=
  Legacy.mkObfs2Client kCONNECTING (Libevent.mk [] []) (Libevent.mk [] []) []
                       (repeat 0 16)
                       (repeat 0 16) AesCtr128.unset AesCtr128.unset false 0
                       Run.sample_rand [0x3001; 5]
                       (Rand.mk (fun i => 200 + Z.of_nat i) 0).

(** The same session when the generator's first draw is 0x2000. *)
Definition legacy_unlucky : Legacy.Obfs2Client :=
  Legacy.set_evutil_draws [0x2000; 5] legacy_connecting.

(** The sample session after its hello went out, and after the responder's
    hello (three bytes of padding, two bytes of data behind it) came in. *)
Definition connected_session : Obfs2.Client :=
  match Obfs2.on_outgoing_connected no_faults (Run.connecting Run.sample_rand) with
  | Returned (_, s) => s
  | _ => Run.connecting Run.sample_rand
  end.

Definition sample_hello : bytes :=
  Run.responder_hello Run.sample_peer_seed kMagicValue 3 [9; 9; 9] ++ [1; 2].

Definition handshaken_session : Obfs2.Client :=
  match Run.handshake [(no_faults, sample_hello)] connected_session with
  | Returned s => s
  | _ => connected_session
  end.

(** The stream a context will produce for its next [n] bytes. *)
Definition next_keystream (c : AesCtr128.ctx) (n : nat) : bytes :=
  AesCtr128.keystream (AesCtr128.key c) (AesCtr128.iv c) (AesCtr128.pos c) n.

(** The context after [n] more bytes. *)
Definition advanced (c : AesCtr128.ctx) (n : nat) : AesCtr128.ctx :=
  AesCtr128.mk true (AesCtr128.key c) (AesCtr128.iv c) (AesCtr128.pos c + n).

(** What [on_incoming_data] does with the bytes [x] it finds buffered:
    they leave under the initiator stream, and nothing else moves. *)
Definition submitted (x : bytes) (s s' : Obfs2.Client) : Prop :=
  Obfs2.state_ s' = Obfs2.state_ s
  /\ Libevent.input (Obfs2.incoming_ s') = []
  /\ Libevent.output (Obfs2.incoming_ s') = Libevent.output (Obfs2.incoming_ s)
  /\ Libevent.input (Obfs2.outgoing_ s') = Libevent.input (Obfs2.outgoing_ s)
  /\ Libevent.output (Obfs2.outgoing_ s')
     = Libevent.output (Obfs2.outgoing_ s)
       ++ xor_bytes x (next_keystream (Obfs2.initiator_aes_ s) (length x))
  /\ Obfs2.initiator_aes_ s' = advanced (Obfs2.initiator_aes_ s) (length x)
  /\ Obfs2.responder_aes_ s' = Obfs2.responder_aes_ s
  /\ Obfs2.close_scheduled_ s' = Obfs2.close_scheduled_ s.

(** The same for [on_outgoing_data] and the responder stream. *)
Definition delivered (x : bytes) (s s' : Obfs2.Client) : Prop :=
  Obfs2.state_ s' = Obfs2.state_ s
  /\ Libevent.input (Obfs2.outgoing_ s') = []
  /\ Libevent.output (Obfs2.outgoing_ s') = Libevent.output (Obfs2.outgoing_ s)
  /\ Libevent.input (Obfs2.incoming_ s') = Libevent.input (Obfs2.incoming_ s)
  /\ Libevent.output (Obfs2.incoming_ s')
     = Libevent.output (Obfs2.incoming_ s)
       ++ xor_bytes x (next_keystream (Obfs2.responder_aes_ s) (length x))
  /\ Obfs2.responder_aes_ s' = advanced (Obfs2.responder_aes_ s) (length x)
  /\ Obfs2.initiator_aes_ s' = Obfs2.initiator_aes_ s
  /\ Obfs2.close_scheduled_ s' = Obfs2.close_scheduled_ s.

(** The sample session sends "obfs2" in chunks of 2, 0 and 3 bytes and reads
    the echo in chunks of 4 and 1. *)
Definition sample_chunks : list bytes := [[111; 98]; []; [102; 115; 50]].

Definition sample_echo_reads : list bytes :=
  match Run.peer_echo (Obfs2.initiator_aes_ sample_established)
                      (Obfs2.responder_aes_ sample_established)
                      (xor_bytes (concat sample_chunks)
                         (next_keystream (Obfs2.initiator_aes_ sample_established) 5))
  with
  | Some echo => [firstn 4 echo; skipn 4 echo]
  | None => []
  end.

(** Reads of an ESTABLISHED session, from either side and in any order:
    each one queues its bytes on the endpoint's input and calls the
    session; [None] as soon as a call does not return true. *)
Inductive read : Type :=
| FromClient (chunk : bytes)
| FromBridge (chunk : bytes).

Fixpoint splice (rs : list read) (s : Obfs2.Client) : option Obfs2.Client :=
  match rs with
  | [] => Some s
  | FromClient c :: rest =>
      match Obfs2.on_incoming_data no_faults (Run.arrive_incoming c s) with
      | Returned (true, s') => splice rest s'
      | _ => None
      end
  | FromBridge d :: rest =>
      match Obfs2.on_outgoing_data no_faults (Run.arrive_outgoing d s) with
      | Returned (true, s') => splice rest s'
      | _ => None
      end
  end.

(** What each side sent in all, in order. *)
Fixpoint client_bytes (rs : list read) : bytes :=
  match rs with
  | [] => []
  | FromClient c :: rest => c ++ client_bytes rest
  | FromBridge _ :: rest => client_bytes rest
  end.

Fixpoint bridge_bytes (rs : list read) : bytes :=
  match rs with
  | [] => []
  | FromClient _ :: rest => bridge_bytes rest
  | FromBridge d :: rest => d ++ bridge_bytes rest
  end.

(** The sample session with three bytes from the SOCKS client buffered, and
    with three bytes from the bridge buffered. *)
Definition sample_with_client_bytes : Obfs2.Client :=
  Run.arrive_incoming [1; 2; 3] sample_established.
Definition sample_with_bridge_bytes : Obfs2.Client :=
  Run.arrive_outgoing [1; 2; 3] sample_established.

(** Reads of the sample session from both sides, interleaved. *)
Definition sample_reads : list read :=
  [FromClient [111; 98]; FromBridge [7]; FromClient []; FromBridge [8; 9];
   FromClient [102; 115; 50]].

(** What a handshake call leaves alone: what was read from the SOCKS
    client, what is queued for the bridge, the close flag, the random source
    and the initiator's seed. *)
Definition kept (s s' : Obfs2.Client) : Prop :=
  Libevent.input (Obfs2.incoming_ s') = Libevent.input (Obfs2.incoming_ s)
  /\ Libevent.output (Obfs2.outgoing_ s') = Libevent.output (Obfs2.outgoing_ s)
  /\ Obfs2.close_scheduled_ s' = Obfs2.close_scheduled_ s
  /\ Obfs2.rand_ s' = Obfs2.rand_ s
  /\ Obfs2.init_seed_ s' = Obfs2.init_seed_ s.

(** How a handshake call, or a run of them, can leave the state, the
    reply log and what is queued for the SOCKS client: still CONNECTING and
    no reply, ESTABLISHED after the one reply SUCCEDED, or waiting to be
    closed after the one reply GENERAL_FAILURE; the record of the reply is
    all that was queued for the SOCKS client. *)
Definition replied_at_most_once (s s' : Obfs2.Client) : Prop :=
  (Obfs2.state_ s' = kCONNECTING
   /\ Obfs2.replies_ s' = Obfs2.replies_ s
   /\ Libevent.output (Obfs2.incoming_ s') = Libevent.output (Obfs2.incoming_ s))
  \/ (Obfs2.state_ s' = kESTABLISHED
      /\ Obfs2.replies_ s' = Obfs2.replies_ s ++ [kSUCCEDED]
      /\ Libevent.output (Obfs2.incoming_ s')
         = Libevent.output (Obfs2.incoming_ s) ++ socks5_reply_record kSUCCEDED
      /\ Obfs2.received_seed_hdr_ s' = true
      /\ Obfs2.resp_pad_len_ s' = 0)
  \/ (Obfs2.state_ s' = kFLUSHING_INCOMING
      /\ Obfs2.replies_ s' = Obfs2.replies_ s ++ [kGENERAL_FAILURE]
      /\ Libevent.output (Obfs2.incoming_ s')
         = Libevent.output (Obfs2.incoming_ s)
           ++ socks5_reply_record kGENERAL_FAILURE).

(** The padding count is within bounds once the header was accepted. *)
Definition pad_len_bounded (s : Obfs2.Client) : Prop :=
  Obfs2.received_seed_hdr_ s = true ->
  0 <= Obfs2.resp_pad_len_ s <= kMaxPadding.

(** The responder's hello of the samples cut in two reads, the second one
    with a failing library call. *)
Definition sample_faulty_reads : list (Faults * bytes) :=
  [(no_faults, firstn 10 sample_hello); ([true], skipn 10 sample_hello)].

(** The same hello in reads of seven bytes. *)
Definition sample_hello_reads : list bytes := chunks 5 7 sample_hello.

(** Where a handshake stands while the bytes [got] received so far are a
    proper part of the responder's hello that begins [all]: the session is
    CONNECTING and has not replied; before the 24 bytes of seed and header
    are there it has kept every byte, afterwards it has kept none and counts
    the padding still to come. *)
Definition hello_pending (s0 s : Obfs2.Client) (all got : bytes) : Prop :=
  Obfs2.state_ s = kCONNECTING
  /\ Obfs2.replies_ s = Obfs2.replies_ s0
  /\ Libevent.output (Obfs2.incoming_ s) = Libevent.output (Obfs2.incoming_ s0)
  /\ kept s0 s
  /\ ((Obfs2.received_seed_hdr_ s = false
       /\ Libevent.input (Obfs2.outgoing_ s) = got
       /\ Z.of_nat (length got) < 24)
      \/ (Obfs2.received_seed_hdr_ s = true
          /\ Libevent.input (Obfs2.outgoing_ s) = []
          /\ Obfs2.resp_seed_ s = firstn 16 all
          /\ Obfs2.resp_pad_len_ s
             = 24 + header_padlen all - Z.of_nat (length got)
          /\ 24 <= Z.of_nat (length got) < 24 + header_padlen all)).

(** Where it stands once [got] holds the whole hello: ESTABLISHED after the
    reply SUCCEDED, whose record is queued for the SOCKS client, with what
    followed the padding still buffered. *)
Definition hello_read (s0 s : Obfs2.Client) (all got : bytes) : Prop :=
  Obfs2.state_ s = kESTABLISHED
  /\ Obfs2.replies_ s = Obfs2.replies_ s0 ++ [kSUCCEDED]
  /\ Libevent.output (Obfs2.incoming_ s)
     = Libevent.output (Obfs2.incoming_ s0) ++ socks5_reply_record kSUCCEDED
  /\ kept s0 s
  /\ Obfs2.received_seed_hdr_ s = true
  /\ Obfs2.resp_seed_ s = firstn 16 all
  /\ Obfs2.resp_pad_len_ s = 0
  /\ Libevent.input (Obfs2.outgoing_ s)
     = skipn (24 + Z.to_nat (header_padlen all)) got.

(** Reads that all succeed. *)
Definition unfailing (cs : list bytes) : list (Faults * bytes) :=
  map (fun c => (no_faults, c)) cs.

(** The session of the earlier client seen as a [Client]: a SOCKS4 reply
    is the SOCKS5 reply of the same meaning, a deleted object is a session
    whose close is scheduled, and OpenSSL's generator is the random source. *)
Definition socks5_reply (success : bool) : Reply :=
  if success then kSUCCEDED else kGENERAL_FAILURE.

Definition as_client (x : LegacySplice.Session) : Obfs2.Client :=
  let m := LegacySplice.members x in
  Obfs2.mkClient (Legacy.state_ m) (Legacy.incoming_ m) (Legacy.outgoing_ m)
                 (map socks5_reply (Legacy.socks4_replies_ m))
                 (LegacySplice.deleted x) (Legacy.openssl_rand m)
                 (Legacy.init_seed_ m) (Legacy.resp_seed_ m)
                 (Legacy.initiator_aes_ m) (Legacy.responder_aes_ m)
                 (Legacy.received_seed_hdr_ m) (Legacy.resp_pad_len_ m).

(** What the earlier client leaves in the read queue when it refuses a
    header: the seed, the header decrypted where it lay, and the rest. *)
Definition header_in_clear (buf : bytes) : bytes :=
  firstn 16 buf ++ responder_header buf ++ skipn 24 buf.

(** A session of the earlier client with the responder's hello of the
    samples buffered. *)
Definition legacy_hello_session : LegacySplice.Session :=
  LegacySplice.mkSession
    (Legacy.set_outgoing (Libevent.mk sample_hello []) legacy_connecting) false.

(** How [init_pt] answers for a method: nothing when the method was not
    requested, and otherwise the one report of the method, or one error
    of the method. *)
Definition answered (h : Startup.Host) (name : String.string)
           (a : list Startup.Call) : Prop :=
  (Startup.allium_ptcfg_method_requested h name <> 1 /\ a = [])
  \/ (Startup.allium_ptcfg_method_requested h name = 1
      /\ (a = [Startup.allium_ptcfg_cmethod_report name 5]
          \/ exists msg, a = [Startup.allium_ptcfg_method_error name msg])).

(** The hosts on which [main] gets as far as the transports: a command
    line without errors that asks for neither help nor the version nor the
    debugger's wait, and a client's configuration with a state directory. *)
Definition configured (h : Startup.Host) : Prop :=
  Startup.parse_error h = false
  /\ Startup.kHELP h = false /\ Startup.kUNKNOWN h = false
  /\ Startup.kVERSION h = false /\ Startup.kWAIT_FOR_DEBUGGER h = false
  /\ Startup.allium_ptcfg_init h = true
  /\ Startup.allium_ptcfg_is_server h = false
  /\ Startup.allium_ptcfg_state_dir h = 0.

(** The program an ending leaves, when there is one. *)
Definition left_by (e : Startup.Ending) : option Startup.Program :=
  match e with
  | Startup.Returns _ p | Startup.Dispatches p | Startup.Asserts p => Some p
  | Startup.Sleeps => None
  end.

(** A host that asks for obfs2 and obfs3; the first [event_base_new]
    fails, and the port of obfs2 cannot be bound. *)
Definition sample_host : Startup.Host :=
  Startup.mkHost false false false false true false false true false 0
                 (fun name => if String.eqb name Startup.kScrambleSuitMethodName
                              then 0 else 1)
                 (fun n => negb (Nat.eqb n 0))
                 (fun name => negb (String.eqb name Startup.kObfs2MethodName))
                 (fun _ => true).

(** What holds of the program between the calls of [init_pt]: the two
    lists go together, every object created is in one of them, every
    listener scrubs addresses unless the option says otherwise, a factory
    is in the list exactly when its method was reported, and there is an
    event base as soon as there is a listener. *)
Definition well_started (h : Startup.Host) (p : Startup.Program) : Prop :=
  map Startup.factory (Startup.listeners p) = Startup.factories p
  /\ Startup.allocated p = (2 * length (Startup.listeners p))%nat
  /\ (forall l, In l (Startup.listeners p) ->
                Startup.scrub_addrs l = negb (Startup.kUNSAFE_LOGS h))
  /\ (forall name, In name (Startup.factories p)
                   <-> In (Startup.allium_ptcfg_cmethod_report name 5)
                          (Startup.calls p))
  /\ (Startup.listeners p <> [] -> Startup.ev_base p = true).

(** A session of the earlier client and a session of [Client] that stand
    at the same point of the handshake: the same state, queues to and from
    the bridge, bytes read from the SOCKS client, seeds, ciphers, header
    flag and padding count, and the same replies, each in the SOCKS version
    of its session.  What is queued for the SOCKS client is not compared:
    the reply records of the two versions differ. *)
Definition same_handshake (l : Legacy.Obfs2Client) (s : Obfs2.Client) : Prop :=
  Obfs2.state_ s = Legacy.state_ l
  /\ Obfs2.outgoing_ s = Legacy.outgoing_ l
  /\ Libevent.input (Obfs2.incoming_ s) = Libevent.input (Legacy.incoming_ l)
  /\ Obfs2.replies_ s = map socks5_reply (Legacy.socks4_replies_ l)
  /\ Obfs2.init_seed_ s = Legacy.init_seed_ l
  /\ Obfs2.resp_seed_ s = Legacy.resp_seed_ l
  /\ Obfs2.initiator_aes_ s = Legacy.initiator_aes_ l
  /\ Obfs2.responder_aes_ s = Legacy.responder_aes_ l
  /\ Obfs2.received_seed_hdr_ s = Legacy.received_seed_hdr_ l
  /\ Obfs2.resp_pad_len_ s = Legacy.resp_pad_len_ l.

(** A session of the earlier client with a hello buffered whose header
    carries the magic 0xDEADBEEF. *)
Definition legacy_bad_magic_session : LegacySplice.Session :=
  LegacySplice.mkSession
    (Legacy.set_outgoing
       (Libevent.mk (Run.responder_hello Run.sample_peer_seed 0xDEADBEEF 0 []) [])
       legacy_connecting) false.

(** * Properties *)

(** ** The primitives on their published vectors *)

(** FIPS 180-4, "abc". *)
Example sha256_abc :
  Sha256.sha256 (ascii_bytes [97; 98; 99]%nat)
  = [186; 120; 22; 191; 143; 1; 207; 234; 65; 65; 64; 222; 93; 174; 34; 35;
     176; 3; 97; 163; 150; 23; 122; 156; 180; 16; 255; 97; 242; 0; 21; 173].
Proof. vm_compute. reflexivity. Qed.

(** FIPS 197, appendix C.1. *)
Example aes128_fips197 :
  Aes128.encrypt_block (map Z.of_nat (seq 0 16))
                       (map (fun n => 17 * Z.of_nat n) (seq 0 16))
  = [105; 196; 224; 216; 106; 123; 4; 48; 216; 205; 183; 128; 112; 180; 197; 90].
Proof. vm_compute. reflexivity. Qed.

(** A digest is 32 bytes long. *)
Lemma sha256_length (msg : bytes) : length (Sha256.sha256 msg) = 32%nat.
Proof.
  unfold Sha256.sha256, Sha256.output.
  destruct (fold_left _ _ _) as [[[[[[[a b] c] d] e] f] g] h].
  reflexivity.
Qed.

(** Counter mode over a counter that wraps: key 00 01 ... 0f, IV ff ... ff,
    twenty zero bytes (the value OpenSSL's aes-128-ctr gives). *)
Example aes128_ctr_wraps :
  AesCtr128.keystream (map Z.of_nat (seq 0 16)) (repeat 255 16) 0 20
  = [60; 68; 31; 50; 206; 7; 130; 35; 100; 215; 162; 153; 14; 80; 187; 19;
     198; 161; 59; 55].
Proof. vm_compute. reflexivity. Qed.

(** From here on the primitives are used through their properties, or
    evaluated as a whole by the virtual machine. *)
Opaque Sha256.sha256 Aes128.encrypt_block.

(** ** Bytes and keystreams *)

Lemma xor_bytes_length (a k : bytes) :
  length a = length k -> length (xor_bytes a k) = length a.
Proof.
  revert k; induction a as [|x a IH]; intros [|y k] H; simpl in *; try easy.
  now rewrite IH by lia.
Qed.

Lemma xor_bytes_involutive (a k : bytes) :
  length a = length k -> xor_bytes (xor_bytes a k) k = a.
Proof.
  revert k; induction a as [|x a IH]; intros [|y k] H; simpl in *; try easy.
  rewrite IH by lia.
  now rewrite Z.lxor_assoc, Z.lxor_nilpotent, Z.lxor_0_r.
Qed.

Lemma xor_bytes_app (a1 a2 k1 k2 : bytes) :
  length a1 = length k1 ->
  xor_bytes (a1 ++ a2) (k1 ++ k2) = xor_bytes a1 k1 ++ xor_bytes a2 k2.
Proof.
  revert k1; induction a1 as [|x a1 IH]; intros [|y k1] H; simpl in *; try easy.
  now rewrite IH by lia.
Qed.

Lemma keystream_length (k ivb : bytes) (p n : nat) :
  length (AesCtr128.keystream k ivb p n) = n.
Proof. unfold AesCtr128.keystream. now rewrite length_map, length_seq. Qed.

Lemma keystream_app (k ivb : bytes) (p n m : nat) :
  AesCtr128.keystream k ivb p (n + m)
  = AesCtr128.keystream k ivb p n ++ AesCtr128.keystream k ivb (p + n) m.
Proof. unfold AesCtr128.keystream. now rewrite seq_app, map_app. Qed.

(** Encrypting [a ++ b] in one call or in two gives the same bytes. *)
Lemma xor_keystream_app (k ivb : bytes) (p : nat) (a b : bytes) :
  xor_bytes (a ++ b) (AesCtr128.keystream k ivb p (length (a ++ b)))
  = xor_bytes a (AesCtr128.keystream k ivb p (length a))
    ++ xor_bytes b (AesCtr128.keystream k ivb (p + length a) (length b)).
Proof.
  rewrite length_app, keystream_app.
  apply xor_bytes_app. now rewrite keystream_length.
Qed.

Lemma htonl_bytes_length (x : Z) : length (htonl_bytes x) = 4%nat.
Proof. reflexivity. Qed.

Lemma ntohl_bytes_range (b : bytes) : 0 <= ntohl_bytes b < 2 ^ 32.
Proof.
  unfold ntohl_bytes.
  destruct b as [|b0 [|b1 [|b2 [|b3 [|]]]]]; try (simpl; lia).
  pose proof (Z.mod_pos_bound b0 256 ltac:(lia)).
  pose proof (Z.mod_pos_bound b1 256 ltac:(lia)).
  pose proof (Z.mod_pos_bound b2 256 ltac:(lia)).
  pose proof (Z.mod_pos_bound b3 256 ltac:(lia)).
  change (2 ^ 32) with 4294967296. lia.
Qed.

Lemma ntohl_htonl (x : Z) : 0 <= x < 2 ^ 32 -> ntohl_bytes (htonl_bytes x) = x.
Proof.
  intros H. unfold ntohl_bytes, htonl_bytes.
  rewrite !Z.mod_mod by lia.
  rewrite !Z.shiftr_div_pow2 by lia.
  change (2 ^ 24) with 16777216; change (2 ^ 16) with 65536;
    change (2 ^ 8) with 256; change (2 ^ 32) with 4294967296 in H.
  pose proof (Z.div_mod x 256 ltac:(lia)).
  pose proof (Z.div_mod (x / 256) 256 ltac:(lia)).
  pose proof (Z.div_mod (x / 256 / 256) 256 ltac:(lia)).
  assert (E16 : x / 65536 = x / 256 / 256) by (rewrite Z.div_div by lia; reflexivity).
  assert (E24 : x / 16777216 = x / 256 / 256 / 256)
    by (rewrite !Z.div_div by lia; reflexivity).
  rewrite E16, E24.
  assert (x / 256 / 256 / 256 < 256).
  { apply Z.div_lt_upper_bound; [lia|].
    apply Z.div_lt_upper_bound; [lia|].
    apply Z.div_lt_upper_bound; lia. }
  assert (0 <= x / 256 / 256 / 256) by (repeat apply Z.div_pos; lia).
  rewrite (Z.mod_small (x / 256 / 256 / 256) 256) by lia.
  lia.
Qed.

(** ** [mac] *)

Lemma length_zero_eqb (b : bytes) : (Z.of_nat (length b) =? 0) = true <-> b = [].
Proof.
  rewrite Z.eqb_eq. destruct b; simpl; split; intros H; try easy; lia.
Qed.

Lemma digest_size_eqb (d : bytes) :
  (Z.of_nat (length d) =? Sha256.kDigestLength) = true <-> length d = 32%nat.
Proof. unfold Sha256.kDigestLength. rewrite Z.eqb_eq. lia. Qed.

(** When [mac] returns true the digest is SHA-256 of key, message, key. *)
Lemma mac_true (sha_fails : bool) (key buf : option bytes) (digest d : bytes) :
  mac sha_fails key buf digest = (true, d) ->
  exists k b, key = Some k /\ buf = Some b /\ k <> [] /\ b <> [] /\
              length digest = 32%nat /\ sha_fails = false /\
              d = Sha256.sha256 (k ++ b ++ k).
Proof.
  unfold mac, Sha256.digest.
  destruct key as [k|]; [|discriminate].
  destruct (Z.of_nat (length k) =? 0) eqn:Ek; [discriminate|].
  destruct buf as [b|]; [|discriminate].
  destruct (Z.of_nat (length b) =? 0) eqn:Eb; [discriminate|].
  destruct (Z.of_nat (length digest) =? Sha256.kDigestLength) eqn:Ed;
    [|discriminate].
  simpl. destruct sha_fails; [discriminate|].
  intros H; injection H as <-.
  exists k, b. repeat split; trivial.
  - intros ->. discriminate.
  - intros ->. discriminate.
  - now apply digest_size_eqb.
Qed.

Lemma mac_true_some (sha_fails : bool) (k b digest d : bytes) :
  mac sha_fails (Some k) (Some b) digest = (true, d) ->
  d = Sha256.sha256 (k ++ b ++ k).
Proof.
  intros H. apply mac_true in H.
  destruct H as (k' & b' & Hk & Hb & _ & _ & _ & _ & ->).
  congruence.
Qed.

Lemma mac_ok (k b digest : bytes) :
  k <> [] -> b <> [] -> length digest = 32%nat ->
  mac false (Some k) (Some b) digest = (true, Sha256.sha256 (k ++ b ++ k)).
Proof.
  intros Hk Hb Hd. unfold mac, Sha256.digest.
  destruct (Z.of_nat (length k) =? 0) eqn:Ek;
    [apply length_zero_eqb in Ek; contradiction|].
  destruct (Z.of_nat (length b) =? 0) eqn:Eb;
    [apply length_zero_eqb in Eb; contradiction|].
  apply digest_size_eqb in Hd. now rewrite Hd.
Qed.

(** C6.  [mac] returns false exactly when the key is null or empty, the
    message is null or empty, the digest buffer is not 32 bytes long, or the
    SHA-256 primitive fails; in every other case (so for every non-empty key
    and message and a 32-byte buffer, the primitive working) it returns true
    and leaves SHA-256(K || M || K), 32 bytes, in the digest buffer. *)
Theorem C6_mac_is_sha256_of_key_msg_key :
  forall (sha_fails : bool) (key buf : option bytes) (digest : bytes),
    (fst (mac sha_fails key buf digest) = false <->
       key = None \/ key = Some [] \/ buf = None \/ buf = Some [] \/
       length digest <> 32%nat \/ sha_fails = true)
    /\
    (fst (mac sha_fails key buf digest) = true ->
       exists k b, key = Some k /\ buf = Some b /\
         snd (mac sha_fails key buf digest) = Sha256.sha256 (k ++ b ++ k) /\
         length (snd (mac sha_fails key buf digest)) = 32%nat).
Proof.
  intros sha_fails key buf digest. split.
  - split.
    + intros H.
      destruct key as [[|x k]|]; [now right; left | | now left].
      destruct buf as [[|y b]|];
        [now right; right; right; left | | now right; right; left].
      destruct (Nat.eq_dec (length digest) 32) as [Hd|Hd];
        [|now right; right; right; right; left].
      destruct sha_fails; [now right; right; right; right; right|].
      rewrite mac_ok in H by easy. discriminate.
    + intros H. destruct (mac sha_fails key buf digest) as [[|] d] eqn:E;
        [|reflexivity].
      apply mac_true in E.
      destruct E as (k & b & -> & -> & Hk & Hb & Hd & -> & _).
      destruct H as [H|[H|[H|[H|[H|H]]]]]; try discriminate; try contradiction.
      * injection H as ->. contradiction.
      * injection H as ->. contradiction.
  - intros H. destruct (mac sha_fails key buf digest) as [[|] d] eqn:E;
      [|discriminate].
    apply mac_true in E.
    destruct E as (k & b & -> & -> & _ & _ & _ & _ & ->).
    exists k, b. simpl. repeat split. apply sha256_length.
Qed.

(** ** [gen_padlen] *)

Lemma land_2fff_range (d : Z) : 0 <= Z.land (w32 d) 0x2fff <= 0x2fff.
Proof.
  assert (0 <= w32 d) by (unfold w32; apply Z.mod_pos_bound; lia).
  split.
  - apply Z.land_nonneg. now left.
  - assert (H' : Z.land (w32 d) 0x2fff <= Z.lor (Z.land (w32 d) 0x2fff)
                                               (Z.land (Z.lnot (w32 d)) 0x2fff)).
    { rewrite <- Z.lxor_lor.
      - rewrite <- Z.add_nocarry_lxor.
        + assert (0 <= Z.land (Z.lnot (w32 d)) 0x2fff)
            by (apply Z.land_nonneg; right; lia).
          lia.
        + apply Z.bits_inj'. intros n Hn.
          rewrite !Z.land_spec, Z.lnot_spec, Z.bits_0 by lia.
          destruct (Z.testbit (w32 d) n); simpl; trivial.
          now rewrite andb_false_r.
      - apply Z.bits_inj'. intros n Hn.
        rewrite !Z.land_spec, Z.lnot_spec, Z.bits_0 by lia.
        destruct (Z.testbit (w32 d) n); simpl; trivial.
        now rewrite andb_false_r. }
    assert (E : Z.lor (Z.land (w32 d) 0x2fff) (Z.land (Z.lnot (w32 d)) 0x2fff)
                = 0x2fff).
    { apply Z.bits_inj'. intros n Hn.
      rewrite Z.lor_spec, !Z.land_spec, Z.lnot_spec by lia.
      destruct (Z.testbit (w32 d) n), (Z.testbit 0x2fff n); reflexivity. }
    lia.
Qed.

(** Every value [gen_padlen] returns is in range. *)
Lemma gen_padlen_range (draws : list Z) (ret : Z) (rest : list Z) :
  Legacy.gen_padlen draws = Legacy.PadLen ret rest -> 0 <= ret < kMaxPadding.
Proof.
  induction draws as [|d draws IH]; simpl; [discriminate|].
  pose proof (land_2fff_range d) as R.
  destruct (Z.land (w32 d) 0x2fff >? kMaxPadding) eqn:E1; [exact IH|].
  destruct (Z.land (w32 d) 0x2fff <? kMaxPadding) eqn:E2; [|discriminate].
  intros H; injection H as <- _.
  apply Z.ltb_lt in E2. lia.
Qed.

(** A draw that passes the loop's exit test ends the loop at once. *)
Lemma gen_padlen_accepts (d : Z) (rest : list Z) :
  Z.land (w32 d) 0x2fff < kMaxPadding ->
  Legacy.gen_padlen (d :: rest) = Legacy.PadLen (Z.land (w32 d) 0x2fff) rest.
Proof.
  intros H. simpl.
  destruct (Z.land (w32 d) 0x2fff >? kMaxPadding) eqn:E1.
  - apply Z.gtb_lt in E1. lia.
  - apply Z.ltb_lt in H. now rewrite H.
Qed.

(** C5.  The values [gen_padlen] returns lie in [0, 8192]; but the value
    8192 passes the loop's exit test ([ret > kMaxPadding] is false) and then
    fails the assertion [ret < kMaxPadding]: on a draw of 0x2000 the function
    does not return. *)
Theorem C5_gen_padlen_assertion_fails_at_8192 :
  (forall draws ret rest,
      Legacy.gen_padlen draws = Legacy.PadLen ret rest -> 0 <= ret <= 8192)
  /\ (Z.land (w32 0x2000) 0x2fff >? kMaxPadding) = false
  /\ (Z.land (w32 0x2000) 0x2fff <? kMaxPadding) = false
  /\ Legacy.gen_padlen [0x2000] = Legacy.PadAssertFailed 8192.
Proof.
  split; [|repeat split].
  intros draws ret rest H. apply gen_padlen_range in H.
  unfold kMaxPadding in H. lia.
Qed.

(** The hello of a session whose first draw is 0x2000 is never sent: the
    assertion stops the process. *)
Example legacy_hello_asserts :
  Legacy.on_outgoing_connected no_faults legacy_unlucky = AssertFailed.
Proof. vm_compute. reflexivity. Qed.

(** ** The shutdown handler *)

Lemma cb_first (servers : list Main.Socks5Server) :
  Main.cb (Main.started servers)
  = Main.mkProcess 1 (map Main.close servers) false.
Proof. reflexivity. Qed.

Lemma cb_second (servers : list Main.Socks5Server) :
  Main.cb (Main.cb (Main.started servers))
  = Main.mkProcess 2 (map Main.close_sessions (map Main.close servers)) true.
Proof. reflexivity. Qed.

Lemma dispatch_broken (n : nat) (p : Main.Process) :
  Main.loop_broken p = true -> Main.event_base_dispatch n p = p.
Proof. intros H. destruct n; simpl; [reflexivity | now rewrite H]. Qed.

Lemma dispatch_step (n : nat) (p : Main.Process) :
  Main.loop_broken p = false ->
  Main.event_base_dispatch (S n) p = Main.event_base_dispatch n (Main.cb p).
Proof. intros H. simpl. now rewrite H. Qed.

(** A loop that is sent two signals or more stops after the second. *)
Lemma dispatch_two_or_more (servers : list Main.Socks5Server) (n : nat) :
  (2 <= n)%nat ->
  Main.event_base_dispatch n (Main.started servers)
  = Main.cb (Main.cb (Main.started servers)).
Proof.
  destruct n as [|[|n]]; try lia. intros _.
  rewrite dispatch_step by reflexivity.
  rewrite dispatch_step by (now rewrite cb_first).
  apply dispatch_broken. now rewrite cb_second.
Qed.

Lemma int_incr_small (n : Z) :
  - 2 ^ 31 <= n < 2 ^ 31 - 1 -> Main.int_incr n = n + 1.
Proof. intros H. unfold Main.int_incr. rewrite Z.mod_small; lia. Qed.

(** From the second signal on, the handler only breaks the loop. *)
Lemma cb_later (p : Main.Process) :
  2 <= Main.nr_sigints p < 2 ^ 31 - 1 ->
  Main.cb p = Main.mkProcess (Main.nr_sigints p + 1) (Main.listeners p) true.
Proof.
  intros H. unfold Main.cb. cbn [Main.nr_sigints Main.listeners Main.loop_broken].
  rewrite int_incr_small by lia.
  destruct (Main.nr_sigints p + 1 =? 1) eqn:E1; [apply Z.eqb_eq in E1; lia|].
  destruct (Main.nr_sigints p + 1 =? 2) eqn:E2; [apply Z.eqb_eq in E2; lia|].
  reflexivity.
Qed.

(** C4, as the claim has it, fails: with two listeners and three live
    sessions, the second SIGINT already breaks the event loop, and a run that
    is sent three signals ends in the state the second one left. *)
Lemma C4_second_signal_breaks_loop :
  let servers := [Main.mkServer true [1; 2]%nat; Main.mkServer true [3]%nat] in
  let p2 := Main.cb (Main.cb (Main.started servers)) in
  Main.nr_sigints p2 = 2
  /\ Main.loop_broken p2 = true
  /\ Main.event_base_dispatch 3 (Main.started servers) = p2.
Proof. repeat split. Qed.

(** C4, amended.  The first SIGINT only makes every listener stop accepting:
    the sessions stay and the loop runs on.  The second closes the sessions
    of every listener and, falling through to the default case, breaks the
    event loop: a run that is sent two signals or more ends in the state the
    second one left.  A handler run at any later count breaks the loop and
    does nothing else. *)
Theorem C4_shutdown_stages :
  forall servers : list Main.Socks5Server,
    let p0 := Main.started servers in
    let p1 := Main.cb p0 in
    let p2 := Main.cb p1 in
    (Main.loop_broken p1 = false
     /\ map Main.accepting (Main.listeners p1) = map (fun _ => false) servers
     /\ map Main.sessions (Main.listeners p1) = map Main.sessions servers)
    /\ (Main.loop_broken p2 = true
        /\ map Main.sessions (Main.listeners p2) = map (fun _ => []) servers
        /\ map Main.accepting (Main.listeners p2) = map (fun _ => false) servers)
    /\ (forall n, (2 <= n)%nat -> Main.event_base_dispatch n p0 = p2)
    /\ (forall p, 2 <= Main.nr_sigints p < 2 ^ 31 - 1 ->
                  Main.loop_broken (Main.cb p) = true
                  /\ Main.listeners (Main.cb p) = Main.listeners p).
Proof.
  intros servers p0 p1 p2. subst p0 p1 p2.
  split; [|split; [|split]].
  - rewrite cb_first. simpl. repeat split; now rewrite map_map.
  - rewrite cb_second. simpl. repeat split; now rewrite !map_map.
  - intros n Hn. now apply dispatch_two_or_more.
  - intros p Hp. now rewrite cb_later.
Qed.

(** ** Calls on an empty read buffer *)

(** C10.  In ESTABLISHED state, [on_incoming_data] and [on_outgoing_data]
    called on an empty read buffer return true and leave the session as it
    was, whatever the library calls would have done: no cipher advances,
    nothing is written, [close_session] is not called. *)
Theorem C10_empty_buffer_is_noop :
  forall (f : Faults) (s : Obfs2.Client),
    Obfs2.state_ s = kESTABLISHED ->
    (Libevent.input (Obfs2.incoming_ s) = [] ->
     Obfs2.on_incoming_data f s = Returned (true, s))
    /\ (Libevent.input (Obfs2.outgoing_ s) = [] ->
        Obfs2.on_outgoing_data f s = Returned (true, s)).
Proof.
  intros f s Hst. split; intros Hin.
  - unfold Obfs2.on_incoming_data. now rewrite Hst, Hin.
  - unfold Obfs2.on_outgoing_data. now rewrite Hst, Hin.
Qed.

Lemma C10_empty_buffer_is_noop_witness :
  Obfs2.on_incoming_data [true; true; true] sample_established
    = Returned (true, sample_established)
  /\ Obfs2.on_outgoing_data [true; true; true] sample_established
    = Returned (true, sample_established).
Proof.
  split;
    apply (C10_empty_buffer_is_noop [true; true; true] sample_established);
    reflexivity.
Defined.

(** ** Key derivation *)

Lemma set_state_some (fails : bool) (k c : bytes) (x : AesCtr128.ctx) :
  AesCtr128.set_state fails k None c = Some x ->
  x = AesCtr128.mk true k c 0 /\ fails = false
  /\ length k = 16%nat /\ length c = 16%nat.
Proof.
  unfold AesCtr128.set_state, Aes128.kKeyLength, AesCtr128.kIvLength.
  destruct fails; [discriminate|].
  destruct (Z.of_nat (length k) =? 16) eqn:Ek; [|discriminate].
  destruct (Z.of_nat (length c) =? 16) eqn:Ec; [|discriminate].
  simpl. intros H; injection H as <-.
  apply Z.eqb_eq in Ek, Ec. repeat split; lia.
Qed.

Lemma key_part_length (d : bytes) :
  length d = 32%nat -> length (Obfs2.key_part d) = 16%nat.
Proof.
  intros H. unfold Obfs2.key_part, Aes128.kKeyLength.
  rewrite length_firstn, H. reflexivity.
Qed.

Lemma iv_part_length (d : bytes) :
  length d = 32%nat -> length (Obfs2.iv_part d) = 16%nat.
Proof.
  intros H. unfold Obfs2.iv_part, Aes128.kKeyLength.
  rewrite length_skipn, H. reflexivity.
Qed.

(** A 32-byte secret always keys a context. *)
Lemma set_state_secret (d : bytes) :
  length d = 32%nat ->
  AesCtr128.set_state false (Obfs2.key_part d) None (Obfs2.iv_part d)
  = Some (AesCtr128.mk true (Obfs2.key_part d) (Obfs2.iv_part d) 0).
Proof.
  intros H. unfold AesCtr128.set_state.
  rewrite key_part_length, iv_part_length by assumption. reflexivity.
Qed.

Lemma kdf_obfs2_true (f : Faults) (s s' : Obfs2.Client) :
  Obfs2.kdf_obfs2 f s = (true, s') -> s' = with_session_keys s.
Proof.
  unfold Obfs2.kdf_obfs2. cbv zeta.
  destruct (mac (fault f 0) _ _ _) as [[|] d1] eqn:E1; cbn [negb]; [|discriminate].
  apply mac_true_some in E1. subst d1.
  destruct (AesCtr128.set_state (fault f 1) _ _ _) as [a1|] eqn:A1;
    [|discriminate].
  apply set_state_some in A1. destruct A1 as (-> & _).
  destruct (mac (fault f 2) _ _ _) as [[|] d2] eqn:E2; cbn [negb]; [|discriminate].
  apply mac_true_some in E2. subst d2.
  destruct (AesCtr128.set_state (fault f 3) _ _ _) as [a2|] eqn:A2;
    [|discriminate].
  apply set_state_some in A2. destruct A2 as (-> & _).
  intros H; injection H as <-. reflexivity.
Qed.

Lemma kdf_obfs2_ok (s : Obfs2.Client) :
  Obfs2.init_seed_ s ++ Obfs2.resp_seed_ s <> [] ->
  Obfs2.kdf_obfs2 no_faults s = (true, with_session_keys s).
Proof.
  intros H. unfold Obfs2.kdf_obfs2, no_faults, fault. cbv zeta. simpl nth.
  rewrite mac_ok by (trivial; discriminate). simpl negb. cbv iota.
  rewrite set_state_secret by apply sha256_length.
  cbn [Obfs2.init_seed_ Obfs2.resp_seed_ Obfs2.set_initiator_aes].
  rewrite mac_ok by (trivial; try discriminate; apply sha256_length).
  simpl negb. cbv iota.
  rewrite set_state_secret by apply sha256_length.
  reflexivity.
Qed.

(** [kdf_obfs2] touches the two ciphers and nothing else. *)
Lemma kdf_obfs2_frame (f : Faults) (s : Obfs2.Client) :
  let s' := snd (Obfs2.kdf_obfs2 f s) in
  Obfs2.state_ s' = Obfs2.state_ s
  /\ Obfs2.incoming_ s' = Obfs2.incoming_ s
  /\ Obfs2.outgoing_ s' = Obfs2.outgoing_ s
  /\ Obfs2.replies_ s' = Obfs2.replies_ s
  /\ Obfs2.close_scheduled_ s' = Obfs2.close_scheduled_ s
  /\ Obfs2.rand_ s' = Obfs2.rand_ s
  /\ Obfs2.init_seed_ s' = Obfs2.init_seed_ s
  /\ Obfs2.resp_seed_ s' = Obfs2.resp_seed_ s
  /\ Obfs2.received_seed_hdr_ s' = Obfs2.received_seed_hdr_ s
  /\ Obfs2.resp_pad_len_ s' = Obfs2.resp_pad_len_ s.
Proof.
  unfold Obfs2.kdf_obfs2. cbv zeta.
  destruct (mac (fault f 0) _ _ _) as [[|] d1]; cbn [negb];
    [|cbn [snd]; repeat split].
  destruct (AesCtr128.set_state (fault f 1) _ _ _);
    [|cbn [snd]; repeat split].
  destruct (mac (fault f 2) _ _ _) as [[|] d2]; cbn [negb];
    [|cbn [snd]; repeat split].
  destruct (AesCtr128.set_state (fault f 3) _ _ _); cbn [snd]; repeat split.
Qed.

(** C7.  For every pair of 16-byte seeds, INIT_SECRET is MAC("Initiator
    obfuscated data", INIT_SEED || RESP_SEED) and RESP_SECRET is
    MAC("Responder obfuscated data", INIT_SEED || RESP_SEED); [kdf_obfs2]
    returns true and leaves the initiator cipher keyed with the first 16
    bytes of INIT_SECRET and its counter set to the last 16, the responder
    cipher likewise from RESP_SECRET, both at the start of their streams,
    and nothing else changed; whenever it returns true, under any faults,
    that is the session it leaves. *)
Theorem C7_kdf_obfs2_keys :
  forall s : Obfs2.Client,
    length (Obfs2.init_seed_ s) = 16%nat ->
    length (Obfs2.resp_seed_ s) = 16%nat ->
    let seeds := Obfs2.init_seed_ s ++ Obfs2.resp_seed_ s in
    let isec := Sha256.sha256 (Obfs2.init_data ++ seeds ++ Obfs2.init_data) in
    let rsec := Sha256.sha256 (Obfs2.resp_data ++ seeds ++ Obfs2.resp_data) in
    let s1 := snd (Obfs2.kdf_obfs2 no_faults s) in
    mac false (Some Obfs2.init_data) (Some seeds) Obfs2.fresh_digest = (true, isec)
    /\ mac false (Some Obfs2.resp_data) (Some seeds) Obfs2.fresh_digest = (true, rsec)
    /\ Obfs2.kdf_obfs2 no_faults s
       = (true,
          Obfs2.set_responder_aes
            (AesCtr128.mk true (firstn 16 rsec) (skipn 16 rsec) 0)
            (Obfs2.set_initiator_aes
               (AesCtr128.mk true (firstn 16 isec) (skipn 16 isec) 0) s))
    /\ (forall f s', Obfs2.kdf_obfs2 f s = (true, s') ->
                     Obfs2.kdf_obfs2 no_faults s = (true, s'))
    /\ fst (Obfs2.kdf_obfs2 no_faults s) = true
    /\ Obfs2.initiator_aes_ s1
       = AesCtr128.mk true (firstn 16 isec) (skipn 16 isec) 0
    /\ Obfs2.responder_aes_ s1
       = AesCtr128.mk true (firstn 16 rsec) (skipn 16 rsec) 0
    /\ Obfs2.state_ s1 = Obfs2.state_ s
    /\ Obfs2.incoming_ s1 = Obfs2.incoming_ s
    /\ Obfs2.outgoing_ s1 = Obfs2.outgoing_ s
    /\ Obfs2.replies_ s1 = Obfs2.replies_ s
    /\ Obfs2.close_scheduled_ s1 = Obfs2.close_scheduled_ s
    /\ Obfs2.rand_ s1 = Obfs2.rand_ s
    /\ Obfs2.init_seed_ s1 = Obfs2.init_seed_ s
    /\ Obfs2.resp_seed_ s1 = Obfs2.resp_seed_ s
    /\ Obfs2.received_seed_hdr_ s1 = Obfs2.received_seed_hdr_ s
    /\ Obfs2.resp_pad_len_ s1 = Obfs2.resp_pad_len_ s
    /\ (forall f s', Obfs2.kdf_obfs2 f s = (true, s') ->
                     Obfs2.initiator_aes_ s'
                     = AesCtr128.mk true (firstn 16 isec) (skipn 16 isec) 0
                     /\ Obfs2.responder_aes_ s'
                        = AesCtr128.mk true (firstn 16 rsec) (skipn 16 rsec) 0).
Proof.
  intros s Hi Hr seeds isec rsec s1.
  assert (Hs : seeds <> []).
  { subst seeds. destruct (Obfs2.init_seed_ s); [discriminate Hi | discriminate]. }
  assert (K : Obfs2.kdf_obfs2 no_faults s = (true, with_session_keys s))
    by now apply kdf_obfs2_ok.
  assert (Ki : Obfs2.initiator_aes_ (with_session_keys s)
               = AesCtr128.mk true (firstn 16 isec) (skipn 16 isec) 0)
    by reflexivity.
  assert (Kr : Obfs2.responder_aes_ (with_session_keys s)
               = AesCtr128.mk true (firstn 16 rsec) (skipn 16 rsec) 0)
    by reflexivity.
  pose proof (kdf_obfs2_frame no_faults s) as F. cbv zeta in F. fold s1 in F.
  destruct F as (F1 & F2 & F3 & F4 & F5 & F6 & F7 & F8 & F9 & F10).
  split; [apply mac_ok; trivial; discriminate|].
  split; [apply mac_ok; trivial; discriminate|].
  split; [now rewrite K|].
  split.
  { intros f s' H. apply kdf_obfs2_true in H. subst s'. exact K. }
  split; [now rewrite K|].
  split; [subst s1; rewrite K; exact Ki|].
  split; [subst s1; rewrite K; exact Kr|].
  split; [exact F1|]. split; [exact F2|]. split; [exact F3|].
  split; [exact F4|]. split; [exact F5|]. split; [exact F6|].
  split; [exact F7|]. split; [exact F8|]. split; [exact F9|].
  split; [exact F10|].
  intros f s' H. apply kdf_obfs2_true in H. subst s'.
  split; [exact Ki | exact Kr].
Qed.

Lemma zero_seeds_vector :
  Sha256.sha256 (Obfs2.init_data ++ repeat 0 32 ++ Obfs2.init_data)
  = zero_seeds_init_secret.
Proof. vm_compute. reflexivity. Qed.

Lemma zero_seeds_resp_vector :
  Sha256.sha256 (Obfs2.resp_data ++ repeat 0 32 ++ Obfs2.resp_data)
  = zero_seeds_resp_secret.
Proof. vm_compute. reflexivity. Qed.

Lemma C7_kdf_obfs2_keys_witness :
  Obfs2.init_seed_ zero_seeds_session ++ Obfs2.resp_seed_ zero_seeds_session
  = repeat 0 32
  /\ mac false (Some Obfs2.init_data)
         (Some (Obfs2.init_seed_ zero_seeds_session
                ++ Obfs2.resp_seed_ zero_seeds_session)) Obfs2.fresh_digest
     = (true, init_secret (Obfs2.init_seed_ zero_seeds_session)
                          (Obfs2.resp_seed_ zero_seeds_session))
  /\ Obfs2.initiator_aes_ (snd (Obfs2.kdf_obfs2 no_faults zero_seeds_session))
     = keyed_from (init_secret (Obfs2.init_seed_ zero_seeds_session)
                               (Obfs2.resp_seed_ zero_seeds_session))
  /\ init_secret (Obfs2.init_seed_ zero_seeds_session)
                 (Obfs2.resp_seed_ zero_seeds_session)
     = zero_seeds_init_secret
  /\ Obfs2.responder_aes_ (snd (Obfs2.kdf_obfs2 no_faults zero_seeds_session))
     = AesCtr128.mk true (firstn 16 zero_seeds_resp_secret)
                    (skipn 16 zero_seeds_resp_secret) 0
  /\ Obfs2.initiator_aes_ (snd (Obfs2.kdf_obfs2 no_faults zero_seeds_session))
     = AesCtr128.mk true (firstn 16 zero_seeds_init_secret)
                    (skipn 16 zero_seeds_init_secret) 0
  /\ Obfs2.responder_aes_ zero_seeds_session = AesCtr128.unset.
Proof.
  pose proof (C7_kdf_obfs2_keys zero_seeds_session eq_refl eq_refl) as H.
  cbv zeta in H. destruct H as (H1 & _ & H3 & _ & _ & H6 & H7 & _).
  split; [reflexivity|]. split; [exact H1|]. split.
  - rewrite H3. reflexivity.
  - split; [vm_compute; reflexivity|].
    split; [rewrite H7; vm_compute; reflexivity|].
    split; [rewrite H6; vm_compute; reflexivity | reflexivity].
Defined.

(** ** The responder's hello *)

Arguments mac : simpl never.
Arguments AesCtr128.set_state : simpl never.
Arguments AesCtr128.process : simpl never.
Arguments AesCtr128.keystream : simpl never.
Arguments Obfs2.kdf_obfs2 : simpl never.

Lemma refuse_refused (s s1 : Obfs2.Client) (n : nat) :
  Obfs2.replies_ s1 = Obfs2.replies_ s ->
  Obfs2.received_seed_hdr_ s1 = Obfs2.received_seed_hdr_ s ->
  Obfs2.init_seed_ s1 = Obfs2.init_seed_ s ->
  (n <= 24)%nat ->
  Libevent.input (Obfs2.outgoing_ s1) = skipn n (Libevent.input (Obfs2.outgoing_ s)) ->
  exists s', Obfs2.refuse s1 = Obfs2.Return (false, s') /\ refused_from s s'.
Proof.
  intros Hr Hh Hs Hn Hi. eexists. split; [reflexivity|].
  unfold refused_from. simpl. rewrite Hr, Hh, Hs. repeat split.
  exists n. now split.
Qed.

Lemma process_keyed (k ivb : bytes) (p : nat) (buf : bytes) (fails : bool)
      (r : bytes * AesCtr128.ctx) :
  AesCtr128.process fails (AesCtr128.mk true k ivb p) buf = Some r ->
  r = (xor_bytes buf (AesCtr128.keystream k ivb p (length buf)),
       AesCtr128.mk true k ivb (p + length buf)).
Proof.
  unfold AesCtr128.process. destruct fails; [discriminate|].
  simpl. now intros H; injection H as <-.
Qed.

Lemma process_ok (c : AesCtr128.ctx) (buf : bytes) :
  AesCtr128.has_state c = true ->
  AesCtr128.process false c buf
  = Some (xor_bytes buf (AesCtr128.keystream (AesCtr128.key c) (AesCtr128.iv c)
                                           (AesCtr128.pos c) (length buf)),
          AesCtr128.mk true (AesCtr128.key c) (AesCtr128.iv c)
                       (AesCtr128.pos c + length buf)).
Proof. intros H. unfold AesCtr128.process. now rewrite H. Qed.

Lemma firstn_length_enough (n : nat) (buf : bytes) :
  (n <= length buf)%nat -> length (firstn n buf) = n.
Proof. intros H. rewrite length_firstn. lia. Qed.

Lemma store_seed_full (old seed : bytes) :
  length seed = 16%nat -> Obfs2.store_seed old seed = seed.
Proof.
  intros H. unfold Obfs2.store_seed, kSeedLength.
  change (Z.to_nat 16) with 16%nat.
  rewrite firstn_app, H, Nat.sub_diag, firstn_O, app_nil_r.
  rewrite <- H. apply firstn_all.
Qed.

(** Reduce the accessors of the session record, and nothing else. *)
Ltac session_simpl :=
  cbn [Obfs2.state_ Obfs2.incoming_ Obfs2.outgoing_ Obfs2.replies_
       Obfs2.close_scheduled_ Obfs2.rand_ Obfs2.init_seed_ Obfs2.resp_seed_
       Obfs2.initiator_aes_ Obfs2.responder_aes_ Obfs2.received_seed_hdr_
       Obfs2.resp_pad_len_
       Obfs2.set_state_ Obfs2.set_incoming Obfs2.set_outgoing Obfs2.set_replies
       Obfs2.set_close_scheduled Obfs2.set_rand Obfs2.set_init_seed
       Obfs2.set_resp_seed Obfs2.set_initiator_aes Obfs2.set_responder_aes
       Obfs2.set_received_seed_hdr Obfs2.set_resp_pad_len
       Libevent.input Libevent.output Libevent.set_input
       AesCtr128.has_state AesCtr128.key AesCtr128.iv AesCtr128.pos
       negb fst snd] in *.

(** With 24 bytes buffered, the first block either refuses or leaves the
    session [after_seed_hdr], and the latter only on a good header. *)
Lemma read_seed_hdr_cases (f : Faults) (s : Obfs2.Client) :
  24 <= Z.of_nat (length (Libevent.input (Obfs2.outgoing_ s))) ->
  (exists s', Obfs2.read_seed_hdr f s = Obfs2.Return (false, s')
              /\ refused_from s s')
  \/ (header_magic (Libevent.input (Obfs2.outgoing_ s)) = kMagicValue
      /\ header_padlen (Libevent.input (Obfs2.outgoing_ s)) <= kMaxPadding
      /\ Obfs2.read_seed_hdr f s = Obfs2.Continue (after_seed_hdr s)).
Proof.
  intros Hlen. unfold Obfs2.read_seed_hdr. cbv zeta.
  unfold Libevent.evbuffer_get_length.
  destruct (Z.of_nat (length (Libevent.input (Obfs2.outgoing_ s)))
            <? kSeedLength + 4 * 2) eqn:E0;
    [apply Z.ltb_lt in E0; unfold kSeedLength in E0; lia|].
  set (buf := Libevent.input (Obfs2.outgoing_ s)) in *.
  assert (L16 : length (firstn 16 buf) = 16%nat)
    by (apply firstn_length_enough; lia).
  assert (L8 : length (firstn 8 (skipn 16 buf)) = 8%nat)
    by (apply firstn_length_enough; rewrite length_skipn; lia).
  unfold Libevent.evbuffer_remove.
  change (Z.to_nat kSeedLength) with 16%nat.
  destruct (fault f 0).
  { left. apply (refuse_refused s _ 0); trivial; lia. }
  session_simpl.
  rewrite L16. change (Z.of_nat 16 =? kSeedLength) with true. session_simpl.
  rewrite store_seed_full by assumption.
  destruct (mac (fault f 1) _ _ _) as [[|] d] eqn:E1; session_simpl;
    [|left; apply (refuse_refused s _ 16); trivial; lia].
  apply mac_true_some in E1. subst d.
  fold (responder_pad_secret (firstn 16 buf)).
  set (ps := responder_pad_secret (firstn 16 buf)).
  destruct (AesCtr128.set_state (fault f 2) _ _ _) as [a|] eqn:E2;
    [|left; apply (refuse_refused s _ 16); trivial; lia].
  apply set_state_some in E2. destruct E2 as (-> & _).
  session_simpl.
  destruct (fault f 3).
  { left. apply (refuse_refused s _ 16); trivial; lia. }
  session_simpl.
  rewrite L8. change (Z.of_nat 8 =? 4 * 2) with true. session_simpl.
  rewrite skipn_skipn. change (8 + 16)%nat with 24%nat.
  destruct (AesCtr128.process (fault f 4) _ _) as [[hdr a]|] eqn:E3;
    [|left; apply (refuse_refused s _ 24); trivial; lia].
  apply process_keyed in E3. rewrite L8 in E3.
  assert (Eh : hdr = fst (hdr, a)) by reflexivity.
  assert (Ea : a = snd (hdr, a)) by reflexivity.
  rewrite E3 in Eh, Ea. cbn [fst snd] in Eh, Ea. subst hdr a. clear E3.
  session_simpl.
  change (xor_bytes (firstn 8 (skipn 16 buf))
                    (AesCtr128.keystream (Obfs2.key_part ps) (Obfs2.iv_part ps) 0 8))
    with (responder_header buf).
  fold (header_magic buf).
  destruct (header_magic buf =? kMagicValue) eqn:Em; session_simpl;
    [|left; apply (refuse_refused s _ 24); trivial; lia].
  fold (header_padlen buf).
  destruct (header_padlen buf >? kMaxPadding) eqn:Ep;
    [left; apply (refuse_refused s _ 24); trivial; lia|].
  destruct (Obfs2.kdf_obfs2 (skipn 5 f) _) as [[|] s2] eqn:Ek; session_simpl.
  - right. apply kdf_obfs2_true in Ek. subst s2.
    apply Z.eqb_eq in Em. split; [exact Em|].
    split; [rewrite Z.gtb_ltb in Ep; apply Z.ltb_ge in Ep; exact Ep|].
    reflexivity.
  - left.
    assert (K : Obfs2.replies_ s2 = Obfs2.replies_ s
                /\ Obfs2.received_seed_hdr_ s2 = Obfs2.received_seed_hdr_ s
                /\ Obfs2.init_seed_ s2 = Obfs2.init_seed_ s
                /\ Libevent.input (Obfs2.outgoing_ s2) = skipn 24 buf).
    { revert Ek. unfold Obfs2.kdf_obfs2. cbv zeta.
      destruct (mac (fault (skipn 5 f) 0) _ _ _) as [[|] d1]; session_simpl;
        [|intros H; injection H as <-; now repeat split].
      destruct (AesCtr128.set_state (fault (skipn 5 f) 1) _ _ _);
        [|intros H; injection H as <-; now repeat split].
      destruct (mac (fault (skipn 5 f) 2) _ _ _) as [[|] d2]; session_simpl;
        [|intros H; injection H as <-; now repeat split].
      destruct (AesCtr128.set_state (fault (skipn 5 f) 3) _ _ _);
        [discriminate|intros H; injection H as <-; now repeat split]. }
    destruct K as (K1 & K2 & K3 & K4).
    apply (refuse_refused s _ 24); trivial; lia.
Qed.

Lemma header_padlen_range (buf : bytes) : 0 <= header_padlen buf < 2 ^ 32.
Proof. apply ntohl_bytes_range. Qed.

(** ** Skipping the responder's padding *)

(** The padding block touches the read buffer of [outgoing_], the padding
    count, and (when it replies) the state, the reply log and what is
    queued for the SOCKS client. *)
Lemma skip_responder_padding_frame (s : Obfs2.Client) :
  let s' := snd (Obfs2.skip_responder_padding s) in
  fst (Obfs2.skip_responder_padding s) = true
  /\ Obfs2.init_seed_ s' = Obfs2.init_seed_ s
  /\ Obfs2.resp_seed_ s' = Obfs2.resp_seed_ s
  /\ Obfs2.initiator_aes_ s' = Obfs2.initiator_aes_ s
  /\ Obfs2.responder_aes_ s' = Obfs2.responder_aes_ s
  /\ Obfs2.received_seed_hdr_ s' = Obfs2.received_seed_hdr_ s
  /\ Libevent.input (Obfs2.incoming_ s') = Libevent.input (Obfs2.incoming_ s)
  /\ Libevent.output (Obfs2.outgoing_ s') = Libevent.output (Obfs2.outgoing_ s)
  /\ (Obfs2.state_ s' = kESTABLISHED \/ Obfs2.state_ s' = Obfs2.state_ s).
Proof.
  unfold Obfs2.skip_responder_padding. cbv zeta.
  destruct (Obfs2.resp_pad_len_ s >? 0); session_simpl.
  - match goal with |- context [if ?c then _ else _] => destruct c end;
      simpl; repeat split; auto.
  - simpl; repeat split; auto.
Qed.

(** What the padding block drains, given a padding count that is a
    [size_t]: the smaller of the count and the buffered length, never more;
    the count goes down by as much and does not wrap. *)
Lemma skip_responder_padding_drains (s : Obfs2.Client) :
  0 <= Obfs2.resp_pad_len_ s < 2 ^ 64 ->
  let buf := Libevent.input (Obfs2.outgoing_ s) in
  let n := Z.min (Obfs2.resp_pad_len_ s) (Z.of_nat (length buf)) in
  let s' := snd (Obfs2.skip_responder_padding s) in
  0 <= n <= Obfs2.resp_pad_len_ s
  /\ Libevent.input (Obfs2.outgoing_ s') = skipn (Z.to_nat n) buf
  /\ Obfs2.resp_pad_len_ s' = Obfs2.resp_pad_len_ s - n
  /\ 0 <= Obfs2.resp_pad_len_ s'
  /\ (Obfs2.state_ s' = kESTABLISHED <-> 
      Obfs2.resp_pad_len_ s' = 0 \/ Obfs2.state_ s = kESTABLISHED).
Proof.
  intros Hr buf n s'. subst s'.
  assert (Hn : 0 <= n <= Obfs2.resp_pad_len_ s) by (subst n; lia).
  unfold Obfs2.skip_responder_padding. cbv zeta.
  unfold Libevent.evbuffer_get_length, Libevent.evbuffer_drain, size_sub.
  fold buf. fold n.
  destruct (Obfs2.resp_pad_len_ s >? 0) eqn:E; session_simpl.
  - rewrite (Z.mod_small (Obfs2.resp_pad_len_ s - n)) by lia.
    destruct (Obfs2.resp_pad_len_ s - n >? 0) eqn:E2; simpl.
    + rewrite Z.gtb_ltb in E2. apply Z.ltb_lt in E2.
      repeat split; trivial; try lia.
      * intros H. now right.
      * intros [H|H]; [lia | exact H].
    + rewrite Z.gtb_ltb in E2. apply Z.ltb_ge in E2.
      repeat split; trivial; lia.
  - rewrite Z.gtb_ltb in E. apply Z.ltb_ge in E.
    assert (n = 0) by lia.
    replace (Z.to_nat n) with 0%nat by lia. simpl.
    repeat split; trivial; lia.
Qed.

(** C8.  A call of [on_outgoing_data_connecting] in CONNECTING state takes no
    more from the buffer than the handshake needs.  (a) Before seed and
    header were read, with fewer than 24 bytes buffered, it returns true and
    leaves the whole session as it was.  (b) Once the header was parsed, a
    call returns true and drains the smaller of the remaining padding count
    and the buffered length; the count goes down by that much without
    wrapping, and what lies beyond the padding stays buffered.  (c) The call
    that reads seed and header either refuses, having taken at most those
    24 bytes, or takes them and then drains padding as in (b), with a count
    read from the header that is at most kMaxPadding. *)
Theorem C8_connecting_consumes_only_handshake :
  forall (f : Faults) (s : Obfs2.Client),
    Obfs2.state_ s = kCONNECTING ->
    let buf := Libevent.input (Obfs2.outgoing_ s) in
    let len := Z.of_nat (length buf) in
    (Obfs2.received_seed_hdr_ s = false -> len < 24 ->
     Obfs2.on_outgoing_data_connecting f s = Returned (true, s))
    /\
    (Obfs2.received_seed_hdr_ s = true -> 0 <= Obfs2.resp_pad_len_ s < 2 ^ 64 ->
     exists s', Obfs2.on_outgoing_data_connecting f s = Returned (true, s')
       /\ let n := Z.min (Obfs2.resp_pad_len_ s) len in
          Libevent.input (Obfs2.outgoing_ s') = skipn (Z.to_nat n) buf
          /\ Obfs2.resp_pad_len_ s' = Obfs2.resp_pad_len_ s - n
          /\ 0 <= Obfs2.resp_pad_len_ s')
    /\
    (Obfs2.received_seed_hdr_ s = false -> 24 <= len ->
     exists r s', Obfs2.on_outgoing_data_connecting f s = Returned (r, s')
       /\ ((r = false /\ refused_from s s')
           \/ (r = true
               /\ Obfs2.received_seed_hdr_ s' = true
               /\ 0 <= header_padlen buf <= kMaxPadding
               /\ let n := Z.min (header_padlen buf) (len - 24) in
                  Libevent.input (Obfs2.outgoing_ s') = skipn (24 + Z.to_nat n) buf
                  /\ Obfs2.resp_pad_len_ s' = header_padlen buf - n
                  /\ 0 <= Obfs2.resp_pad_len_ s'))).
Proof.
  intros f s Hst buf len.
  unfold Obfs2.on_outgoing_data_connecting. rewrite Hst. cbn [State_eqb negb].
  split; [|split].
  - intros Hrec Hlen. rewrite Hrec. cbn [negb].
    unfold Obfs2.read_seed_hdr, Libevent.evbuffer_get_length. cbv zeta.
    fold buf. fold len.
    destruct (len <? kSeedLength + 4 * 2) eqn:E; [reflexivity|].
    apply Z.ltb_ge in E. unfold kSeedLength in E. lia.
  - intros Hrec Hpad. rewrite Hrec. cbn [negb].
    destruct (skip_responder_padding_frame s) as (Hf & _).
    destruct (skip_responder_padding_drains s Hpad) as (_ & H1 & H2 & H3 & _).
    destruct (Obfs2.skip_responder_padding s) as [r s'].
    simpl in *. subst r. exists s'. repeat split; assumption.
  - intros Hrec Hlen. rewrite Hrec. cbn [negb].
    destruct (read_seed_hdr_cases f s Hlen) as [(s' & E & R)|(Hm & Hp & E)];
      rewrite E.
    + exists false, s'. split; [reflexivity|]. left. now split.
    + pose proof (header_padlen_range buf) as Hrange.
      assert (Hpad : 0 <= Obfs2.resp_pad_len_ (after_seed_hdr s) < 2 ^ 64).
      { unfold after_seed_hdr. session_simpl. fold buf. lia. }
      destruct (skip_responder_padding_frame (after_seed_hdr s))
        as (Hf & _ & _ & _ & _ & Hh & _).
      destruct (skip_responder_padding_drains (after_seed_hdr s) Hpad)
        as (_ & H1 & H2 & H3 & _).
      destruct (Obfs2.skip_responder_padding (after_seed_hdr s)) as [r s'].
      unfold after_seed_hdr in Hf, Hh, H1, H2, H3. session_simpl.
      fold buf in H1, H2, H3. subst r.
      exists true, s'. split; [reflexivity|]. right.
      split; [reflexivity|]. split; [exact Hh|].
      split; [fold buf in Hp; lia|].
      assert (Hl : Z.of_nat (length (skipn 24 buf)) = len - 24)
        by (rewrite length_skipn; subst len; lia).
      rewrite Hl in H1, H2.
      cbv zeta. rewrite skipn_skipn in H1. rewrite (Nat.add_comm 24).
      repeat split; assumption.
Qed.

Lemma C8_connecting_consumes_only_handshake_witness :
  Obfs2.on_outgoing_data_connecting no_faults short_session
  = Returned (true, short_session)
  /\ exists r s',
      Obfs2.on_outgoing_data_connecting no_faults hello_session = Returned (r, s')
      /\ ((r = false /\ refused_from hello_session s')
          \/ (r = true
              /\ Obfs2.received_seed_hdr_ s' = true
              /\ 0 <= header_padlen (Libevent.input (Obfs2.outgoing_ hello_session))
                 <= kMaxPadding
              /\ Libevent.input (Obfs2.outgoing_ s')
                 = skipn (24 + Z.to_nat
                            (Z.min (header_padlen
                                      (Libevent.input (Obfs2.outgoing_ hello_session)))
                                   (Z.of_nat (length (Libevent.input
                                                        (Obfs2.outgoing_ hello_session)))
                                    - 24)))
                         (Libevent.input (Obfs2.outgoing_ hello_session))
              /\ Obfs2.resp_pad_len_ s'
                 = header_padlen (Libevent.input (Obfs2.outgoing_ hello_session))
                   - Z.min (header_padlen
                              (Libevent.input (Obfs2.outgoing_ hello_session)))
                           (Z.of_nat (length (Libevent.input
                                                (Obfs2.outgoing_ hello_session)))
                            - 24)
              /\ 0 <= Obfs2.resp_pad_len_ s')).
Proof.
  split.
  - apply (proj1 (C8_connecting_consumes_only_handshake
                    no_faults short_session eq_refl));
      [reflexivity | vm_compute; reflexivity].
  - apply (proj2 (proj2 (C8_connecting_consumes_only_handshake
                           no_faults hello_session eq_refl)));
      [reflexivity | vm_compute; discriminate].
Defined.

(** What that call leaves of the hello session: the two data bytes. *)
Example hello_session_leaves_data :
  match Obfs2.on_outgoing_data_connecting no_faults hello_session with
  | Returned (r, s') =>
      r = true /\ Obfs2.state_ s' = kESTABLISHED
      /\ Libevent.input (Obfs2.outgoing_ s') = [1; 2]
      /\ Obfs2.resp_pad_len_ s' = 0
      /\ Obfs2.replies_ s' = [kSUCCEDED]
  | _ => False
  end.
Proof. vm_compute. repeat split. Qed.

(** ** The ciphers a handshake leaves *)

(** One call of [on_outgoing_data_connecting]. *)
Lemma connecting_step (f : Faults) (s s' : Obfs2.Client) (r : bool) :
  session_keyed s ->
  Obfs2.on_outgoing_data_connecting f s = Returned (r, s') ->
  Obfs2.init_seed_ s' = Obfs2.init_seed_ s
  /\ (r = false -> Obfs2.state_ s' = kFLUSHING_INCOMING)
  /\ (r = true ->
      session_keyed s'
      /\ (Obfs2.state_ s' = kESTABLISHED -> Obfs2.received_seed_hdr_ s' = true)).
Proof.
  intros Hk. unfold Obfs2.on_outgoing_data_connecting.
  destruct (State_eqb (Obfs2.state_ s) kCONNECTING) eqn:Est;
    cbn [negb]; [|discriminate].
  assert (Hst : Obfs2.state_ s = kCONNECTING)
    by (destruct (Obfs2.state_ s); try discriminate; reflexivity).
  destruct (Obfs2.received_seed_hdr_ s) eqn:Hrec; cbn [negb].
  - (* the header was read by an earlier call *)
    pose proof (skip_responder_padding_frame s) as F. cbv zeta in F.
    destruct (Obfs2.skip_responder_padding s) as [r0 s0]. cbn [fst snd] in F.
    destruct F as (-> & F1 & F2 & F3 & F4 & F5 & _ & _ & _).
    intros H; injection H as <- <-.
    split; [exact F1|]. split; [discriminate|]. intros _.
    split; [|intros _; congruence].
    intros _. rewrite F3, F4, F1, F2. now apply Hk.
  - destruct (Z_lt_ge_dec (Z.of_nat (length (Libevent.input (Obfs2.outgoing_ s)))) 24)
      as [Hlen|Hlen].
    + (* not enough buffered *)
      assert (E : Obfs2.read_seed_hdr f s = Obfs2.Return (true, s)).
      { unfold Obfs2.read_seed_hdr, Libevent.evbuffer_get_length. cbv zeta.
        destruct (_ <? kSeedLength + 4 * 2) eqn:E; [reflexivity|].
        apply Z.ltb_ge in E. unfold kSeedLength in E. lia. }
      rewrite E. intros H; injection H as <- <-.
      split; [reflexivity|]. split; [discriminate|]. intros _.
      split; [exact Hk|]. rewrite Hst. discriminate.
    + destruct (read_seed_hdr_cases f s ltac:(lia)) as [(s1 & E & R)|(_ & _ & E)];
        rewrite E.
      * (* refused *)
        intros H; injection H as <- <-.
        destruct R as (_ & R2 & _ & R4 & _).
        split; [exact R4|]. split; [intros _; exact R2 | discriminate].
      * (* seed and header read, keys derived *)
        pose proof (skip_responder_padding_frame (after_seed_hdr s)) as F.
        cbv zeta in F.
        destruct (Obfs2.skip_responder_padding (after_seed_hdr s)) as [r0 s0].
        cbn [fst snd] in F.
        destruct F as (-> & F1 & F2 & F3 & F4 & F5 & _ & _ & _).
        intros H; injection H as <- <-.
        split; [exact F1|]. split; [discriminate|]. intros _.
        split; [|intros _; exact F5].
        intros _. rewrite F3, F4, F1, F2. split; reflexivity.
Qed.

Lemma arrive_outgoing_keyed (chunk : bytes) (s : Obfs2.Client) :
  session_keyed s -> session_keyed (Run.arrive_outgoing chunk s).
Proof. intros H. exact H. Qed.

(** The reads of a handshake keep what [connecting_step] keeps. *)
Lemma handshake_keys (reads : list (Faults * bytes)) :
  forall s s' : Obfs2.Client,
    session_keyed s ->
    (Obfs2.state_ s = kESTABLISHED -> Obfs2.received_seed_hdr_ s = true) ->
    Run.handshake reads s = Returned s' ->
    Obfs2.state_ s' = kESTABLISHED ->
    Obfs2.received_seed_hdr_ s' = true
    /\ session_keyed s'
    /\ Obfs2.init_seed_ s' = Obfs2.init_seed_ s.
Proof.
  induction reads as [|[f chunk] reads IH]; intros s s' Hk He; simpl.
  - intros H; injection H as <-. intros Hs. auto.
  - destruct (State_eqb (Obfs2.state_ s) kCONNECTING) eqn:Est.
    + destruct (Obfs2.on_outgoing_data_connecting f (Run.arrive_outgoing chunk s))
        as [[[|] s1]| |] eqn:E; try discriminate.
      * apply connecting_step in E; [|now apply arrive_outgoing_keyed].
        destruct E as (E1 & _ & E3). destruct (E3 eq_refl) as (K1 & K2).
        intros H Hs. destruct (IH s1 s' K1 K2 H Hs) as (I1 & I2 & I3).
        split; [exact I1|]. split; [exact I2|]. rewrite I3, E1. reflexivity.
      * apply connecting_step in E; [|now apply arrive_outgoing_keyed].
        destruct E as (_ & E2 & _).
        intros H; injection H as <-. rewrite (E2 eq_refl). discriminate.
    + intros H; injection H as <-. intros Hs. auto.
Qed.

(** C2, amended.  For every session that completes the handshake, whatever
    the reads the responder's bytes arrive in: the ciphers in place for the
    first data bytes are the ones [kdf_obfs2] keyed, at the start of their
    streams.  The initiator cipher is keyed from INIT_SECRET and the
    responder cipher from RESP_SECRET, both at position zero: the initiator
    cipher is not the pad cipher continued, and the responder's padding was
    drained without going through a cipher. *)
Theorem C2_data_ciphers_are_fresh_session_keys :
  forall (reads : list (Faults * bytes)) (s s' : Obfs2.Client),
    Obfs2.state_ s = kCONNECTING ->
    Obfs2.received_seed_hdr_ s = false ->
    Run.handshake reads s = Returned s' ->
    Obfs2.state_ s' = kESTABLISHED ->
    let isec := init_secret (Obfs2.init_seed_ s) (Obfs2.resp_seed_ s') in
    let rsec := resp_secret (Obfs2.init_seed_ s) (Obfs2.resp_seed_ s') in
    Obfs2.initiator_aes_ s'
    = AesCtr128.mk true (Obfs2.key_part isec) (Obfs2.iv_part isec) 0
    /\ Obfs2.responder_aes_ s'
       = AesCtr128.mk true (Obfs2.key_part rsec) (Obfs2.iv_part rsec) 0.
Proof.
  intros reads s s' Hst Hrec Hrun Hest isec rsec.
  assert (Hk : session_keyed s)
    by (unfold session_keyed; rewrite Hrec; discriminate).
  assert (He : Obfs2.state_ s = kESTABLISHED -> Obfs2.received_seed_hdr_ s = true)
    by (rewrite Hst; discriminate).
  destruct (handshake_keys reads s s' Hk He Hrun Hest) as (H1 & H2 & H3).
  destruct (H2 H1) as (Hi & Hr).
  subst isec rsec. rewrite <- H3. split; [exact Hi | exact Hr].
Qed.

(** ** The initiator's hello *)

Lemma Returned_pair_inj (A : Type) (b b' : bool) (x y : A) :
  Returned (b, x) = Returned (b', y) -> b = b' /\ x = y.
Proof. intros H. injection H as -> ->. now split. Qed.

Lemma general_failure_false (s : Obfs2.Client) (r : bool * Obfs2.Client) :
  Obfs2.general_failure s = Returned r -> fst r = false.
Proof. unfold Obfs2.general_failure. intros H; injection H as <-. reflexivity. Qed.

Lemma pad_dist_range (r : Rand.ctx) : 0 <= fst (Obfs2.pad_dist_ r) <= kMaxPadding.
Proof.
  unfold Obfs2.pad_dist_, Rand.draw32, kMaxPadding. cbn [fst].
  pose proof (Z.mod_pos_bound (ntohl_bytes (Rand.peek r 4)) (8192 + 1) ltac:(lia)).
  lia.
Qed.

Lemma peek_length (r : Rand.ctx) (n : nat) : length (Rand.peek r n) = n.
Proof. unfold Rand.peek. now rewrite length_map, length_seq. Qed.

Lemma on_outgoing_connected_true (f : Faults) (s s' : Obfs2.Client) :
  Obfs2.on_outgoing_connected f s = Returned (true, s') ->
  let r := Obfs2.rand_ s in
  let k := initiator_pad_secret (drawn_seed r) in
  Obfs2.init_seed_ s' = drawn_seed r
  /\ Libevent.output (Obfs2.outgoing_ s')
     = Libevent.output (Obfs2.outgoing_ s)
       ++ initiator_hello (drawn_seed r) (drawn_padlen r) (drawn_padding r)
  /\ Obfs2.initiator_aes_ s'
     = AesCtr128.mk true (Obfs2.key_part k) (Obfs2.iv_part k)
                    (8 + length (drawn_padding r))
  /\ Obfs2.state_ s' = Obfs2.state_ s
  /\ Obfs2.replies_ s' = Obfs2.replies_ s
  /\ Obfs2.received_seed_hdr_ s' = Obfs2.received_seed_hdr_ s
  /\ Libevent.input (Obfs2.outgoing_ s') = Libevent.input (Obfs2.outgoing_ s).
Proof.
  unfold Obfs2.on_outgoing_connected. cbv zeta.
  unfold Rand.get_bytes, Libevent.bufferevent_write.
  change (Z.to_nat kSeedLength) with 16%nat.
  destruct (fault f 0);
    [intros H; apply general_failure_false in H; discriminate|].
  session_simpl.
  destruct (mac (fault f 1) _ _ _) as [[|] d] eqn:E1; session_simpl;
    [|intros H; apply general_failure_false in H; discriminate].
  apply mac_true_some in E1. subst d.
  fold (drawn_seed (Obfs2.rand_ s)).
  fold (initiator_pad_secret (drawn_seed (Obfs2.rand_ s))).
  set (k := initiator_pad_secret (drawn_seed (Obfs2.rand_ s))).
  destruct (AesCtr128.set_state (fault f 2) _ _ _) as [a|] eqn:E2;
    [|intros H; apply general_failure_false in H; discriminate].
  apply set_state_some in E2. destruct E2 as (-> & _).
  session_simpl.
  pose proof (pad_dist_range (Rand.skip (Obfs2.rand_ s) 16)) as Hrange.
  assert (Ep : Obfs2.pad_dist_ (Rand.skip (Obfs2.rand_ s) 16)
               = (drawn_padlen (Obfs2.rand_ s),
                  snd (Obfs2.pad_dist_ (Rand.skip (Obfs2.rand_ s) 16))))
    by (unfold drawn_padlen; now destruct (Obfs2.pad_dist_ _)).
  unfold drawn_padding. fold (drawn_padlen (Obfs2.rand_ s)) in Hrange.
  rewrite Ep. set (padlen := drawn_padlen (Obfs2.rand_ s)) in *.
  set (r2 := snd (Obfs2.pad_dist_ (Rand.skip (Obfs2.rand_ s) 16))).
  session_simpl.
  destruct (AesCtr128.process (fault f 3) _ _) as [[hdr a]|] eqn:E3;
    [|intros H; apply general_failure_false in H; discriminate].
  apply process_keyed in E3.
  assert (Eh : hdr = fst (hdr, a)) by reflexivity.
  assert (Ea : a = snd (hdr, a)) by reflexivity.
  rewrite E3 in Eh, Ea. cbn [fst snd] in Eh, Ea. subst hdr a. clear E3.
  change (length (htonl_bytes kMagicValue ++ htonl_bytes padlen)) with 8%nat.
  change (0 + 8)%nat with 8%nat.
  session_simpl.
  destruct (fault f 4); cbn [Z.eqb negb];
    [intros H; apply general_failure_false in H; discriminate|].
  session_simpl.
  destruct (fault f 5); cbn [Z.eqb negb];
    [intros H; apply general_failure_false in H; discriminate|].
  session_simpl.
  unfold initiator_hello. fold k. fold (initiator_header padlen).
  destruct (padlen >? 0) eqn:Epos.
  - destruct (fault f 6);
      [intros H; apply general_failure_false in H; discriminate|].
    session_simpl.
    destruct (AesCtr128.process (fault f 7) _ _) as [[pad a]|] eqn:E4;
      [|intros H; apply general_failure_false in H; discriminate].
    apply process_keyed in E4.
    assert (Eh : pad = fst (pad, a)) by reflexivity.
    assert (Ea : a = snd (pad, a)) by reflexivity.
    rewrite E4 in Eh, Ea. cbn [fst snd] in Eh, Ea. subst pad a. clear E4.
    session_simpl.
    destruct (fault f 8); cbn [Z.eqb negb];
      [intros H; apply general_failure_false in H; discriminate|].
    intros H; apply Returned_pair_inj in H; destruct H as [_ <-]. session_simpl.
    rewrite <- !app_assoc. repeat split.
  - rewrite Z.gtb_ltb in Epos. apply Z.ltb_ge in Epos.
    assert (E0 : padlen = 0) by lia. rewrite E0.
    intros H; apply Returned_pair_inj in H; destruct H as [_ <-]. session_simpl.
    change (Rand.peek r2 (Z.to_nat 0)) with (@nil Z).
    cbn [length xor_bytes]. rewrite app_nil_r, Nat.add_0_r, <- !app_assoc.
    repeat split.
Qed.

(** With no fault, [on_outgoing_connected] returns true. *)
Lemma on_outgoing_connected_ok (s : Obfs2.Client) :
  exists s', Obfs2.on_outgoing_connected no_faults s = Returned (true, s').
Proof.
  unfold Obfs2.on_outgoing_connected. cbv zeta.
  unfold Rand.get_bytes, Libevent.bufferevent_write, no_faults, fault.
  change (Z.to_nat kSeedLength) with 16%nat.
  cbn [nth]. session_simpl.
  rewrite mac_ok;
    [| discriminate
     | intros H; apply (f_equal (@length Z)) in H; rewrite peek_length in H;
       discriminate
     | reflexivity].
  session_simpl.
  rewrite set_state_secret by apply sha256_length.
  session_simpl.
  destruct (Obfs2.pad_dist_ _) as [padlen r2].
  session_simpl.
  rewrite process_ok by reflexivity.
  session_simpl. cbn [Z.eqb negb]. session_simpl.
  destruct (padlen >? 0).
  - session_simpl. rewrite process_ok by reflexivity.
    cbn [Z.eqb negb]. eexists. reflexivity.
  - eexists. reflexivity.
Qed.

(** *** The earlier client's hello *)

Ltac legacy_simpl :=
  cbn [Legacy.state_ Legacy.incoming_ Legacy.outgoing_ Legacy.socks4_replies_
       Legacy.init_seed_ Legacy.set_incoming
       Legacy.resp_seed_ Legacy.initiator_aes_ Legacy.responder_aes_
       Legacy.received_seed_hdr_ Legacy.resp_pad_len_
       Legacy.openssl_rand Legacy.evutil_draws Legacy.evutil_rand
       Legacy.set_state_ Legacy.set_outgoing Legacy.set_socks4_replies
       Legacy.set_init_seed Legacy.set_resp_seed Legacy.set_initiator_aes
       Legacy.set_responder_aes Legacy.set_received_seed_hdr
       Legacy.set_resp_pad_len Legacy.set_openssl_rand Legacy.set_evutil_draws
       Legacy.set_evutil_rand Legacy.send_socks4_response
       Libevent.input Libevent.output Libevent.set_input
       AesCtr128.has_state AesCtr128.key AesCtr128.iv AesCtr128.pos
       negb fst snd] in *.

Lemma app_one_neq (A : Type) (l : list A) (x : A) : l ++ [x] <> l.
Proof.
  intros H. apply (f_equal (@length A)) in H.
  rewrite length_app in H. simpl in H. lia.
Qed.

(** A run that reaches [out_error] shows in the reply log. *)
Lemma out_error_logged (s s1 l' : Legacy.Obfs2Client) :
  Legacy.socks4_replies_ s1 = Legacy.socks4_replies_ s ->
  Legacy.out_error s1 = Returned l' ->
  Legacy.socks4_replies_ l' <> Legacy.socks4_replies_ s.
Proof.
  intros Hs H. unfold Legacy.out_error in H.
  assert (E : l' = Legacy.send_socks4_response false s1) by congruence.
  rewrite E. simpl. rewrite Hs. apply app_one_neq.
Qed.

Ltac legacy_failed l Hok :=
  let H := fresh in
  intros H; apply (out_error_logged l) in H; [destruct (H Hok) | reflexivity].

Lemma Returned_inj (A : Type) (x y : A) : Returned x = Returned y -> x = y.
Proof. intros H. now injection H. Qed.

Lemma legacy_on_outgoing_connected_done (f : Faults) (l l' : Legacy.Obfs2Client) :
  Legacy.on_outgoing_connected f l = Returned l' ->
  Legacy.socks4_replies_ l' = Legacy.socks4_replies_ l ->
  exists padlen draws,
    Legacy.gen_padlen (Legacy.evutil_draws l) = Legacy.PadLen padlen draws
    /\ let seed := drawn_seed (Legacy.openssl_rand l) in
       let k := initiator_pad_secret seed in
       Legacy.init_seed_ l' = seed
       /\ Libevent.output (Legacy.outgoing_ l')
          = Libevent.output (Legacy.outgoing_ l)
            ++ seed
            ++ xor_bytes (initiator_header padlen)
                 (AesCtr128.keystream (Obfs2.key_part k) (Obfs2.iv_part k) 0 8)
            ++ Rand.peek (Legacy.evutil_rand l) (Z.to_nat padlen)
       /\ Legacy.initiator_aes_ l'
          = AesCtr128.mk true (Obfs2.key_part k) (Obfs2.iv_part k) 8.
Proof.
  intros H Hok. revert H.
  unfold Legacy.on_outgoing_connected. cbv zeta.
  unfold Rand.get_bytes, Libevent.bufferevent_write.
  change (Z.to_nat kSeedLength) with 16%nat.
  destruct (fault f 0);
    [legacy_failed l Hok|].
  legacy_simpl.
  destruct (mac (fault f 1) _ _ _) as [[|] d] eqn:E1; legacy_simpl;
    [|legacy_failed l Hok].
  apply mac_true_some in E1. subst d.
  fold (drawn_seed (Legacy.openssl_rand l)).
  fold (initiator_pad_secret (drawn_seed (Legacy.openssl_rand l))).
  set (k := initiator_pad_secret (drawn_seed (Legacy.openssl_rand l))).
  destruct (AesCtr128.set_state (fault f 2) _ _ _) as [a|] eqn:E2;
    [|legacy_failed l Hok].
  apply set_state_some in E2. destruct E2 as (-> & _).
  legacy_simpl.
  destruct (Legacy.gen_padlen (Legacy.evutil_draws l)) as [padlen draws| |] eqn:Eg;
    try discriminate.
  legacy_simpl.
  destruct (AesCtr128.process (fault f 3) _ _) as [[hdr a]|] eqn:E3;
    [|legacy_failed l Hok].
  apply process_keyed in E3.
  assert (Eh : hdr = fst (hdr, a)) by reflexivity.
  assert (Ea : a = snd (hdr, a)) by reflexivity.
  rewrite E3 in Eh, Ea. cbn [fst snd] in Eh, Ea. subst hdr a. clear E3.
  change (length (htonl_bytes kMagicValue ++ htonl_bytes padlen)) with 8%nat.
  change (0 + 8)%nat with 8%nat.
  fold (initiator_header padlen).
  legacy_simpl.
  destruct (fault f 4); cbn [Z.eqb negb]; legacy_simpl;
    [legacy_failed l Hok|].
  destruct (fault f 5); cbn [Z.eqb negb]; legacy_simpl;
    [legacy_failed l Hok|].
  exists padlen, draws. split; [reflexivity|]. cbv zeta. revert H.
  destruct (padlen >? 0) eqn:Epos.
  - destruct (fault f 6); cbn [Z.eqb negb]; legacy_simpl;
      [legacy_failed l Hok|].
    intros H. apply Returned_inj in H. subst l'. legacy_simpl.
    rewrite <- !app_assoc. repeat split.
  - rewrite Z.gtb_ltb in Epos. apply Z.ltb_ge in Epos.
    apply gen_padlen_range in Eg.
    assert (E0 : padlen = 0) by lia. rewrite E0.
    intros H. apply Returned_inj in H. subst l'. legacy_simpl.
    change (Rand.peek (Legacy.evutil_rand l) (Z.to_nat 0)) with (@nil Z).
    rewrite !app_nil_r, <- !app_assoc. repeat split.
Qed.

(** C3, as the claim has it, fails for [Obfs2Client::on_outgoing_connected]:
    a run that succeeds writes the five padding bytes as the generator gave
    them, not encrypted, and the pad cipher stops after the header. *)
Lemma C3_legacy_padding_is_sent_in_clear :
  match Legacy.on_outgoing_connected no_faults legacy_connecting with
  | Returned l1 =>
      Legacy.socks4_replies_ l1 = []
      /\ Legacy.gen_padlen (Legacy.evutil_draws legacy_connecting)
         = Legacy.PadLen 5 []
      /\ Rand.peek (Legacy.evutil_rand legacy_connecting) 5
         = [200; 201; 202; 203; 204]
      /\ Libevent.output (Legacy.outgoing_ l1)
         = Legacy.init_seed_ l1
           ++ [90; 23; 119; 3; 218; 200; 213; 139]
           ++ [200; 201; 202; 203; 204]
      /\ initiator_hello (Legacy.init_seed_ l1) 5 [200; 201; 202; 203; 204]
         = Legacy.init_seed_ l1
           ++ [90; 23; 119; 3; 218; 200; 213; 139]
           ++ [239; 85; 141; 84; 120]
      /\ Libevent.output (Legacy.outgoing_ l1)
         <> initiator_hello (Legacy.init_seed_ l1) 5 [200; 201; 202; 203; 204]
      /\ AesCtr128.pos (Legacy.initiator_aes_ l1) = 8%nat
  | _ => False
  end.
Proof. vm_compute. repeat split. intros H. discriminate H. Qed.

(** C3, amended.  Every run of [Client::on_outgoing_connected] that returns
    true has written to the outgoing endpoint, in order: the 16-byte
    INIT_SEED in clear; the 8-byte header, big-endian MAGIC then big-endian
    PADLEN, under the initiator pad cipher; and exactly PADLEN bytes of
    random padding under the same cipher, continued; PADLEN is at most
    kMaxPadding.  With no fault the call does return true.  A run of the
    earlier [Obfs2Client::on_outgoing_connected] that does not reach
    [out_error] has written the seed and the encrypted header likewise, and
    then the PADLEN random bytes as they are, the cipher left where the
    header ended. *)
Theorem C3_hello_bytes_in_order :
  (forall (f : Faults) (s s' : Obfs2.Client),
      Obfs2.on_outgoing_connected f s = Returned (true, s') ->
      exists (padlen : Z) (padding : bytes),
        0 <= padlen <= kMaxPadding
        /\ length padding = Z.to_nat padlen
        /\ padding = drawn_padding (Obfs2.rand_ s)
        /\ length (Obfs2.init_seed_ s') = 16%nat
        /\ Obfs2.init_seed_ s' = drawn_seed (Obfs2.rand_ s)
        /\ initiator_header padlen = htonl_bytes 0x2BF5CA7E ++ htonl_bytes padlen
        /\ Libevent.output (Obfs2.outgoing_ s')
           = Libevent.output (Obfs2.outgoing_ s)
             ++ initiator_hello (Obfs2.init_seed_ s') padlen padding)
  /\ (forall s : Obfs2.Client,
         exists s', Obfs2.on_outgoing_connected no_faults s = Returned (true, s'))
  /\ (forall (f : Faults) (l l' : Legacy.Obfs2Client),
         Legacy.on_outgoing_connected f l = Returned l' ->
         Legacy.socks4_replies_ l' = Legacy.socks4_replies_ l ->
         exists padlen : Z,
           0 <= padlen <= kMaxPadding
           /\ length (Legacy.init_seed_ l') = 16%nat
           /\ Libevent.output (Legacy.outgoing_ l')
              = Libevent.output (Legacy.outgoing_ l)
                ++ initiator_hello (Legacy.init_seed_ l') padlen []
                ++ Rand.peek (Legacy.evutil_rand l) (Z.to_nat padlen)
           /\ AesCtr128.pos (Legacy.initiator_aes_ l') = 8%nat).
Proof.
  split; [|split].
  - intros f s s' H. apply on_outgoing_connected_true in H. cbv zeta in H.
    destruct H as (H1 & H2 & _).
    exists (drawn_padlen (Obfs2.rand_ s)), (drawn_padding (Obfs2.rand_ s)).
    split; [apply pad_dist_range|].
    split; [apply peek_length|]. split; [reflexivity|].
    split; [rewrite H1; apply peek_length|]. split; [exact H1|].
    split; [reflexivity|]. rewrite H1. exact H2.
  - apply on_outgoing_connected_ok.
  - intros f l l' H Hok.
    destruct (legacy_on_outgoing_connected_done f l l' H Hok)
      as (padlen & draws & Hg & H1 & H2 & H3).
    exists padlen. apply gen_padlen_range in Hg.
    split; [lia|]. split; [rewrite H1; apply peek_length|].
    split; [|rewrite H3; reflexivity].
    rewrite H2, H1. unfold initiator_hello. cbn [xor_bytes length].
    rewrite app_nil_r, <- !app_assoc. reflexivity.
Qed.

(** ** A whole handshake *)

(** C2, as the claim has it, fails.  The sample handshake completes; the
    initiator cipher had encrypted header and five bytes of padding and stood
    at position 13 of the pad stream, yet the cipher in place for the first
    data byte has another key and stands at position 0; and the responder
    cipher stands at position 0 of its stream, not past the eight header
    bytes and three padding bytes. *)
Lemma C2_ciphers_are_rekeyed_at_handshake :
  Obfs2.on_outgoing_connected no_faults (Run.connecting Run.sample_rand)
  = Returned (true, connected_session)
  /\ Run.handshake [(no_faults, sample_hello)] connected_session
     = Returned handshaken_session
  /\ Obfs2.state_ handshaken_session = kESTABLISHED
  /\ AesCtr128.pos (Obfs2.initiator_aes_ connected_session) = 13%nat
  /\ AesCtr128.pos (Obfs2.initiator_aes_ handshaken_session) = 0%nat
  /\ AesCtr128.key (Obfs2.initiator_aes_ handshaken_session)
     <> AesCtr128.key (Obfs2.initiator_aes_ connected_session)
  /\ Obfs2.initiator_aes_ handshaken_session
     <> Obfs2.initiator_aes_ connected_session
  /\ AesCtr128.pos (Obfs2.responder_aes_ handshaken_session) = 0%nat
  /\ AesCtr128.key (Obfs2.responder_aes_ handshaken_session)
     <> Obfs2.key_part (responder_pad_secret Run.sample_peer_seed).
Proof.
  vm_compute. repeat split; intros H; discriminate H.
Qed.

Lemma C2_data_ciphers_are_fresh_session_keys_witness :
  Obfs2.initiator_aes_ handshaken_session
  = AesCtr128.mk true
      (Obfs2.key_part (init_secret (Obfs2.init_seed_ connected_session)
                                   (Obfs2.resp_seed_ handshaken_session)))
      (Obfs2.iv_part (init_secret (Obfs2.init_seed_ connected_session)
                                  (Obfs2.resp_seed_ handshaken_session))) 0
  /\ Obfs2.responder_aes_ handshaken_session
     = AesCtr128.mk true
         (Obfs2.key_part (resp_secret (Obfs2.init_seed_ connected_session)
                                      (Obfs2.resp_seed_ handshaken_session)))
         (Obfs2.iv_part (resp_secret (Obfs2.init_seed_ connected_session)
                                     (Obfs2.resp_seed_ handshaken_session))) 0.
Proof.
  apply (C2_data_ciphers_are_fresh_session_keys
           [(no_faults, sample_hello)] connected_session handshaken_session);
    vm_compute; reflexivity.
Defined.

(** For every session: the cipher that encrypted the hello stands at
    position 8 or beyond, the one a completed handshake leaves stands at 0;
    they are never the same state.  Both ciphers are keyed when the splice
    begins. *)
Lemma handshake_leaves_the_pad_cipher
      (f0 : Faults) (s0 s s' : Obfs2.Client) (reads : list (Faults * bytes)) :
  Obfs2.state_ s0 = kCONNECTING ->
  Obfs2.received_seed_hdr_ s0 = false ->
  Obfs2.on_outgoing_connected f0 s0 = Returned (true, s) ->
  Run.handshake reads s = Returned s' ->
  Obfs2.state_ s' = kESTABLISHED ->
  (8 <= AesCtr128.pos (Obfs2.initiator_aes_ s))%nat
  /\ AesCtr128.pos (Obfs2.initiator_aes_ s') = 0%nat
  /\ Obfs2.initiator_aes_ s' <> Obfs2.initiator_aes_ s
  /\ AesCtr128.has_state (Obfs2.initiator_aes_ s') = true
  /\ AesCtr128.has_state (Obfs2.responder_aes_ s') = true.
Proof.
  intros Hst Hrec Hc Hrun Hest.
  apply on_outgoing_connected_true in Hc. cbv zeta in Hc.
  destruct Hc as (_ & _ & C3 & C4 & _ & C6 & _).
  assert (Hk : session_keyed s)
    by (unfold session_keyed; rewrite C6, Hrec; discriminate).
  assert (He : Obfs2.state_ s = kESTABLISHED -> Obfs2.received_seed_hdr_ s = true)
    by (rewrite C4, Hst; discriminate).
  destruct (handshake_keys reads s s' Hk He Hrun Hest) as (H1 & H2 & _).
  destruct (H2 H1) as (Hi & Hr).
  rewrite Hi, Hr, C3. unfold keyed_from. cbn [AesCtr128.pos AesCtr128.has_state].
  split; [lia|]. split; [reflexivity|]. split; [|split; reflexivity].
  intros E. apply (f_equal AesCtr128.pos) in E. cbn [AesCtr128.pos] in E. lia.
Qed.

(** ** The splice *)

Lemma advanced_zero (c : AesCtr128.ctx) :
  AesCtr128.has_state c = true -> advanced c 0 = c.
Proof.
  intros H. destruct c as [h k i p]. simpl in H. subst h.
  unfold advanced. simpl. now rewrite Nat.add_0_r.
Qed.

Lemma advanced_advanced (c : AesCtr128.ctx) (n m : nat) :
  advanced (advanced c n) m = advanced c (n + m).
Proof. unfold advanced. simpl. now rewrite Nat.add_assoc. Qed.

Lemma next_keystream_app (c : AesCtr128.ctx) (a b : bytes) :
  xor_bytes (a ++ b) (next_keystream c (length (a ++ b)))
  = xor_bytes a (next_keystream c (length a))
    ++ xor_bytes b (next_keystream (advanced c (length a)) (length b)).
Proof. unfold next_keystream, advanced. simpl. apply xor_keystream_app. Qed.

Lemma process_next (c : AesCtr128.ctx) (buf : bytes) :
  AesCtr128.has_state c = true ->
  AesCtr128.process false c buf
  = Some (xor_bytes buf (next_keystream c (length buf)), advanced c (length buf)).
Proof. apply process_ok. Qed.

Lemma pullup_all (buf : bytes) :
  Libevent.evbuffer_pullup false buf (Z.to_nat (Libevent.evbuffer_get_length buf))
  = Some buf.
Proof.
  unfold Libevent.evbuffer_pullup, Libevent.evbuffer_get_length.
  rewrite Nat2Z.id, Nat.leb_refl, firstn_all. reflexivity.
Qed.

Lemma skipn_whole (buf : bytes) :
  skipn (Z.to_nat (Libevent.evbuffer_get_length buf)) buf = [].
Proof.
  unfold Libevent.evbuffer_get_length. rewrite Nat2Z.id. apply skipn_all.
Qed.

Lemma on_incoming_data_ok (s : Obfs2.Client) :
  Obfs2.state_ s = kESTABLISHED ->
  AesCtr128.has_state (Obfs2.initiator_aes_ s) = true ->
  exists s', Obfs2.on_incoming_data no_faults s = Returned (true, s')
             /\ submitted (Libevent.input (Obfs2.incoming_ s)) s s'.
Proof.
  intros Hst Hk. unfold Obfs2.on_incoming_data. cbv zeta.
  rewrite Hst. cbn [State_eqb negb].
  destruct (Libevent.evbuffer_get_length (Libevent.input (Obfs2.incoming_ s)) =? 0)
    eqn:E.
  - apply length_zero_eqb in E. exists s. split; [reflexivity|].
    unfold submitted. rewrite E. cbn [xor_bytes length].
    rewrite app_nil_r, advanced_zero by assumption. repeat split.
  - unfold no_faults, fault. cbn [nth].
    rewrite pullup_all, process_next by assumption.
    rewrite skipn_whole, app_nil_r.
    unfold Libevent.bufferevent_write_buffer. session_simpl. cbn [Z.eqb negb].
    eexists. split; [reflexivity|].
    unfold submitted. session_simpl. repeat split.
Qed.

Lemma on_outgoing_data_ok (s : Obfs2.Client) :
  Obfs2.state_ s = kESTABLISHED ->
  AesCtr128.has_state (Obfs2.responder_aes_ s) = true ->
  exists s', Obfs2.on_outgoing_data no_faults s = Returned (true, s')
             /\ delivered (Libevent.input (Obfs2.outgoing_ s)) s s'.
Proof.
  intros Hst Hk. unfold Obfs2.on_outgoing_data. cbv zeta.
  rewrite Hst. cbn [State_eqb negb].
  destruct (Libevent.evbuffer_get_length (Libevent.input (Obfs2.outgoing_ s)) =? 0)
    eqn:E.
  - apply length_zero_eqb in E. exists s. split; [reflexivity|].
    unfold delivered. rewrite E. cbn [xor_bytes length].
    rewrite app_nil_r, advanced_zero by assumption. repeat split.
  - unfold no_faults, fault. cbn [nth].
    rewrite pullup_all, process_next by assumption.
    rewrite skipn_whole, app_nil_r.
    unfold Libevent.bufferevent_write_buffer. session_simpl. cbn [Z.eqb negb].
    eexists. split; [reflexivity|].
    unfold delivered. session_simpl. repeat split.
Qed.









(** The same run, evaluated: the five bytes come back. *)
Example sample_round_trip :
  match Run.submit sample_chunks sample_established with
  | Some s1 =>
      match Run.deliver sample_echo_reads s1 with
      | Some s2 =>
          Libevent.output (Obfs2.outgoing_ s1) = [7; 7] ++ [83; 38; 121; 65; 252]
          /\ Libevent.output (Obfs2.incoming_ s2) = [111; 98; 102; 115; 50]
      | None => False
      end
  | None => False
  end.
Proof. vm_compute. repeat split. Qed.

(** ** A bad header, in both clients *)

Lemma goto_out_error_refuses (l s : Legacy.Obfs2Client) :
  Legacy.socks4_replies_ s = Legacy.socks4_replies_ l ->
  Legacy.received_seed_hdr_ s = Legacy.received_seed_hdr_ l ->
  Legacy.incoming_ s = Legacy.incoming_ l ->
  exists l', Legacy.goto_out_error s = Legacy.Return l'
             /\ Legacy.socks4_replies_ l' = Legacy.socks4_replies_ l ++ [false]
             /\ Legacy.state_ l' = kFLUSHING_INCOMING
             /\ Legacy.received_seed_hdr_ l' = Legacy.received_seed_hdr_ l
             /\ Libevent.input (Legacy.incoming_ l')
                = Libevent.input (Legacy.incoming_ l)
             /\ Libevent.output (Legacy.incoming_ l')
                = Libevent.output (Legacy.incoming_ l)
                  ++ socks4_reply_record false.
Proof.
  intros Hr Hh Hi. eexists. split; [reflexivity|].
  legacy_simpl. rewrite Hr, Hh, Hi. repeat split.
Qed.

Lemma pullup_seed_hdr (buf : bytes) :
  (24 <= length buf)%nat ->
  Libevent.evbuffer_pullup false buf 24 = Some (firstn 24 buf).
Proof.
  intros H. unfold Libevent.evbuffer_pullup.
  destruct (24 <=? length buf)%nat eqn:E; [reflexivity|].
  apply Nat.leb_gt in E. lia.
Qed.

(** [Obfs2Client::on_outgoing_data_connecting] answers a wrong magic or an
    oversized PADLEN as [Client]'s does, with the refusal of its own SOCKS
    version: [send_socks4_response(false)], and no ESTABLISHED state. *)
Lemma legacy_bad_header_is_refused (f : Faults) (l : Legacy.Obfs2Client) :
  Legacy.state_ l = kCONNECTING ->
  Legacy.received_seed_hdr_ l = false ->
  24 <= Z.of_nat (length (Libevent.input (Legacy.outgoing_ l))) ->
  header_magic (Libevent.input (Legacy.outgoing_ l)) <> kMagicValue
  \/ header_padlen (Libevent.input (Legacy.outgoing_ l)) > kMaxPadding ->
  exists l',
    Legacy.on_outgoing_data_connecting f l = Returned l'
    /\ Legacy.socks4_replies_ l' = Legacy.socks4_replies_ l ++ [false]
    /\ Legacy.state_ l' = kFLUSHING_INCOMING
    /\ Legacy.received_seed_hdr_ l' = false
    /\ Libevent.input (Legacy.incoming_ l') = Libevent.input (Legacy.incoming_ l)
    /\ Libevent.output (Legacy.incoming_ l')
       = Libevent.output (Legacy.incoming_ l) ++ socks4_reply_record false.
Proof.
  intros Hst Hrec Hlen Hbad.
  assert (R : exists l', Legacy.read_seed_hdr f l = Legacy.Return l'
             /\ Legacy.socks4_replies_ l' = Legacy.socks4_replies_ l ++ [false]
             /\ Legacy.state_ l' = kFLUSHING_INCOMING
             /\ Legacy.received_seed_hdr_ l' = Legacy.received_seed_hdr_ l
             /\ Libevent.input (Legacy.incoming_ l')
                = Libevent.input (Legacy.incoming_ l)
             /\ Libevent.output (Legacy.incoming_ l')
                = Libevent.output (Legacy.incoming_ l)
                  ++ socks4_reply_record false).
  { unfold Legacy.read_seed_hdr. cbv zeta.
    unfold Libevent.evbuffer_get_length.
    set (buf := Libevent.input (Legacy.outgoing_ l)) in *.
    destruct (Z.of_nat (length buf) <? kSeedLength + 4 * 2) eqn:E0;
      [apply Z.ltb_lt in E0; unfold kSeedLength in E0; lia|].
    change (Z.to_nat (kSeedLength + 4 * 2)) with 24%nat.
    change (Z.to_nat kSeedLength) with 16%nat.
    assert (L16 : length (firstn 16 buf) = 16%nat)
      by (apply firstn_length_enough; lia).
    assert (L8 : length (firstn 8 (skipn 16 buf)) = 8%nat)
      by (apply firstn_length_enough; rewrite length_skipn; lia).
    assert (P16 : firstn 16 (firstn 24 buf) = firstn 16 buf)
      by (rewrite firstn_firstn; reflexivity).
    assert (P8 : skipn 16 (firstn 24 buf) = firstn 8 (skipn 16 buf))
      by (rewrite skipn_firstn_comm; reflexivity).
    destruct (fault f 0) eqn:F0.
    { unfold Libevent.evbuffer_pullup. now apply goto_out_error_refuses. }
    rewrite pullup_seed_hdr by lia. rewrite P16, P8.
    legacy_simpl. rewrite store_seed_full by assumption.
    destruct (mac (fault f 1) _ _ _) as [[|] d] eqn:E1; legacy_simpl;
      [|now apply goto_out_error_refuses].
    apply mac_true_some in E1. subst d.
    fold (responder_pad_secret (firstn 16 buf)).
    set (ps := responder_pad_secret (firstn 16 buf)).
    destruct (AesCtr128.set_state (fault f 2) _ _ _) as [a|] eqn:E2;
      [|now apply goto_out_error_refuses].
    apply set_state_some in E2. destruct E2 as (-> & _).
    legacy_simpl.
    destruct (AesCtr128.process (fault f 3) _ _) as [[hdr a]|] eqn:E3;
      [|now apply goto_out_error_refuses].
    apply process_keyed in E3. rewrite L8 in E3.
    assert (Eh : hdr = fst (hdr, a)) by reflexivity.
    assert (Ea : a = snd (hdr, a)) by reflexivity.
    rewrite E3 in Eh, Ea. cbn [fst snd] in Eh, Ea. subst hdr a. clear E3.
    legacy_simpl.
    change (xor_bytes (firstn 8 (skipn 16 buf))
              (AesCtr128.keystream (Obfs2.key_part ps) (Obfs2.iv_part ps) 0 8))
      with (responder_header buf).
    fold (header_magic buf).
    destruct (header_magic buf =? kMagicValue) eqn:Em; legacy_simpl;
      [|now apply goto_out_error_refuses].
    fold (header_padlen buf).
    destruct (header_padlen buf >? kMaxPadding) eqn:Ep;
      [now apply goto_out_error_refuses|].
    apply Z.eqb_eq in Em. rewrite Z.gtb_ltb in Ep. apply Z.ltb_ge in Ep.
    destruct Hbad as [Hbad|Hbad]; [contradiction | lia]. }
  destruct R as (l' & E & R1 & R2 & R3 & R4 & R5).
  unfold Legacy.on_outgoing_data_connecting.
  rewrite Hst, Hrec. cbn [State_eqb negb]. rewrite E.
  exists l'.
  split; [reflexivity|]. split; [exact R1|]. split; [exact R2|].
  split; [now rewrite R3|]. split; [exact R4 | exact R5].
Qed.

(** A refusal logs GENERAL_FAILURE, queues its record for the SOCKS client
    and keeps what the handshake must keep. *)
Lemma refuse_kept (s s1 : Obfs2.Client) :
  kept s s1 ->
  Obfs2.replies_ s1 = Obfs2.replies_ s ->
  Libevent.output (Obfs2.incoming_ s1) = Libevent.output (Obfs2.incoming_ s) ->
  Obfs2.received_seed_hdr_ s1 = false ->
  exists s', Obfs2.refuse s1 = Obfs2.Return (false, s')
             /\ kept s s'
             /\ Obfs2.replies_ s' = Obfs2.replies_ s ++ [kGENERAL_FAILURE]
             /\ Libevent.output (Obfs2.incoming_ s')
                = Libevent.output (Obfs2.incoming_ s)
                  ++ socks5_reply_record kGENERAL_FAILURE
             /\ Obfs2.state_ s' = kFLUSHING_INCOMING
             /\ Obfs2.received_seed_hdr_ s' = false.
Proof.
  intros K R O H. eexists. split; [reflexivity|].
  unfold kept in *. session_simpl. rewrite R, O.
  repeat split; trivial; apply K.
Qed.

Ltac refused s :=
  right; left; apply (refuse_kept s);
  [repeat split | reflexivity | reflexivity | session_simpl; assumption].

(** The first block of [on_outgoing_data_connecting], whatever fails. *)
Lemma read_seed_hdr_kept (f : Faults) (s : Obfs2.Client) :
  Obfs2.received_seed_hdr_ s = false ->
  Obfs2.read_seed_hdr f s = Obfs2.Return (true, s)
  \/ (exists s', Obfs2.read_seed_hdr f s = Obfs2.Return (false, s')
                 /\ kept s s'
                 /\ Obfs2.replies_ s' = Obfs2.replies_ s ++ [kGENERAL_FAILURE]
                 /\ Libevent.output (Obfs2.incoming_ s')
                    = Libevent.output (Obfs2.incoming_ s)
                      ++ socks5_reply_record kGENERAL_FAILURE
                 /\ Obfs2.state_ s' = kFLUSHING_INCOMING
                 /\ Obfs2.received_seed_hdr_ s' = false)
  \/ (exists s', Obfs2.read_seed_hdr f s = Obfs2.Continue s'
                 /\ kept s s'
                 /\ Obfs2.replies_ s' = Obfs2.replies_ s
                 /\ Libevent.output (Obfs2.incoming_ s')
                    = Libevent.output (Obfs2.incoming_ s)
                 /\ Obfs2.state_ s' = Obfs2.state_ s
                 /\ Obfs2.received_seed_hdr_ s' = true
                 /\ 0 <= Obfs2.resp_pad_len_ s' <= kMaxPadding).
Proof.
  intros Hrec.
  unfold Obfs2.read_seed_hdr. cbv zeta.
  destruct (Libevent.evbuffer_get_length (Libevent.input (Obfs2.outgoing_ s))
            <? kSeedLength + 4 * 2); [now left|].
  unfold Libevent.evbuffer_remove.
  destruct (fault f 0).
  { session_simpl. change (-1 =? kSeedLength) with false. cbn [negb].
    refused s. }
  session_simpl.
  match goal with |- context [if negb (?a =? kSeedLength) then _ else _] =>
    destruct (a =? kSeedLength) end; cbn [negb]; [|refused s].
  destruct (mac (fault f 1) _ _ _) as [[|] d]; session_simpl; [|refused s].
  destruct (AesCtr128.set_state (fault f 2) _ _ _) as [a|]; [|refused s].
  session_simpl.
  destruct (fault f 3).
  { session_simpl. change (-1 =? 4 * 2) with false. cbn [negb]. refused s. }
  session_simpl.
  match goal with |- context [if negb (?a =? 4 * 2) then _ else _] =>
    destruct (a =? 4 * 2) end; cbn [negb]; [|refused s].
  destruct (AesCtr128.process (fault f 4) _ _) as [[hdr a']|]; [|refused s].
  session_simpl.
  destruct (ntohl_bytes (firstn 4 hdr) =? kMagicValue); cbn [negb];
    [|refused s].
  destruct (ntohl_bytes (skipn 4 hdr) >? kMaxPadding) eqn:Ep; [refused s|].
  match goal with |- context [Obfs2.kdf_obfs2 ?g ?x] =>
    pose proof (kdf_obfs2_frame g x) as K;
    destruct (Obfs2.kdf_obfs2 g x) as [[|] s2] end;
    cbv zeta in K; session_simpl;
    destruct K as (K1 & K2 & K3 & K4 & K5 & K6 & K7 & K8 & K9 & K10).
  - right; right. eexists. split; [reflexivity|]. unfold kept. session_simpl.
    rewrite K2, K3, K4, K5, K6, K7, K1, K10.
    rewrite Z.gtb_ltb in Ep. apply Z.ltb_ge in Ep.
    pose proof (ntohl_bytes_range (skipn 4 hdr)).
    repeat split; trivial; lia.
  - right; left.
    apply (refuse_kept s);
      [|exact K4 | rewrite K2; reflexivity | rewrite K9; exact Hrec].
    unfold kept. rewrite K2, K3, K5, K6, K7. repeat split.
Qed.

Lemma bad_magic_header :
  header_magic (Libevent.input (Obfs2.outgoing_ bad_magic_session)) = 0xDEADBEEF.
Proof. vm_compute. reflexivity. Qed.

Lemma oversized_header :
  header_magic (Libevent.input (Obfs2.outgoing_ oversized_session)) = kMagicValue
  /\ header_padlen (Libevent.input (Obfs2.outgoing_ oversized_session)) = 9000.
Proof. split; vm_compute; reflexivity. Qed.

Lemma legacy_bad_magic_header :
  header_magic (Libevent.input
                  (Legacy.outgoing_ (LegacySplice.members legacy_bad_magic_session)))
  = 0xDEADBEEF.
Proof. vm_compute. reflexivity. Qed.

(** C9, as the claim has it, fails for
    [Obfs2Client::on_outgoing_data_connecting]: on a header whose first word
    is 0xDEADBEEF it goes to [out_error], which is
    [send_socks4_response(false)].  What reaches the SOCKS client is the
    eight-byte SOCKS4 refusal, not the ten-byte SOCKS5 record with
    GENERAL_FAILURE that [Client] queues on the same bytes. *)
Lemma C9_legacy_refuses_with_a_socks4_reply :
  header_magic (Libevent.input
                  (Legacy.outgoing_ (LegacySplice.members legacy_bad_magic_session)))
  <> kMagicValue
  /\ match Legacy.on_outgoing_data_connecting no_faults
             (LegacySplice.members legacy_bad_magic_session) with
     | Returned l' =>
         Legacy.socks4_replies_ l' = [false]
         /\ Libevent.output (Legacy.incoming_ l') = [0; 91; 0; 0; 0; 0; 0; 0]
         /\ Libevent.output (Legacy.incoming_ l')
            <> socks5_reply_record kGENERAL_FAILURE
         /\ Legacy.state_ l' = kFLUSHING_INCOMING
     | _ => False
     end
  /\ match Obfs2.on_outgoing_data_connecting no_faults
             (as_client legacy_bad_magic_session) with
     | Returned (r, s') =>
         r = false
         /\ Obfs2.replies_ s' = [kGENERAL_FAILURE]
         /\ Libevent.output (Obfs2.incoming_ s')
            = [5; 1; 0; 1; 0; 0; 0; 0; 0; 0]
         /\ Libevent.output (Obfs2.incoming_ s')
            = socks5_reply_record kGENERAL_FAILURE
         /\ Obfs2.state_ s' = kFLUSHING_INCOMING
     | _ => False
     end.
Proof.
  split; [vm_compute; discriminate|].
  split; vm_compute; repeat split; intros H; discriminate H.
Qed.

(** C9, amended.  In CONNECTING state, with seed and header buffered: when
    the decrypted header's first word is not MAGIC, or its PADLEN is above
    kMaxPadding, [Client::on_outgoing_data_connecting] hands GENERAL_FAILURE
    to [send_socks5_response] and returns what that returns (false); the
    SOCKS5 record with that reply is queued for the SOCKS client, the
    session is left waiting to be closed, not ESTABLISHED, and its handshake
    flag is not set.  The earlier [Obfs2Client::on_outgoing_data_connecting]
    on such a header goes to [out_error]: it calls
    [send_socks4_response(false)], which queues the SOCKS4 refusal, and
    leaves the session waiting to be closed, not ESTABLISHED, its handshake
    flag not set.  Both hold whatever else fails on the way. *)
Theorem C9_bad_header_is_refused :
  (forall (f : Faults) (s : Obfs2.Client),
      Obfs2.state_ s = kCONNECTING ->
      Obfs2.received_seed_hdr_ s = false ->
      24 <= Z.of_nat (length (Libevent.input (Obfs2.outgoing_ s))) ->
      header_magic (Libevent.input (Obfs2.outgoing_ s)) <> kMagicValue
      \/ header_padlen (Libevent.input (Obfs2.outgoing_ s)) > kMaxPadding ->
      exists s',
        Obfs2.on_outgoing_data_connecting f s = Returned (false, s')
        /\ Obfs2.replies_ s' = Obfs2.replies_ s ++ [kGENERAL_FAILURE]
        /\ Obfs2.state_ s' = kFLUSHING_INCOMING
        /\ Obfs2.state_ s' <> kESTABLISHED
        /\ Obfs2.received_seed_hdr_ s' = false
        /\ Libevent.input (Obfs2.incoming_ s') = Libevent.input (Obfs2.incoming_ s)
        /\ Libevent.output (Obfs2.incoming_ s')
           = Libevent.output (Obfs2.incoming_ s)
             ++ socks5_reply_record kGENERAL_FAILURE)
  /\ (forall (f : Faults) (l : Legacy.Obfs2Client),
         Legacy.state_ l = kCONNECTING ->
         Legacy.received_seed_hdr_ l = false ->
         24 <= Z.of_nat (length (Libevent.input (Legacy.outgoing_ l))) ->
         header_magic (Libevent.input (Legacy.outgoing_ l)) <> kMagicValue
         \/ header_padlen (Libevent.input (Legacy.outgoing_ l)) > kMaxPadding ->
         exists l',
           Legacy.on_outgoing_data_connecting f l = Returned l'
           /\ Legacy.socks4_replies_ l' = Legacy.socks4_replies_ l ++ [false]
           /\ Legacy.state_ l' = kFLUSHING_INCOMING
           /\ Legacy.state_ l' <> kESTABLISHED
           /\ Legacy.received_seed_hdr_ l' = false
           /\ Libevent.input (Legacy.incoming_ l')
              = Libevent.input (Legacy.incoming_ l)
           /\ Libevent.output (Legacy.incoming_ l')
              = Libevent.output (Legacy.incoming_ l)
                ++ socks4_reply_record false).
Proof.
  split.
  - intros f s Hst Hrec Hlen Hbad.
    unfold Obfs2.on_outgoing_data_connecting. rewrite Hst, Hrec. simpl.
    destruct (read_seed_hdr_cases f s Hlen) as [(s' & E & R)|(Hm & Hp & _)];
      [|destruct Hbad as [Hbad|Hbad]; [contradiction | lia]].
    assert (O : Libevent.input (Obfs2.incoming_ s')
                = Libevent.input (Obfs2.incoming_ s)
                /\ Libevent.output (Obfs2.incoming_ s')
                   = Libevent.output (Obfs2.incoming_ s)
                     ++ socks5_reply_record kGENERAL_FAILURE).
    { destruct (read_seed_hdr_kept f s Hrec)
        as [E'|[(s2 & E' & K & _ & O & _)|(s2 & E' & _)]];
        rewrite E in E'; try discriminate E'.
      injection E' as <-. split; [apply K | exact O]. }
    rewrite E. exists s'. destruct R as (R1 & R2 & R3 & _).
    split; [reflexivity|]. split; [exact R1|]. split; [exact R2|].
    split; [rewrite R2; discriminate|]. split; [now rewrite R3|]. exact O.
  - intros f l Hst Hrec Hlen Hbad.
    destruct (legacy_bad_header_is_refused f l Hst Hrec Hlen Hbad)
      as (l' & E & R1 & R2 & R3 & R4 & R5).
    exists l'. split; [exact E|]. split; [exact R1|]. split; [exact R2|].
    split; [rewrite R2; discriminate|]. split; [exact R3|].
    split; [exact R4 | exact R5].
Qed.

Lemma C9_bad_header_is_refused_witness :
  (exists s',
      Obfs2.on_outgoing_data_connecting no_faults bad_magic_session
      = Returned (false, s')
      /\ Obfs2.replies_ s' = Obfs2.replies_ bad_magic_session ++ [kGENERAL_FAILURE]
      /\ Obfs2.state_ s' = kFLUSHING_INCOMING
      /\ Obfs2.state_ s' <> kESTABLISHED
      /\ Obfs2.received_seed_hdr_ s' = false
      /\ Libevent.input (Obfs2.incoming_ s')
         = Libevent.input (Obfs2.incoming_ bad_magic_session)
      /\ Libevent.output (Obfs2.incoming_ s')
         = Libevent.output (Obfs2.incoming_ bad_magic_session)
           ++ socks5_reply_record kGENERAL_FAILURE)
  /\ (exists s',
      Obfs2.on_outgoing_data_connecting no_faults oversized_session
      = Returned (false, s')
      /\ Obfs2.replies_ s' = Obfs2.replies_ oversized_session ++ [kGENERAL_FAILURE]
      /\ Obfs2.state_ s' = kFLUSHING_INCOMING
      /\ Obfs2.state_ s' <> kESTABLISHED
      /\ Obfs2.received_seed_hdr_ s' = false
      /\ Libevent.input (Obfs2.incoming_ s')
         = Libevent.input (Obfs2.incoming_ oversized_session)
      /\ Libevent.output (Obfs2.incoming_ s')
         = Libevent.output (Obfs2.incoming_ oversized_session)
           ++ socks5_reply_record kGENERAL_FAILURE)
  /\ (exists l',
      Legacy.on_outgoing_data_connecting no_faults
        (LegacySplice.members legacy_bad_magic_session) = Returned l'
      /\ Legacy.socks4_replies_ l'
         = Legacy.socks4_replies_ (LegacySplice.members legacy_bad_magic_session)
           ++ [false]
      /\ Legacy.state_ l' = kFLUSHING_INCOMING
      /\ Legacy.state_ l' <> kESTABLISHED
      /\ Legacy.received_seed_hdr_ l' = false
      /\ Libevent.input (Legacy.incoming_ l')
         = Libevent.input
             (Legacy.incoming_ (LegacySplice.members legacy_bad_magic_session))
      /\ Libevent.output (Legacy.incoming_ l')
         = Libevent.output
             (Legacy.incoming_ (LegacySplice.members legacy_bad_magic_session))
           ++ socks4_reply_record false).
Proof.
  split; [|split].
  - apply (proj1 C9_bad_header_is_refused no_faults bad_magic_session);
      [reflexivity | reflexivity | vm_compute; discriminate | left].
    rewrite bad_magic_header. vm_compute. discriminate.
  - apply (proj1 C9_bad_header_is_refused no_faults oversized_session);
      [reflexivity | reflexivity | vm_compute; discriminate | right].
    rewrite (proj2 oversized_header). reflexivity.
  - apply (proj2 C9_bad_header_is_refused no_faults
                 (LegacySplice.members legacy_bad_magic_session));
      [reflexivity | reflexivity | vm_compute; discriminate | left].
    rewrite legacy_bad_magic_header. vm_compute. discriminate.
Defined.

(** * Further properties of the code *)

(** ** The values [gen_padlen] can return *)

Lemma bit12_clear_below_4096 (v : Z) :
  0 <= v < 8192 -> Z.testbit v 12 = false -> v < 4096.
Proof.
  intros Hv Hb.
  rewrite Z.testbit_false in Hb by lia.
  change (2 ^ 12) with 4096 in Hb.
  assert (0 <= v / 4096 < 2).
  { split; [apply Z.div_pos; lia | apply Z.div_lt_upper_bound; lia]. }
  assert (E : v / 4096 = 0).
  { rewrite (Z.mod_small (v / 4096) 2) in Hb by lia. exact Hb. }
  pose proof (Z.div_mod v 4096 ltac:(lia)) as D.
  pose proof (Z.mod_pos_bound v 4096 ltac:(lia)). lia.
Qed.

Lemma land_2fff_bit12 (x : Z) : Z.testbit (Z.land x 0x2fff) 12 = false.
Proof. rewrite Z.land_spec. apply andb_false_r. Qed.

Lemma testbit_2fff_low (i : Z) : 0 <= i < 12 -> Z.testbit 0x2fff i = true.
Proof.
  intros Hi.
  assert (i = 0 \/ i = 1 \/ i = 2 \/ i = 3 \/ i = 4 \/ i = 5 \/ i = 6 \/ i = 7
          \/ i = 8 \/ i = 9 \/ i = 10 \/ i = 11) as H by lia.
  repeat (destruct H as [-> | H]; [reflexivity|]). now subst.
Qed.

Lemma land_2fff_small (n : Z) : 0 <= n < 4096 -> Z.land (w32 n) 0x2fff = n.
Proof.
  intros Hn. unfold w32. rewrite Z.mod_small by lia.
  apply Z.bits_inj'. intros i Hi.
  rewrite Z.land_spec.
  destruct (Z_lt_dec i 12) as [Hlt | Hge].
  - rewrite testbit_2fff_low by lia. apply andb_true_r.
  - assert (Z.testbit n i = false) as ->; [|reflexivity].
    apply Z.testbit_false; [lia|].
    rewrite Z.div_small; [reflexivity|].
    split; [lia|].
    apply Z.lt_le_trans with (2 ^ 12); [simpl; lia|].
    apply Z.pow_le_mono_r; lia.
Qed.

(** X1.  [gen_padlen] masks its draw with 0x2fff, which has bit 12 clear:
    every length it returns is below 4096 (the lengths 4096..8191 that the
    bound [kMaxPadding] would allow never occur), and each length below 4096
    is returned, for the draw equal to it. *)
Theorem gen_padlen_returns_exactly_the_lengths_below_4096 :
  (forall draws ret rest,
      Legacy.gen_padlen draws = Legacy.PadLen ret rest -> 0 <= ret < 4096)
  /\ (forall n rest,
         0 <= n < 4096 -> Legacy.gen_padlen (n :: rest) = Legacy.PadLen n rest).
Proof.
  split.
  - intros draws; induction draws as [|d draws IH]; intros ret rest;
      cbn [Legacy.gen_padlen]; [discriminate|].
    cbv zeta.
    pose proof (land_2fff_range d) as R.
    pose proof (land_2fff_bit12 (w32 d)) as B.
    destruct (Z.land (w32 d) 0x2fff >? kMaxPadding) eqn:E1; [apply IH|].
    destruct (Z.land (w32 d) 0x2fff <? kMaxPadding) eqn:E2; [|discriminate].
    intros H; injection H as <- _.
    apply Z.ltb_lt in E2. unfold kMaxPadding in E2.
    split; [lia|]. apply bit12_clear_below_4096; [lia | exact B].
  - intros n rest Hn.
    rewrite <- (land_2fff_small n Hn) at 2.
    apply gen_padlen_accepts. rewrite land_2fff_small by exact Hn.
    unfold kMaxPadding. lia.
Qed.

(** The draws [gen_padlen]'s loop throws away. *)
Lemma gen_padlen_rejects (d : Z) (rest : list Z) :
  Z.land (w32 d) 0x2fff > kMaxPadding ->
  Legacy.gen_padlen (d :: rest) = Legacy.gen_padlen rest.
Proof.
  intros H. cbn [Legacy.gen_padlen]. cbv zeta.
  apply Z.gtb_gt in H. now rewrite H.
Qed.

(** X2.  The loop of [gen_padlen] takes draws until one masks to at most
    [kMaxPadding]: the draws before it are used up and ignored, the ones
    after it are left; nothing is returned only when every draw masks to
    more than [kMaxPadding]. *)
Theorem gen_padlen_takes_first_acceptable_draw :
  forall rejected : list Z,
    Forall (fun d => Z.land (w32 d) 0x2fff > kMaxPadding) rejected ->
    Legacy.gen_padlen rejected = Legacy.PadNoMoreDraws
    /\ (forall d rest,
           Z.land (w32 d) 0x2fff < kMaxPadding ->
           Legacy.gen_padlen (rejected ++ d :: rest)
           = Legacy.PadLen (Z.land (w32 d) 0x2fff) rest)
    /\ (forall d rest,
           Z.land (w32 d) 0x2fff = kMaxPadding ->
           Legacy.gen_padlen (rejected ++ d :: rest)
           = Legacy.PadAssertFailed kMaxPadding).
Proof.
  intros rejected H. induction H as [|r rejected Hr _ IH].
  - split; [reflexivity|]. split.
    + intros d rest Hd. now apply gen_padlen_accepts.
    + intros d rest Hd. cbn [app Legacy.gen_padlen]. cbv zeta. rewrite Hd.
      reflexivity.
  - destruct IH as (IH1 & IH2 & IH3).
    split; [|split]; intros; cbn [app];
      rewrite gen_padlen_rejects by exact Hr; auto.
Qed.

Lemma gen_padlen_takes_first_acceptable_draw_witness :
  Forall (fun d => Z.land (w32 d) 0x2fff > kMaxPadding) [0x2001; 0x2fff]
  /\ Legacy.gen_padlen [0x2001; 0x2fff] = Legacy.PadNoMoreDraws.
Proof.
  assert (H : Forall (fun d => Z.land (w32 d) 0x2fff > kMaxPadding) [0x2001; 0x2fff])
    by (repeat constructor).
  split; [exact H|].
  exact (proj1 (gen_padlen_takes_first_acceptable_draw [0x2001; 0x2fff] H)).
Defined.

(** ** [kdf_obfs2] when a call fails *)

Lemma mac_sha_fails (key buf : option bytes) (d : bytes) :
  mac true key buf d = (false, d).
Proof.
  unfold mac, Sha256.digest.
  destruct key as [k|]; [|reflexivity].
  destruct (Z.of_nat (length k) =? 0); [reflexivity|].
  destruct buf as [b|]; [|reflexivity].
  destruct (Z.of_nat (length b) =? 0); [reflexivity|].
  destruct (negb (Z.of_nat (length d) =? Sha256.kDigestLength)); reflexivity.
Qed.

Lemma set_state_fails (k : bytes) (nonce : option bytes) (c : bytes) :
  AesCtr128.set_state true k nonce c = None.
Proof. reflexivity. Qed.

(** X3.  [kdf_obfs2] on a session with seeds returns true exactly when
    none of its four calls fails.  It is not atomic: a failure of the first
    MAC or the first [set_state] leaves the session as it was, but a failure
    of the second MAC or the second [set_state] returns false with the
    initiator cipher already keyed from INIT_SECRET (key its first 16 bytes,
    counter its last 16, at the start of the stream) and the responder
    cipher still the one the session had. *)
Theorem kdf_obfs2_failure_leaves_half_keyed_session :
  forall (f : Faults) (s : Obfs2.Client),
    Obfs2.init_seed_ s ++ Obfs2.resp_seed_ s <> [] ->
    let isec := init_secret (Obfs2.init_seed_ s) (Obfs2.resp_seed_ s) in
    (fst (Obfs2.kdf_obfs2 f s) = true <->
       fault f 0 = false /\ fault f 1 = false
       /\ fault f 2 = false /\ fault f 3 = false)
    /\ (fault f 0 = true \/ fault f 1 = true -> Obfs2.kdf_obfs2 f s = (false, s))
    /\ (fault f 0 = false -> fault f 1 = false ->
        fault f 2 = true \/ fault f 3 = true ->
        Obfs2.kdf_obfs2 f s
        = (false, Obfs2.set_initiator_aes (keyed_from isec) s)
        /\ fst (Obfs2.kdf_obfs2 f s) = false
        /\ Obfs2.initiator_aes_ (snd (Obfs2.kdf_obfs2 f s))
           = AesCtr128.mk true (firstn 16 isec) (skipn 16 isec) 0
        /\ Obfs2.responder_aes_ (snd (Obfs2.kdf_obfs2 f s))
           = Obfs2.responder_aes_ s).
Proof.
  intros f s Hs isec.
  assert (K : Obfs2.kdf_obfs2 f s
              = if fault f 0 then (false, s)
                else if fault f 1 then (false, s)
                else if fault f 2
                     then (false, Obfs2.set_initiator_aes (keyed_from isec) s)
                else if fault f 3
                     then (false, Obfs2.set_initiator_aes (keyed_from isec) s)
                else (true, with_session_keys s)).
  { unfold Obfs2.kdf_obfs2. cbv zeta.
    destruct (fault f 0); [rewrite mac_sha_fails; reflexivity|].
    rewrite mac_ok by (trivial; discriminate). cbn [negb].
    destruct (fault f 1); [rewrite set_state_fails; reflexivity|].
    rewrite set_state_secret by apply sha256_length.
    cbn [Obfs2.init_seed_ Obfs2.resp_seed_ Obfs2.set_initiator_aes].
    destruct (fault f 2); [rewrite mac_sha_fails; reflexivity|].
    rewrite mac_ok by (trivial; try discriminate; apply sha256_length).
    cbn [negb].
    destruct (fault f 3); [rewrite set_state_fails; reflexivity|].
    rewrite set_state_secret by apply sha256_length. reflexivity. }
  assert (Ki : Obfs2.initiator_aes_ (Obfs2.set_initiator_aes (keyed_from isec) s)
               = AesCtr128.mk true (firstn 16 isec) (skipn 16 isec) 0)
    by reflexivity.
  assert (Kr : Obfs2.responder_aes_ (Obfs2.set_initiator_aes (keyed_from isec) s)
               = Obfs2.responder_aes_ s)
    by reflexivity.
  rewrite K. clear K.
  destruct (fault f 0), (fault f 1), (fault f 2), (fault f 3); cbn [fst snd];
    (split; [split; [intros H; try discriminate H; repeat split
                    | intros (H0 & H1 & H2 & H3);
                      try discriminate H0; try discriminate H1;
                      try discriminate H2; try discriminate H3; reflexivity]
            | split; [intros [H | H]; try discriminate H; reflexivity
                     | intros H0 H1 [H | H];
                       try discriminate H0; try discriminate H1;
                       try discriminate H;
                       (split; [reflexivity|]; split; [reflexivity|];
                        split; [exact Ki | exact Kr])]]).
Qed.

Lemma kdf_obfs2_failure_leaves_half_keyed_session_witness :
  Obfs2.kdf_obfs2 [false; false; true] zero_seeds_session
  = (false,
     Obfs2.set_initiator_aes
       (keyed_from (init_secret (Obfs2.init_seed_ zero_seeds_session)
                                (Obfs2.resp_seed_ zero_seeds_session)))
       zero_seeds_session)
  /\ fst (Obfs2.kdf_obfs2 [false; false; true] zero_seeds_session) = false
  /\ Obfs2.initiator_aes_
       (snd (Obfs2.kdf_obfs2 [false; false; true] zero_seeds_session))
     = AesCtr128.mk true (firstn 16 zero_seeds_init_secret)
                    (skipn 16 zero_seeds_init_secret) 0
  /\ Obfs2.responder_aes_
       (snd (Obfs2.kdf_obfs2 [false; false; true] zero_seeds_session))
     = AesCtr128.unset.
Proof.
  assert (Hs : Obfs2.init_seed_ zero_seeds_session
               ++ Obfs2.resp_seed_ zero_seeds_session <> [])
    by (vm_compute; discriminate).
  pose proof (kdf_obfs2_failure_leaves_half_keyed_session
                [false; false; true] zero_seeds_session Hs) as H.
  cbv zeta in H. destruct H as (_ & _ & H).
  specialize (H eq_refl eq_refl (or_introl eq_refl)).
  destruct H as (H1 & H2 & H3 & H4).
  split; [exact H1|]. split; [exact H2|].
  split; [rewrite H3; vm_compute; reflexivity|].
  rewrite H4. reflexivity.
Defined.

(** ** The splice when a call fails *)

Lemma pullup_fails (buf : bytes) (n : nat) : Libevent.evbuffer_pullup true buf n = None.
Proof. reflexivity. Qed.

Lemma process_fails (c : AesCtr128.ctx) (buf : bytes) :
  AesCtr128.process true c buf = None.
Proof. reflexivity. Qed.

Lemma process_unkeyed (fails : bool) (c : AesCtr128.ctx) (buf : bytes) :
  AesCtr128.has_state c = false -> AesCtr128.process fails c buf = None.
Proof. intros H. unfold AesCtr128.process. rewrite H. now destruct fails. Qed.

Ltac splice_failed :=
  eexists false, _; split; [reflexivity|];
  split; [split; [discriminate | intros (? & ? & ? & ?); discriminate]|];
  intros _; session_simpl; unfold Obfs2.close_session; session_simpl;
  repeat split; trivial.

(** X4.  A call of [on_incoming_data] or [on_outgoing_data] that finds
    bytes buffered returns true exactly when the pull-up, the cipher and the
    write all work (the cipher also fails when it was never keyed).  When it
    returns false it has scheduled [close_session] and has passed nothing
    on: the output queues of both endpoints, the state and the replies are
    as they were. *)
Theorem splice_call_fails_closed :
  forall (f : Faults) (s : Obfs2.Client),
    Obfs2.state_ s = kESTABLISHED ->
    (Libevent.input (Obfs2.incoming_ s) <> [] ->
     exists r s',
       Obfs2.on_incoming_data f s = Returned (r, s')
       /\ (r = true <->
           fault f 0 = false /\ fault f 1 = false /\ fault f 2 = false
           /\ AesCtr128.has_state (Obfs2.initiator_aes_ s) = true)
       /\ (r = false ->
           Obfs2.close_scheduled_ s' = true
           /\ Libevent.output (Obfs2.outgoing_ s') = Libevent.output (Obfs2.outgoing_ s)
           /\ Libevent.output (Obfs2.incoming_ s') = Libevent.output (Obfs2.incoming_ s)
           /\ Obfs2.state_ s' = kESTABLISHED
           /\ Obfs2.replies_ s' = Obfs2.replies_ s))
    /\
    (Libevent.input (Obfs2.outgoing_ s) <> [] ->
     exists r s',
       Obfs2.on_outgoing_data f s = Returned (r, s')
       /\ (r = true <->
           fault f 0 = false /\ fault f 1 = false /\ fault f 2 = false
           /\ AesCtr128.has_state (Obfs2.responder_aes_ s) = true)
       /\ (r = false ->
           Obfs2.close_scheduled_ s' = true
           /\ Libevent.output (Obfs2.outgoing_ s') = Libevent.output (Obfs2.outgoing_ s)
           /\ Libevent.output (Obfs2.incoming_ s') = Libevent.output (Obfs2.incoming_ s)
           /\ Obfs2.state_ s' = kESTABLISHED
           /\ Obfs2.replies_ s' = Obfs2.replies_ s)).
Proof.
  intros f s Hst. split; intros Hbuf.
  - unfold Obfs2.on_incoming_data. cbv zeta. rewrite Hst. cbn [State_eqb negb].
    destruct (Libevent.evbuffer_get_length (Libevent.input (Obfs2.incoming_ s)) =? 0)
      eqn:E; [apply length_zero_eqb in E; contradiction|].
    destruct (fault f 0); [rewrite pullup_fails; splice_failed|].
    rewrite pullup_all.
    destruct (fault f 1); [rewrite process_fails; splice_failed|].
    destruct (AesCtr128.has_state (Obfs2.initiator_aes_ s)) eqn:Hk;
      [|rewrite process_unkeyed by exact Hk; splice_failed].
    rewrite process_next by exact Hk.
    rewrite skipn_whole, app_nil_r.
    unfold Libevent.bufferevent_write_buffer. session_simpl.
    destruct (fault f 2); cbn [Z.eqb negb]; [splice_failed|].
    eexists true, _. split; [reflexivity|].
    split; [split; [repeat split | reflexivity] | discriminate].
  - unfold Obfs2.on_outgoing_data. cbv zeta. rewrite Hst. cbn [State_eqb negb].
    destruct (Libevent.evbuffer_get_length (Libevent.input (Obfs2.outgoing_ s)) =? 0)
      eqn:E; [apply length_zero_eqb in E; contradiction|].
    destruct (fault f 0); [rewrite pullup_fails; splice_failed|].
    rewrite pullup_all.
    destruct (fault f 1); [rewrite process_fails; splice_failed|].
    destruct (AesCtr128.has_state (Obfs2.responder_aes_ s)) eqn:Hk;
      [|rewrite process_unkeyed by exact Hk; splice_failed].
    rewrite process_next by exact Hk.
    rewrite skipn_whole, app_nil_r.
    unfold Libevent.bufferevent_write_buffer. session_simpl.
    destruct (fault f 2); cbn [Z.eqb negb]; [splice_failed|].
    eexists true, _. split; [reflexivity|].
    split; [split; [repeat split | reflexivity] | discriminate].
Qed.

Lemma splice_call_fails_closed_witness :
  (exists s',
      Obfs2.on_incoming_data [false; false; true] sample_with_client_bytes
      = Returned (false, s')
      /\ Obfs2.close_scheduled_ s' = true
      /\ Libevent.output (Obfs2.outgoing_ s') = [7; 7])
  /\ (exists s',
      Obfs2.on_outgoing_data [false; true] sample_with_bridge_bytes
      = Returned (false, s')
      /\ Obfs2.close_scheduled_ s' = true
      /\ Libevent.output (Obfs2.incoming_ s') = []).
Proof.
  split.
  - destruct (proj1 (splice_call_fails_closed [false; false; true]
                       sample_with_client_bytes eq_refl))
      as (r & s' & E & Hr & Hf); [discriminate|].
    destruct r.
    + destruct (proj1 Hr eq_refl) as (_ & _ & H & _). discriminate H.
    + exists s'. destruct (Hf eq_refl) as (H1 & H2 & _).
      split; [exact E|]. split; [exact H1 | exact H2].
  - destruct (proj2 (splice_call_fails_closed [false; true]
                       sample_with_bridge_bytes eq_refl))
      as (r & s' & E & Hr & Hf); [discriminate|].
    destruct r.
    + destruct (proj1 Hr eq_refl) as (_ & H & _). discriminate H.
    + exists s'. destruct (Hf eq_refl) as (H1 & _ & H3 & _).
      split; [exact E|]. split; [exact H1 | exact H3].
Defined.

(** ** Reads from both sides, in any order *)

Lemma arrived_incoming_submitted (c : bytes) (s : Obfs2.Client) :
  Obfs2.state_ s = kESTABLISHED ->
  AesCtr128.has_state (Obfs2.initiator_aes_ s) = true ->
  Libevent.input (Obfs2.incoming_ s) = [] ->
  exists s', Obfs2.on_incoming_data no_faults (Run.arrive_incoming c s)
             = Returned (true, s')
             /\ submitted c s s'.
Proof.
  intros Hst Hk Hin.
  destruct (on_incoming_data_ok (Run.arrive_incoming c s) Hst Hk) as (s1 & E1 & S1).
  exists s1. split; [exact E1|].
  unfold Run.arrive_incoming in S1. unfold submitted in *.
  session_simpl. rewrite Hin in S1. exact S1.
Qed.

Lemma arrived_outgoing_delivered (d : bytes) (s : Obfs2.Client) :
  Obfs2.state_ s = kESTABLISHED ->
  AesCtr128.has_state (Obfs2.responder_aes_ s) = true ->
  Libevent.input (Obfs2.outgoing_ s) = [] ->
  exists s', Obfs2.on_outgoing_data no_faults (Run.arrive_outgoing d s)
             = Returned (true, s')
             /\ delivered d s s'.
Proof.
  intros Hst Hk Hin.
  destruct (on_outgoing_data_ok (Run.arrive_outgoing d s) Hst Hk) as (s1 & E1 & S1).
  exists s1. split; [exact E1|].
  unfold Run.arrive_outgoing in S1. unfold delivered in *.
  session_simpl. rewrite Hin in S1. exact S1.
Qed.

(** X5.  However the reads of the two sides interleave and however they
    are cut into chunks, every call returns true and each direction is one
    unbroken stream: what went to the bridge is all the SOCKS client's
    bytes, in order, under the initiator stream from where it stood, what
    went to the SOCKS client is all the bridge's bytes under the responder
    stream, and each cipher has moved on by its own byte count only. *)
Theorem splice_directions_are_independent_streams :
  forall (rs : list read) (s : Obfs2.Client),
    Obfs2.state_ s = kESTABLISHED ->
    AesCtr128.has_state (Obfs2.initiator_aes_ s) = true ->
    AesCtr128.has_state (Obfs2.responder_aes_ s) = true ->
    Libevent.input (Obfs2.incoming_ s) = [] ->
    Libevent.input (Obfs2.outgoing_ s) = [] ->
    exists s' : Obfs2.Client,
      splice rs s = Some s'
      /\ Libevent.output (Obfs2.outgoing_ s')
         = Libevent.output (Obfs2.outgoing_ s)
           ++ xor_bytes (client_bytes rs)
                (next_keystream (Obfs2.initiator_aes_ s) (length (client_bytes rs)))
      /\ Libevent.output (Obfs2.incoming_ s')
         = Libevent.output (Obfs2.incoming_ s)
           ++ xor_bytes (bridge_bytes rs)
                (next_keystream (Obfs2.responder_aes_ s) (length (bridge_bytes rs)))
      /\ Obfs2.initiator_aes_ s'
         = advanced (Obfs2.initiator_aes_ s) (length (client_bytes rs))
      /\ Obfs2.responder_aes_ s'
         = advanced (Obfs2.responder_aes_ s) (length (bridge_bytes rs))
      /\ Libevent.input (Obfs2.incoming_ s') = []
      /\ Libevent.input (Obfs2.outgoing_ s') = []
      /\ Obfs2.state_ s' = kESTABLISHED
      /\ Obfs2.close_scheduled_ s' = Obfs2.close_scheduled_ s.
Proof.
  induction rs as [|[c|d] rs IH]; intros s Hst Hi Hr Hin Hout.
  - exists s. cbn [splice client_bytes bridge_bytes length xor_bytes].
    rewrite !app_nil_r, !advanced_zero by assumption. repeat split; assumption.
  - destruct (arrived_incoming_submitted c s Hst Hi Hin)
      as (s1 & E1 & A1 & A2 & A3 & A4 & A5 & A6 & A7 & A8).
    destruct (IH s1) as (s2 & E2 & B1 & B2 & B3 & B4 & B5 & B6 & B7 & B8).
    + now rewrite A1.
    + rewrite A6. reflexivity.
    + now rewrite A7.
    + exact A2.
    + now rewrite A4.
    + exists s2. cbn [splice client_bytes bridge_bytes]. rewrite E1.
      split; [exact E2|].
      rewrite B1, B2, B3, B4, B8, A3, A5, A6, A7, A8.
      rewrite next_keystream_app, advanced_advanced, length_app, <- app_assoc.
      repeat split; assumption.
  - destruct (arrived_outgoing_delivered d s Hst Hr Hout)
      as (s1 & E1 & A1 & A2 & A3 & A4 & A5 & A6 & A7 & A8).
    destruct (IH s1) as (s2 & E2 & B1 & B2 & B3 & B4 & B5 & B6 & B7 & B8).
    + now rewrite A1.
    + now rewrite A7.
    + rewrite A6. reflexivity.
    + now rewrite A4.
    + exact A2.
    + exists s2. cbn [splice client_bytes bridge_bytes]. rewrite E1.
      split; [exact E2|].
      rewrite B1, B2, B3, B4, B8, A3, A5, A6, A7, A8.
      rewrite next_keystream_app, advanced_advanced, length_app, <- app_assoc.
      repeat split; assumption.
Qed.

Lemma splice_directions_are_independent_streams_witness :
  exists s' : Obfs2.Client,
    splice sample_reads sample_established = Some s'
    /\ Libevent.output (Obfs2.outgoing_ s')
       = Libevent.output (Obfs2.outgoing_ sample_established)
         ++ xor_bytes (client_bytes sample_reads)
              (next_keystream (Obfs2.initiator_aes_ sample_established)
                              (length (client_bytes sample_reads)))
    /\ Libevent.output (Obfs2.incoming_ s')
       = Libevent.output (Obfs2.incoming_ sample_established)
         ++ xor_bytes (bridge_bytes sample_reads)
              (next_keystream (Obfs2.responder_aes_ sample_established)
                              (length (bridge_bytes sample_reads))).
Proof.
  destruct (splice_directions_are_independent_streams
              sample_reads sample_established
              eq_refl eq_refl eq_refl eq_refl eq_refl)
    as (s' & E & H1 & H2 & _).
  exists s'. split; [exact E|]. split; [exact H1 | exact H2].
Defined.

(** ** What a handshake touches, and what it never does *)

Lemma skip_responder_padding_reply (s : Obfs2.Client) :
  0 <= Obfs2.resp_pad_len_ s < 2 ^ 64 ->
  let s' := snd (Obfs2.skip_responder_padding s) in
  Obfs2.close_scheduled_ s' = Obfs2.close_scheduled_ s
  /\ Obfs2.rand_ s' = Obfs2.rand_ s
  /\ 0 <= Obfs2.resp_pad_len_ s' <= Obfs2.resp_pad_len_ s
  /\ ((Obfs2.state_ s' = Obfs2.state_ s
       /\ Obfs2.replies_ s' = Obfs2.replies_ s
       /\ Libevent.output (Obfs2.incoming_ s')
          = Libevent.output (Obfs2.incoming_ s)
       /\ 0 < Obfs2.resp_pad_len_ s')
      \/ (Obfs2.state_ s' = kESTABLISHED
          /\ Obfs2.replies_ s' = Obfs2.replies_ s ++ [kSUCCEDED]
          /\ Libevent.output (Obfs2.incoming_ s')
             = Libevent.output (Obfs2.incoming_ s)
               ++ socks5_reply_record kSUCCEDED
          /\ Obfs2.resp_pad_len_ s' = 0)).
Proof.
  intros Hr s'. subst s'.
  unfold Obfs2.skip_responder_padding. cbv zeta.
  unfold Libevent.evbuffer_get_length, Libevent.evbuffer_drain, size_sub.
  unfold Obfs2.send_socks5_response. cbv zeta.
  set (n := Z.min (Obfs2.resp_pad_len_ s)
                  (Z.of_nat (length (Libevent.input (Obfs2.outgoing_ s))))).
  assert (Hn : 0 <= n <= Obfs2.resp_pad_len_ s) by (subst n; lia).
  clearbody n.
  destruct (Obfs2.resp_pad_len_ s >? 0) eqn:E; session_simpl.
  - rewrite (Z.mod_small (Obfs2.resp_pad_len_ s - n)) by lia.
    destruct (Obfs2.resp_pad_len_ s - n >? 0) eqn:E2;
      rewrite Z.gtb_ltb in E2;
      [apply Z.ltb_lt in E2 | apply Z.ltb_ge in E2];
      cbn [Reply_eqb]; session_simpl.
    + split; [reflexivity|]. split; [reflexivity|]. split; [lia|].
      left. split; [reflexivity|]. split; [reflexivity|].
      split; [reflexivity | exact E2].
    + split; [reflexivity|]. split; [reflexivity|]. split; [lia|].
      right. split; [reflexivity|]. split; [reflexivity|].
      split; [reflexivity | lia].
  - rewrite Z.gtb_ltb in E. apply Z.ltb_ge in E.
    cbn [Reply_eqb]; session_simpl.
    split; [reflexivity|]. split; [reflexivity|]. split; [lia|].
    right. split; [reflexivity|]. split; [reflexivity|].
    split; [reflexivity | lia].
Qed.

(** One handshake call, whatever fails. *)
Lemma connecting_call_kept (f : Faults) (s : Obfs2.Client) :
  Obfs2.state_ s = kCONNECTING ->
  pad_len_bounded s ->
  exists (r : bool) (s' : Obfs2.Client),
    Obfs2.on_outgoing_data_connecting f s = Returned (r, s')
    /\ kept s s'
    /\ pad_len_bounded s'
    /\ replied_at_most_once s s'
    /\ (r = true <-> Obfs2.state_ s' <> kFLUSHING_INCOMING).
Proof.
  intros Hst Hb.
  assert (P : forall s1 : Obfs2.Client,
             kept s s1 -> Obfs2.replies_ s1 = Obfs2.replies_ s ->
             Libevent.output (Obfs2.incoming_ s1)
             = Libevent.output (Obfs2.incoming_ s) ->
             Obfs2.state_ s1 = kCONNECTING ->
             Obfs2.received_seed_hdr_ s1 = true ->
             0 <= Obfs2.resp_pad_len_ s1 <= kMaxPadding ->
             exists (r : bool) (s' : Obfs2.Client),
               Returned (Obfs2.skip_responder_padding s1) = Returned (r, s')
               /\ kept s s'
               /\ pad_len_bounded s'
               /\ replied_at_most_once s s'
               /\ (r = true <-> Obfs2.state_ s' <> kFLUSHING_INCOMING)).
  { intros s1 (K1 & K2 & K3 & K4 & K5) Hrep Hout Hst1 Hrec1 Hpad.
    assert (Hr : 0 <= Obfs2.resp_pad_len_ s1 < 2 ^ 64)
      by (unfold kMaxPadding in Hpad; lia).
    pose proof (skip_responder_padding_frame s1) as F. cbv zeta in F.
    pose proof (skip_responder_padding_reply s1 Hr) as R. cbv zeta in R.
    destruct (Obfs2.skip_responder_padding s1) as [r s']. cbn [fst snd] in F, R.
    destruct F as (F1 & F2 & F3 & F4 & F5 & F6 & F7 & F8 & F9).
    destruct R as (R1 & R2 & R3 & R4).
    exists r, s'. split; [reflexivity|].
    split; [unfold kept; rewrite F7, F8, R1, R2, F2; repeat split; assumption|].
    split; [intros _; lia|].
    subst r.
    destruct R4 as [(Q1 & Q2 & Q3 & Q4) | (Q1 & Q2 & Q3 & Q4)].
    - split.
      + left. split; [rewrite Q1; exact Hst1|].
        split; [rewrite Q2; exact Hrep | rewrite Q3; exact Hout].
      + split; [intros _; rewrite Q1, Hst1; discriminate | reflexivity].
    - split.
      + right; left. rewrite Q2, Q3, Hrep, Hout, F6. repeat split; assumption.
      + split; [intros _; rewrite Q1; discriminate | reflexivity]. }
  unfold Obfs2.on_outgoing_data_connecting. rewrite Hst. cbn [State_eqb negb].
  destruct (Obfs2.received_seed_hdr_ s) eqn:Hrec; cbn [negb].
  - apply P; trivial; [repeat split | exact (Hb Hrec)].
  - destruct (read_seed_hdr_kept f s Hrec)
      as [E | [(s1 & E & K & R1 & R2 & R3 & R4)
              | (s1 & E & K & R1 & R2 & R3 & R4 & R5)]];
      rewrite E.
    + exists true, s. split; [reflexivity|]. split; [repeat split|].
      split; [exact Hb|].
      split; [left; split; [exact Hst | split; reflexivity]|].
      split; [intros _; rewrite Hst; discriminate | reflexivity].
    + exists false, s1. split; [reflexivity|]. split; [exact K|].
      split; [intros H; rewrite R4 in H; discriminate H|].
      split; [right; right; repeat split; assumption|].
      split; [discriminate | intros H; now destruct H].
    + apply P; trivial. now rewrite R3.
Qed.

Lemma kept_trans (s s1 s2 : Obfs2.Client) : kept s s1 -> kept s1 s2 -> kept s s2.
Proof.
  intros (A1 & A2 & A3 & A4 & A5) (B1 & B2 & B3 & B4 & B5).
  unfold kept. rewrite B1, B2, B3, B4, B5. repeat split; assumption.
Qed.

Lemma arrive_outgoing_kept (chunk : bytes) (s : Obfs2.Client) :
  kept s (Run.arrive_outgoing chunk s).
Proof. repeat split. Qed.

(** X6.  A run of handshake reads, whatever the bridge sends, however it
    is cut into reads and whatever fails: every call returns (no assertion
    fails); the session sends at most one reply, SUCCEDED exactly when it
    ends ESTABLISHED (then the whole hello was read: the header accepted
    and no padding outstanding) and GENERAL_FAILURE exactly when it ends
    waiting to be closed; the record of that reply is all it queues for the
    SOCKS client, and it queues nothing for the bridge; what was read from
    the SOCKS client and the close flag are not touched; and once the
    header was accepted the outstanding padding is within
    [0, kMaxPadding]. *)
Theorem handshake_replies_once_and_queues_only_the_reply :
  forall (reads : list (Faults * bytes)) (s : Obfs2.Client),
    Obfs2.state_ s = kCONNECTING ->
    Obfs2.received_seed_hdr_ s = false ->
    exists s' : Obfs2.Client,
      Run.handshake reads s = Returned s'
      /\ Libevent.input (Obfs2.incoming_ s') = Libevent.input (Obfs2.incoming_ s)
      /\ Libevent.output (Obfs2.outgoing_ s') = Libevent.output (Obfs2.outgoing_ s)
      /\ Obfs2.close_scheduled_ s' = Obfs2.close_scheduled_ s
      /\ (Obfs2.received_seed_hdr_ s' = true ->
          0 <= Obfs2.resp_pad_len_ s' <= kMaxPadding)
      /\ ((Obfs2.state_ s' = kCONNECTING
           /\ Obfs2.replies_ s' = Obfs2.replies_ s
           /\ Libevent.output (Obfs2.incoming_ s')
              = Libevent.output (Obfs2.incoming_ s))
          \/ (Obfs2.state_ s' = kESTABLISHED
              /\ Obfs2.replies_ s' = Obfs2.replies_ s ++ [kSUCCEDED]
              /\ Libevent.output (Obfs2.incoming_ s')
                 = Libevent.output (Obfs2.incoming_ s)
                   ++ socks5_reply_record kSUCCEDED
              /\ Obfs2.received_seed_hdr_ s' = true
              /\ Obfs2.resp_pad_len_ s' = 0)
          \/ (Obfs2.state_ s' = kFLUSHING_INCOMING
              /\ Obfs2.replies_ s' = Obfs2.replies_ s ++ [kGENERAL_FAILURE]
              /\ Libevent.output (Obfs2.incoming_ s')
                 = Libevent.output (Obfs2.incoming_ s)
                   ++ socks5_reply_record kGENERAL_FAILURE)).
Proof.
  intros reads s Hst Hrec.
  assert (G : forall (reads : list (Faults * bytes)) (s1 : Obfs2.Client),
             Obfs2.state_ s1 = kCONNECTING -> pad_len_bounded s1 ->
             exists s' : Obfs2.Client,
               Run.handshake reads s1 = Returned s'
               /\ kept s1 s' /\ pad_len_bounded s' /\ replied_at_most_once s1 s').
  { clear. induction reads as [|[f chunk] reads IH]; intros s1 Hst Hb.
    - exists s1. split; [reflexivity|]. split; [repeat split|].
      split; [exact Hb|]. left. split; [exact Hst | split; reflexivity].
    - cbn [Run.handshake]. rewrite Hst. cbn [State_eqb].
      destruct (connecting_call_kept f (Run.arrive_outgoing chunk s1) Hst Hb)
        as (r & s2 & E & K & B & R & Hr).
      rewrite E.
      assert (K' : kept s1 s2)
        by exact (kept_trans _ _ _ (arrive_outgoing_kept chunk s1) K).
      assert (R' : replied_at_most_once s1 s2) by exact R.
      destruct R' as [(Q1 & Q2 & Q3) | [(Q1 & Q2 & Q3 & Q4 & Q5) | (Q1 & Q2 & Q3)]].
      + assert (r = true) as -> by (apply Hr; rewrite Q1; discriminate).
        destruct (IH s2 Q1 B) as (s3 & E3 & K3 & B3 & R3).
        exists s3. split; [exact E3|]. split; [exact (kept_trans _ _ _ K' K3)|].
        split; [exact B3|].
        unfold replied_at_most_once in *. rewrite <- Q2, <- Q3. exact R3.
      + assert (r = true) as -> by (apply Hr; rewrite Q1; discriminate).
        exists s2. split.
        * destruct reads as [|[f' c'] reads']; [reflexivity|].
          cbn [Run.handshake]. rewrite Q1. reflexivity.
        * split; [exact K'|]. split; [exact B|]. exact R.
      + assert (r = false) as ->.
        { destruct r; [|reflexivity].
          destruct (proj1 Hr eq_refl). exact Q1. }
        exists s2. split; [reflexivity|].
        split; [exact K'|]. split; [exact B|]. exact R. }
  destruct (G reads s Hst) as (s' & E & (K1 & K2 & K3 & _) & B & R).
  { intros H. rewrite Hrec in H. discriminate H. }
  exists s'. split; [exact E|]. split; [exact K1|]. split; [exact K2|].
  split; [exact K3|]. split; [exact B | exact R].
Qed.

Lemma handshake_replies_once_and_queues_only_the_reply_witness :
  exists s' : Obfs2.Client,
    Run.handshake sample_faulty_reads connected_session = Returned s'
    /\ Libevent.input (Obfs2.incoming_ s')
       = Libevent.input (Obfs2.incoming_ connected_session)
    /\ Libevent.output (Obfs2.outgoing_ s')
       = Libevent.output (Obfs2.outgoing_ connected_session)
    /\ Obfs2.state_ s' = kFLUSHING_INCOMING
    /\ Libevent.output (Obfs2.incoming_ s')
       = Libevent.output (Obfs2.incoming_ connected_session)
         ++ socks5_reply_record kGENERAL_FAILURE.
Proof.
  destruct (handshake_replies_once_and_queues_only_the_reply
              sample_faulty_reads connected_session)
    as (s' & E & H1 & H2 & _ & _ & R).
  - vm_compute. reflexivity.
  - vm_compute. reflexivity.
  - exists s'. split; [exact E|]. split; [exact H1|]. split; [exact H2|].
    assert (S : Obfs2.state_ s' = kFLUSHING_INCOMING).
    { assert (E' : Run.handshake sample_faulty_reads connected_session
                   = Returned s') by exact E.
      revert E'. vm_compute. intros E'. injection E' as <-. reflexivity. }
    split; [exact S|].
    destruct R as [(Q & _) | [(Q & _) | (_ & _ & Q)]];
      [rewrite S in Q; discriminate Q | rewrite S in Q; discriminate Q | exact Q].
Defined.

(** ** A responder's hello, however it is cut into reads *)

Lemma firstn_app_prefix (n : nat) (a b : bytes) :
  (n <= length a)%nat -> firstn n (a ++ b) = firstn n a.
Proof.
  intros H. rewrite firstn_app.
  replace (n - length a)%nat with 0%nat by lia.
  rewrite firstn_O. apply app_nil_r.
Qed.

(** The header is in the first 24 bytes. *)
Lemma responder_header_prefix (a b : bytes) :
  24 <= Z.of_nat (length a) -> responder_header (a ++ b) = responder_header a.
Proof.
  intros H. unfold responder_header. cbv zeta.
  rewrite firstn_app_prefix by lia.
  rewrite skipn_app.
  rewrite (firstn_app_prefix 8) by (rewrite length_skipn; lia).
  reflexivity.
Qed.

Lemma skipn_nat_add (n m : nat) (l : bytes) : skipn n (skipn m l) = skipn (m + n) l.
Proof. rewrite skipn_skipn. f_equal. lia. Qed.

(** The first block on a good header, when nothing fails. *)
Lemma read_seed_hdr_good (s : Obfs2.Client) :
  let buf := Libevent.input (Obfs2.outgoing_ s) in
  24 <= Z.of_nat (length buf) ->
  header_magic buf = kMagicValue ->
  header_padlen buf <= kMaxPadding ->
  Obfs2.read_seed_hdr no_faults s = Obfs2.Continue (after_seed_hdr s).
Proof.
  intros buf Hlen Hm Hp. unfold Obfs2.read_seed_hdr. cbv zeta.
  unfold Libevent.evbuffer_get_length. fold buf.
  destruct (Z.of_nat (length buf) <? kSeedLength + 4 * 2) eqn:E0;
    [apply Z.ltb_lt in E0; unfold kSeedLength in E0; lia|].
  assert (L16 : length (firstn 16 buf) = 16%nat)
    by (apply firstn_length_enough; lia).
  assert (L8 : length (firstn 8 (skipn 16 buf)) = 8%nat)
    by (apply firstn_length_enough; rewrite length_skipn; lia).
  unfold Libevent.evbuffer_remove.
  change (Z.to_nat kSeedLength) with 16%nat.
  change (skipn 5 no_faults) with no_faults.
  change (fault no_faults 0) with false. change (fault no_faults 1) with false.
  change (fault no_faults 2) with false. change (fault no_faults 3) with false.
  change (fault no_faults 4) with false.
  session_simpl. fold buf.
  rewrite L16. change (Z.of_nat 16 =? kSeedLength) with true. session_simpl.
  rewrite store_seed_full by assumption.
  rewrite mac_ok;
    [|discriminate
     |intros H; rewrite H in L16; discriminate L16
     |reflexivity].
  session_simpl.
  fold (responder_pad_secret (firstn 16 buf)).
  set (ps := responder_pad_secret (firstn 16 buf)).
  rewrite set_state_secret by apply sha256_length.
  session_simpl.
  rewrite L8. change (Z.of_nat 8 =? 4 * 2) with true. session_simpl.
  rewrite skipn_skipn. change (8 + 16)%nat with 24%nat.
  rewrite process_ok by reflexivity.
  session_simpl. rewrite L8.
  change (xor_bytes (firstn 8 (skipn 16 buf))
                    (AesCtr128.keystream (Obfs2.key_part ps) (Obfs2.iv_part ps) 0 8))
    with (responder_header buf).
  fold (header_magic buf). rewrite Hm, Z.eqb_refl. session_simpl.
  fold (header_padlen buf).
  destruct (header_padlen buf >? kMaxPadding) eqn:Ep;
    [rewrite Z.gtb_ltb in Ep; apply Z.ltb_lt in Ep; lia|].
  rewrite kdf_obfs2_ok.
  - reflexivity.
  - session_simpl. intros H. apply app_eq_nil in H. destruct H as (_ & H).
    rewrite H in L16. discriminate L16.
Qed.

(** The padding block in full. *)
Lemma skip_responder_padding_spec (s : Obfs2.Client) :
  0 <= Obfs2.resp_pad_len_ s <= kMaxPadding ->
  let buf := Libevent.input (Obfs2.outgoing_ s) in
  exists s' : Obfs2.Client,
    Obfs2.skip_responder_padding s = (true, s')
    /\ kept s s'
    /\ Obfs2.resp_seed_ s' = Obfs2.resp_seed_ s
    /\ Obfs2.received_seed_hdr_ s' = Obfs2.received_seed_hdr_ s
    /\ ((Z.of_nat (length buf) < Obfs2.resp_pad_len_ s
         /\ Obfs2.state_ s' = Obfs2.state_ s
         /\ Obfs2.replies_ s' = Obfs2.replies_ s
         /\ Libevent.output (Obfs2.incoming_ s')
            = Libevent.output (Obfs2.incoming_ s)
         /\ Libevent.input (Obfs2.outgoing_ s') = []
         /\ Obfs2.resp_pad_len_ s'
            = Obfs2.resp_pad_len_ s - Z.of_nat (length buf))
        \/ (Obfs2.resp_pad_len_ s <= Z.of_nat (length buf)
            /\ Obfs2.state_ s' = kESTABLISHED
            /\ Obfs2.replies_ s' = Obfs2.replies_ s ++ [kSUCCEDED]
            /\ Libevent.output (Obfs2.incoming_ s')
               = Libevent.output (Obfs2.incoming_ s)
                 ++ socks5_reply_record kSUCCEDED
            /\ Libevent.input (Obfs2.outgoing_ s')
               = skipn (Z.to_nat (Obfs2.resp_pad_len_ s)) buf
            /\ Obfs2.resp_pad_len_ s' = 0)).
Proof.
  intros Hpad buf.
  assert (Hr : 0 <= Obfs2.resp_pad_len_ s < 2 ^ 64)
    by (unfold kMaxPadding in Hpad; lia).
  pose proof (skip_responder_padding_frame s) as F. cbv zeta in F.
  pose proof (skip_responder_padding_reply s Hr) as R. cbv zeta in R.
  pose proof (skip_responder_padding_drains s Hr) as D. cbv zeta in D.
  fold buf in D.
  destruct (Obfs2.skip_responder_padding s) as [r s']. cbn [fst snd] in F, R, D.
  destruct F as (F1 & F2 & F3 & F4 & F5 & F6 & F7 & F8 & F9).
  destruct R as (R1 & R2 & R3 & R4).
  destruct D as (D1 & D2 & D3 & D4 & D5).
  subst r. exists s'. split; [reflexivity|].
  split; [unfold kept; rewrite F7, F8, R1, R2, F2; repeat split|].
  split; [exact F3|]. split; [exact F6|].
  destruct (Z_lt_dec (Z.of_nat (length buf)) (Obfs2.resp_pad_len_ s)) as [Hlt | Hge].
  - left. rewrite Z.min_r in D2, D3 by lia.
    destruct R4 as [(Q1 & Q2 & Q3 & Q4) | (Q1 & Q2 & Q3 & Q4)]; [|lia].
    split; [exact Hlt|]. split; [exact Q1|]. split; [exact Q2|].
    split; [exact Q3|]. split; [|exact D3].
    rewrite D2, Nat2Z.id. apply skipn_all.
  - right. rewrite Z.min_l in D2, D3 by lia.
    destruct R4 as [(Q1 & Q2 & Q3 & Q4) | (Q1 & Q2 & Q3 & Q4)]; [lia|].
    split; [lia|]. split; [exact Q1|]. split; [exact Q2|].
    split; [exact Q3|]. split; [exact D2 | exact Q4].
Qed.

Lemma after_seed_hdr_kept (s : Obfs2.Client) : kept s (after_seed_hdr s).
Proof. repeat split. Qed.

(** One more read of a good hello. *)
Lemma hello_read_step (s0 s : Obfs2.Client) (all got c rest : bytes) :
  all = got ++ c ++ rest ->
  header_magic all = kMagicValue ->
  header_padlen all <= kMaxPadding ->
  hello_pending s0 s all got ->
  exists s1 : Obfs2.Client,
    Obfs2.on_outgoing_data_connecting no_faults (Run.arrive_outgoing c s)
    = Returned (true, s1)
    /\ ((Z.of_nat (length (got ++ c)) < 24 + header_padlen all
         /\ hello_pending s0 s1 all (got ++ c))
        \/ (24 + header_padlen all <= Z.of_nat (length (got ++ c))
            /\ hello_read s0 s1 all (got ++ c))).
Proof.
  intros Hall Hm Hp (Hst & Hrep & Hout & K & Hph).
  pose proof (header_padlen_range all) as Hrange.
  unfold Obfs2.on_outgoing_data_connecting.
  unfold Run.arrive_outgoing at 1. session_simpl.
  rewrite Hst. cbn [State_eqb negb].
  destruct Hph as [(Hrec & Hbuf & Hshort) | (Hrec & Hbuf & Hseed & Hpad & Hgot)].
  - (* seed and header not yet read *)
    unfold Run.arrive_outgoing at 1. session_simpl. rewrite Hrec. cbn [negb].
    destruct (Z_lt_dec (Z.of_nat (length (got ++ c))) 24) as [Hlt | Hge].
    + (* still short *)
      assert (E : Obfs2.read_seed_hdr no_faults (Run.arrive_outgoing c s)
                  = Obfs2.Return (true, Run.arrive_outgoing c s)).
      { unfold Obfs2.read_seed_hdr. cbv zeta.
        unfold Run.arrive_outgoing at 1. session_simpl.
        unfold Libevent.evbuffer_get_length. rewrite Hbuf.
        destruct (Z.of_nat (length (got ++ c)) <? kSeedLength + 4 * 2) eqn:E0;
          [reflexivity|].
        apply Z.ltb_ge in E0. unfold kSeedLength in E0. lia. }
      rewrite E. eexists. split; [reflexivity|].
      left. split; [lia|].
      split; [exact Hst|]. split; [exact Hrep|]. split; [exact Hout|].
      split; [exact (kept_trans _ _ _ K (arrive_outgoing_kept c s))|].
      left. unfold Run.arrive_outgoing. session_simpl. rewrite Hbuf.
      repeat split; trivial.
    + (* the header is there *)
      assert (Hin : Libevent.input (Obfs2.outgoing_ (Run.arrive_outgoing c s))
                    = got ++ c)
        by (unfold Run.arrive_outgoing; session_simpl; now rewrite Hbuf).
      assert (Hhdr : responder_header (got ++ c) = responder_header all).
      { rewrite Hall, app_assoc. symmetry. apply responder_header_prefix. lia. }
      assert (Hm' : header_magic (got ++ c) = kMagicValue)
        by (unfold header_magic; rewrite Hhdr; exact Hm).
      assert (Hp' : header_padlen (got ++ c) = header_padlen all)
        by (unfold header_padlen; rewrite Hhdr; reflexivity).
      assert (Hs' : firstn 16 (got ++ c) = firstn 16 all).
      { rewrite Hall, app_assoc. symmetry. apply firstn_app_prefix. lia. }
      rewrite read_seed_hdr_good;
        [|rewrite Hin; lia | rewrite Hin; exact Hm'
         |rewrite Hin, Hp'; exact Hp].
      set (s2 := after_seed_hdr (Run.arrive_outgoing c s)).
      assert (A1 : Obfs2.resp_pad_len_ s2 = header_padlen all)
        by (subst s2; unfold after_seed_hdr; cbv zeta; session_simpl;
            rewrite Hin; exact Hp').
      assert (A2 : Libevent.input (Obfs2.outgoing_ s2) = skipn 24 (got ++ c))
        by (subst s2; unfold after_seed_hdr; cbv zeta; session_simpl;
            now rewrite Hin).
      assert (A3 : Obfs2.resp_seed_ s2 = firstn 16 all)
        by (subst s2; unfold after_seed_hdr; cbv zeta; session_simpl;
            rewrite Hin; exact Hs').
      assert (A4 : Obfs2.state_ s2 = kCONNECTING) by exact Hst.
      assert (A5 : Obfs2.replies_ s2 = Obfs2.replies_ s0) by exact Hrep.
      assert (A6 : Obfs2.received_seed_hdr_ s2 = true) by reflexivity.
      assert (A8 : Libevent.output (Obfs2.incoming_ s2)
                   = Libevent.output (Obfs2.incoming_ s0)) by exact Hout.
      assert (A7 : kept s0 s2).
      { apply (kept_trans _ _ _ K).
        apply (kept_trans _ _ _ (arrive_outgoing_kept c s)).
        apply after_seed_hdr_kept. }
      clearbody s2.
      destruct (skip_responder_padding_spec s2) as (s3 & E & K3 & B1 & B2 & B3);
        [rewrite A1; lia|].
      cbv zeta in B3. rewrite A1, A2, A4, A5, A8 in B3. rewrite length_skipn in B3.
      rewrite E. exists s3. split; [reflexivity|].
      destruct B3 as [(C1 & C2 & C3 & Co & C4 & C5) | (C1 & C2 & C3 & Co & C4 & C5)].
      * left. split; [lia|].
        split; [exact C2|]. split; [exact C3|]. split; [exact Co|].
        split; [exact (kept_trans _ _ _ A7 K3)|].
        right. rewrite B2, B1, A3, A6. repeat split; trivial; lia.
      * right. split; [lia|].
        split; [exact C2|]. split; [exact C3|]. split; [exact Co|].
        split; [exact (kept_trans _ _ _ A7 K3)|].
        rewrite B2, B1, A3, A6. repeat split; trivial.
        rewrite C4, skipn_nat_add. reflexivity.
  - (* in the padding *)
    unfold Run.arrive_outgoing at 1. session_simpl. rewrite Hrec. cbn [negb].
    set (s2 := Run.arrive_outgoing c s).
    assert (A1 : Obfs2.resp_pad_len_ s2
                 = 24 + header_padlen all - Z.of_nat (length got)) by exact Hpad.
    assert (A2 : Libevent.input (Obfs2.outgoing_ s2) = c)
      by (subst s2; unfold Run.arrive_outgoing; session_simpl; now rewrite Hbuf).
    assert (A3 : Obfs2.resp_seed_ s2 = firstn 16 all) by exact Hseed.
    assert (A4 : Obfs2.state_ s2 = kCONNECTING) by exact Hst.
    assert (A5 : Obfs2.replies_ s2 = Obfs2.replies_ s0) by exact Hrep.
    assert (A6 : Obfs2.received_seed_hdr_ s2 = true) by exact Hrec.
    assert (A8 : Libevent.output (Obfs2.incoming_ s2)
                 = Libevent.output (Obfs2.incoming_ s0)) by exact Hout.
    assert (A7 : kept s0 s2)
      by exact (kept_trans _ _ _ K (arrive_outgoing_kept c s)).
    clearbody s2.
    destruct (skip_responder_padding_spec s2) as (s3 & E & K3 & B1 & B2 & B3);
      [rewrite A1; lia|].
    cbv zeta in B3. rewrite A1, A2, A4, A5, A8 in B3.
    rewrite E. exists s3. split; [reflexivity|].
    rewrite length_app, Nat2Z.inj_add.
    destruct B3 as [(C1 & C2 & C3 & Co & C4 & C5) | (C1 & C2 & C3 & Co & C4 & C5)].
    + left. split; [lia|].
      split; [exact C2|]. split; [exact C3|]. split; [exact Co|].
      split; [exact (kept_trans _ _ _ A7 K3)|].
      right. rewrite B2, B1, A3, A6, length_app, Nat2Z.inj_add.
      repeat split; trivial; lia.
    + right. split; [lia|].
      split; [exact C2|]. split; [exact C3|]. split; [exact Co|].
      split; [exact (kept_trans _ _ _ A7 K3)|].
      rewrite B2, B1, A3, A6. repeat split; trivial.
      rewrite C4, skipn_app.
      assert (Z : skipn (24 + Z.to_nat (header_padlen all)) got = []).
      { apply skipn_all2. lia. }
      rewrite Z. cbn [app]. f_equal. lia.
Qed.

(** X7.  A well-formed responder's hello completes the handshake however
    it is cut into reads.  When the bytes the bridge sends begin with a seed
    and a header carrying the magic value and a padding length of at most
    [kMaxPadding], and go at least as far as the padding, then (nothing
    failing) the session ends ESTABLISHED after the single reply SUCCEDED;
    it used the reads up to the one that completed the hello and no later
    one; of those bytes it dropped exactly the 24 of seed and header and
    the padding, and kept what followed in the read queue; it stored the
    first 16 bytes as RESP_SEED; it queued the record of its reply for the
    SOCKS client and nothing else, and nothing for the bridge. *)
Theorem hello_completes_handshake_however_chunked :
  forall (s : Obfs2.Client) (cs : list bytes),
    Obfs2.state_ s = kCONNECTING ->
    Obfs2.received_seed_hdr_ s = false ->
    Libevent.input (Obfs2.outgoing_ s) = [] ->
    header_magic (concat cs) = kMagicValue ->
    header_padlen (concat cs) <= kMaxPadding ->
    24 + header_padlen (concat cs) <= Z.of_nat (length (concat cs)) ->
    exists (s' : Obfs2.Client) (used later : list bytes),
      Run.handshake (unfailing cs) s = Returned s'
      /\ cs = used ++ later
      /\ Obfs2.state_ s' = kESTABLISHED
      /\ Obfs2.replies_ s' = Obfs2.replies_ s ++ [kSUCCEDED]
      /\ Libevent.input (Obfs2.outgoing_ s')
         = skipn (24 + Z.to_nat (header_padlen (concat cs))) (concat used)
      /\ Obfs2.resp_seed_ s' = firstn 16 (concat cs)
      /\ Obfs2.resp_pad_len_ s' = 0
      /\ Libevent.input (Obfs2.incoming_ s') = Libevent.input (Obfs2.incoming_ s)
      /\ Libevent.output (Obfs2.incoming_ s')
         = Libevent.output (Obfs2.incoming_ s) ++ socks5_reply_record kSUCCEDED
      /\ Libevent.output (Obfs2.outgoing_ s') = Libevent.output (Obfs2.outgoing_ s).
Proof.
  intros s cs Hst Hrec Hbuf Hm Hp Hlen.
  set (all := concat cs) in *.
  assert (G : forall (cs1 : list bytes) (got : bytes) (s1 : Obfs2.Client),
             all = got ++ concat cs1 ->
             hello_pending s s1 all got ->
             exists (s' : Obfs2.Client) (used later : list bytes),
               Run.handshake (unfailing cs1) s1 = Returned s'
               /\ cs1 = used ++ later
               /\ hello_read s s' all (got ++ concat used)).
  { induction cs1 as [|c cs1 IH]; intros got s1 Hall Hpend.
    - exfalso. cbn [concat] in Hall. rewrite app_nil_r in Hall. subst got.
      pose proof (header_padlen_range all) as Hrange.
      destruct Hpend as (_ & _ & _ & _ & [(_ & _ & H) | (_ & _ & _ & _ & H)]);
        lia.
    - cbn [concat] in Hall.
      destruct (hello_read_step s s1 all got c (concat cs1) Hall Hm Hp Hpend)
        as (s2 & E & [(Hshort & Hpend2) | (Hfull & Hdone)]).
      + destruct (IH (got ++ c) s2) as (s' & used & later & E' & Hcs & Hd).
        * rewrite <- app_assoc. exact Hall.
        * exact Hpend2.
        * exists s', (c :: used), later.
          split.
          { cbn [unfailing map Run.handshake].
            rewrite (proj1 Hpend). cbn [State_eqb]. rewrite E. exact E'. }
          split; [cbn [app]; now rewrite Hcs|].
          cbn [concat]. rewrite app_assoc. exact Hd.
      + exists s2, [c], cs1.
        split.
        { cbn [unfailing map Run.handshake].
          rewrite (proj1 Hpend). cbn [State_eqb]. rewrite E.
          destruct cs1 as [|c' cs1']; [reflexivity|].
          cbn [map Run.handshake]. rewrite (proj1 Hdone). reflexivity. }
        split; [reflexivity|].
        cbn [concat]. rewrite app_nil_r. exact Hdone. }
  destruct (G cs [] s) as (s' & used & later & E & Hcs & Hd).
  - reflexivity.
  - split; [exact Hst|]. split; [reflexivity|]. split; [reflexivity|].
    split; [repeat split|].
    left. split; [exact Hrec|]. split; [exact Hbuf|]. cbn [length]. lia.
  - cbn [app] in Hd.
    destruct Hd as (D1 & D2 & D3 & (K1 & K2 & _) & D4 & D5 & D6 & D7).
    exists s', used, later. repeat split; assumption.
Qed.

Lemma hello_completes_handshake_however_chunked_witness :
  exists (s' : Obfs2.Client) (used later : list bytes),
    Run.handshake (unfailing sample_hello_reads) connected_session = Returned s'
    /\ sample_hello_reads = used ++ later
    /\ Obfs2.state_ s' = kESTABLISHED
    /\ Obfs2.replies_ s' = Obfs2.replies_ connected_session ++ [kSUCCEDED]
    /\ Libevent.input (Obfs2.outgoing_ s')
       = skipn (24 + Z.to_nat (header_padlen (concat sample_hello_reads)))
               (concat used)
    /\ Libevent.output (Obfs2.incoming_ s')
       = Libevent.output (Obfs2.incoming_ connected_session)
         ++ socks5_reply_record kSUCCEDED.
Proof.
  destruct (hello_completes_handshake_however_chunked
              connected_session sample_hello_reads)
    as (s' & used & later & E & H1 & H2 & H3 & H4 & _ & _ & _ & H8 & _).
  - vm_compute. reflexivity.
  - vm_compute. reflexivity.
  - vm_compute. reflexivity.
  - vm_compute. reflexivity.
  - vm_compute. discriminate.
  - vm_compute. discriminate.
  - exists s', used, later. repeat split; assumption.
Defined.

(** ** A hello that fails on the way *)

Lemma peek_nonempty (r : Rand.ctx) (n : nat) : (0 < n)%nat -> Rand.peek r n <> [].
Proof.
  intros Hn H. apply (f_equal (@length Z)) in H. rewrite peek_length in H.
  cbn [length] in H. lia.
Qed.

Lemma xor_keystream_nonempty (a k ivb : bytes) (p : nat) :
  a <> [] -> xor_bytes a (AesCtr128.keystream k ivb p (length a)) <> [].
Proof.
  intros Ha H. apply (f_equal (@length Z)) in H.
  rewrite xor_bytes_length in H by (now rewrite keystream_length).
  destruct a; [contradiction | discriminate H].
Qed.

Lemma app_nonempty_l (a b : bytes) : a <> [] -> a ++ b <> [].
Proof. intros Ha H. apply app_eq_nil in H. now destruct H. Qed.

Lemma app_nonempty_r (a b : bytes) : b <> [] -> a ++ b <> [].
Proof. intros Hb H. apply app_eq_nil in H. now destruct H. Qed.

Ltac hello_failed :=
  unfold Obfs2.general_failure, Obfs2.send_socks5_response;
  cbn [Reply_eqb]; session_simpl;
  eexists false, _; split; [reflexivity|]; session_simpl.

(** X8.  [on_outgoing_connected] always returns, and returns true exactly
    when none of the calls it makes fails: the six that every hello needs
    and, when the padding length drawn is not zero, the three that produce
    and send the padding.  When it returns false it has sent the one reply
    GENERAL_FAILURE, queued its record for the SOCKS client, and left
    CONNECTING for good, and what it has queued for the bridge by then is a
    proper prefix of the hello (nothing, the seed, or seed and header).
    When it returns true it has queued nothing for the SOCKS client.  It
    never touches what was read from the SOCKS client, the bridge's read
    queue or the close flag. *)
Theorem hello_fails_exactly_on_a_failed_call :
  forall (f : Faults) (s : Obfs2.Client),
    exists (r : bool) (s' : Obfs2.Client),
      Obfs2.on_outgoing_connected f s = Returned (r, s')
      /\ (r = true <->
          fault f 0 = false /\ fault f 1 = false /\ fault f 2 = false
          /\ fault f 3 = false /\ fault f 4 = false /\ fault f 5 = false
          /\ (0 < drawn_padlen (Obfs2.rand_ s) ->
              fault f 6 = false /\ fault f 7 = false /\ fault f 8 = false))
      /\ (r = false ->
          Obfs2.replies_ s' = Obfs2.replies_ s ++ [kGENERAL_FAILURE]
          /\ Obfs2.state_ s' = kFLUSHING_INCOMING
          /\ Libevent.output (Obfs2.incoming_ s')
             = Libevent.output (Obfs2.incoming_ s)
               ++ socks5_reply_record kGENERAL_FAILURE
          /\ exists sent rest : bytes,
               Libevent.output (Obfs2.outgoing_ s')
               = Libevent.output (Obfs2.outgoing_ s) ++ sent
               /\ initiator_hello (drawn_seed (Obfs2.rand_ s))
                                  (drawn_padlen (Obfs2.rand_ s))
                                  (drawn_padding (Obfs2.rand_ s))
                  = sent ++ rest
               /\ rest <> [])
      /\ (r = true ->
          Libevent.output (Obfs2.incoming_ s')
          = Libevent.output (Obfs2.incoming_ s))
      /\ Libevent.input (Obfs2.incoming_ s') = Libevent.input (Obfs2.incoming_ s)
      /\ Libevent.input (Obfs2.outgoing_ s') = Libevent.input (Obfs2.outgoing_ s)
      /\ Obfs2.close_scheduled_ s' = Obfs2.close_scheduled_ s.
Proof.
  intros f s.
  assert (Hseed : drawn_seed (Obfs2.rand_ s) <> [])
    by (apply peek_nonempty; lia).
  assert (Hhello : forall padlen padding,
             initiator_hello (drawn_seed (Obfs2.rand_ s)) padlen padding <> [])
    by (intros; unfold initiator_hello; cbv zeta; now apply app_nonempty_l).
  unfold Obfs2.on_outgoing_connected. cbv zeta.
  unfold Rand.get_bytes, Libevent.bufferevent_write.
  change (Z.to_nat kSeedLength) with 16%nat.
  destruct (fault f 0) eqn:F0.
  { hello_failed.
    split; [split; [discriminate | intros (H & _); discriminate H]|].
    split; [|split; [discriminate | repeat split]]. intros _.
    split; [reflexivity|]. split; [reflexivity|]. split; [reflexivity|]. eexists [], _.
    split; [now rewrite app_nil_r|]. split; [reflexivity | apply Hhello]. }
  session_simpl.
  fold (drawn_seed (Obfs2.rand_ s)).
  destruct (fault f 1) eqn:F1.
  { rewrite mac_sha_fails. hello_failed.
    split; [split; [discriminate | intros (_ & H & _); discriminate H]|].
    split; [|split; [discriminate | repeat split]]. intros _.
    split; [reflexivity|]. split; [reflexivity|]. split; [reflexivity|]. eexists [], _.
    split; [now rewrite app_nil_r|]. split; [reflexivity | apply Hhello]. }
  rewrite mac_ok; [|discriminate | exact Hseed | reflexivity].
  session_simpl.
  set (k := Sha256.sha256 (Obfs2.init_mac_key ++ drawn_seed (Obfs2.rand_ s)
                           ++ Obfs2.init_mac_key)).
  destruct (fault f 2) eqn:F2.
  { rewrite set_state_fails. hello_failed.
    split; [split; [discriminate | intros (_ & _ & H & _); discriminate H]|].
    split; [|split; [discriminate | repeat split]]. intros _.
    split; [reflexivity|]. split; [reflexivity|]. split; [reflexivity|]. eexists [], _.
    split; [now rewrite app_nil_r|]. split; [reflexivity | apply Hhello]. }
  rewrite set_state_secret by apply sha256_length.
  session_simpl.
  pose proof (pad_dist_range (Rand.skip (Obfs2.rand_ s) 16)) as Hrange.
  assert (Ep : Obfs2.pad_dist_ (Rand.skip (Obfs2.rand_ s) 16)
               = (drawn_padlen (Obfs2.rand_ s),
                  snd (Obfs2.pad_dist_ (Rand.skip (Obfs2.rand_ s) 16))))
    by (unfold drawn_padlen; now destruct (Obfs2.pad_dist_ _)).
  unfold drawn_padding. fold (drawn_padlen (Obfs2.rand_ s)) in Hrange.
  rewrite Ep. set (padlen := drawn_padlen (Obfs2.rand_ s)) in *.
  set (r2 := snd (Obfs2.pad_dist_ (Rand.skip (Obfs2.rand_ s) 16))).
  session_simpl.
  destruct (fault f 3) eqn:F3.
  { rewrite process_fails. hello_failed.
    split; [split; [discriminate | intros (_ & _ & _ & H & _); discriminate H]|].
    split; [|split; [discriminate | repeat split]]. intros _.
    split; [reflexivity|]. split; [reflexivity|]. split; [reflexivity|]. eexists [], _.
    split; [now rewrite app_nil_r|]. split; [reflexivity | apply Hhello]. }
  rewrite process_ok by reflexivity.
  change (length (htonl_bytes kMagicValue ++ htonl_bytes padlen)) with 8%nat.
  session_simpl. change (0 + 8)%nat with 8%nat.
  fold (initiator_header padlen).
  set (hdr := xor_bytes (initiator_header padlen)
                (AesCtr128.keystream (Obfs2.key_part k) (Obfs2.iv_part k) 0 8)).
  assert (Hhdr : hdr <> []).
  { subst hdr. apply (xor_keystream_nonempty (initiator_header padlen)).
    discriminate. }
  assert (Hh : forall padding : bytes,
             initiator_hello (drawn_seed (Obfs2.rand_ s)) padlen padding
             = drawn_seed (Obfs2.rand_ s)
               ++ hdr
               ++ xor_bytes padding
                    (AesCtr128.keystream (Obfs2.key_part k) (Obfs2.iv_part k) 8
                                         (length padding)))
    by reflexivity.
  destruct (fault f 4) eqn:F4; cbn [Z.eqb negb].
  { hello_failed.
    split; [split; [discriminate
                   | intros (_ & _ & _ & _ & H & _); discriminate H]|].
    split; [|split; [discriminate | repeat split]]. intros _.
    split; [reflexivity|]. split; [reflexivity|]. split; [reflexivity|]. eexists [], _.
    split; [now rewrite app_nil_r|]. split; [reflexivity | apply Hhello]. }
  session_simpl.
  destruct (fault f 5) eqn:F5; cbn [Z.eqb negb].
  { hello_failed.
    split; [split; [discriminate
                   | intros (_ & _ & _ & _ & _ & H & _); discriminate H]|].
    split; [|split; [discriminate | repeat split]]. intros _.
    split; [reflexivity|]. split; [reflexivity|]. split; [reflexivity|]. eexists (drawn_seed (Obfs2.rand_ s)), _.
    split; [reflexivity|]. split; [apply Hh|].
    now apply app_nonempty_l. }
  session_simpl.
  destruct (padlen >? 0) eqn:Epos.
  - rewrite Z.gtb_ltb in Epos. apply Z.ltb_lt in Epos.
    set (padding := Rand.peek r2 (Z.to_nat padlen)).
    assert (Hpad : xor_bytes padding
                     (AesCtr128.keystream (Obfs2.key_part k) (Obfs2.iv_part k) 8
                        (length padding)) <> []).
    { apply xor_keystream_nonempty. apply peek_nonempty. lia. }
    assert (Hsent : exists sent rest : bytes,
               (Libevent.output (Obfs2.outgoing_ s) ++ drawn_seed (Obfs2.rand_ s))
               ++ hdr
               = Libevent.output (Obfs2.outgoing_ s) ++ sent
               /\ initiator_hello (drawn_seed (Obfs2.rand_ s)) padlen padding
                  = sent ++ rest
               /\ rest <> []).
    { eexists (drawn_seed (Obfs2.rand_ s) ++ hdr), _.
      split; [now rewrite app_assoc|].
      split; [rewrite Hh, <- app_assoc; reflexivity|].
      exact Hpad. }
    destruct (fault f 6) eqn:F6.
    { hello_failed.
      split; [split; [discriminate|]|].
      { intros (_ & _ & _ & _ & _ & _ & H).
        destruct (H Epos) as (H6 & _). discriminate H6. }
      split; [|split; [discriminate | repeat split]]. intros _.
      split; [reflexivity|]. split; [reflexivity|]. split; [reflexivity|]. exact Hsent. }
    session_simpl. fold padding.
    destruct (fault f 7) eqn:F7.
    { rewrite process_fails. hello_failed.
      split; [split; [discriminate|]|].
      { intros (_ & _ & _ & _ & _ & _ & H).
        destruct (H Epos) as (_ & H7 & _). discriminate H7. }
      split; [|split; [discriminate | repeat split]]. intros _.
      split; [reflexivity|]. split; [reflexivity|]. split; [reflexivity|]. exact Hsent. }
    rewrite process_ok by reflexivity. session_simpl.
    destruct (fault f 8) eqn:F8; cbn [Z.eqb negb].
    { hello_failed.
      split; [split; [discriminate|]|].
      { intros (_ & _ & _ & _ & _ & _ & H).
        destruct (H Epos) as (_ & _ & H8). discriminate H8. }
      split; [|split; [discriminate | repeat split]]. intros _.
      split; [reflexivity|]. split; [reflexivity|]. split; [reflexivity|]. exact Hsent. }
    eexists true, _. split; [reflexivity|]. session_simpl.
    split; [split; [intros _; repeat split | reflexivity]|].
    split; [discriminate | split; [intros _; reflexivity | repeat split]].
  - rewrite Z.gtb_ltb in Epos. apply Z.ltb_ge in Epos.
    eexists true, _. split; [reflexivity|]. session_simpl.
    split; [split; [intros _; repeat split; lia | reflexivity]|].
    split; [discriminate | split; [intros _; reflexivity | repeat split]].
Qed.

(** ** The earlier client's splice and handshake against [Client]'s *)

Ltac splice_simpl :=
  cbn [LegacySplice.members LegacySplice.deleted LegacySplice.set_members
       LegacySplice.delete_this] in *;
  legacy_simpl; session_simpl.

Lemma process_length (fails : bool) (c c' : AesCtr128.ctx) (buf out : bytes) :
  AesCtr128.process fails c buf = Some (out, c') -> length out = length buf.
Proof.
  unfold AesCtr128.process. destruct fails; [discriminate|].
  destruct (AesCtr128.has_state c); [|discriminate].
  intros H. injection H as <- _.
  apply xor_bytes_length. now rewrite keystream_length.
Qed.

Lemma drain_processed (buf out : bytes) :
  length out = length buf ->
  Libevent.evbuffer_drain (out ++ [])
    (Z.to_nat (Libevent.evbuffer_get_length buf)) = [].
Proof.
  intros H. unfold Libevent.evbuffer_drain, Libevent.evbuffer_get_length.
  rewrite app_nil_r, Nat2Z.id, <- H. apply skipn_all.
Qed.

(** X9.  On an ESTABLISHED session the splice of the earlier client is
    the splice of [Client], call by call and under the same failures: seen
    as a [Client], the session [Obfs2Client::on_incoming_data] (or
    [on_outgoing_data]) leaves is the one [Client]'s callback leaves, with
    [delete this] where [Client] returns false after scheduling the close.
    Before ESTABLISHED the two differ: the earlier client returns at once
    and leaves every byte buffered, where [Client] fails its assertion. *)
Theorem legacy_splice_is_the_splice_of_client :
  forall (f : Faults) (x : LegacySplice.Session),
    (Legacy.state_ (LegacySplice.members x) = kESTABLISHED ->
     (exists r : bool,
         Obfs2.on_incoming_data f (as_client x)
         = Returned (r, as_client (LegacySplice.on_incoming_data f x))
         /\ (LegacySplice.deleted x = false ->
             (r = false <->
              LegacySplice.deleted (LegacySplice.on_incoming_data f x) = true)))
     /\ (exists r : bool,
            Obfs2.on_outgoing_data f (as_client x)
            = Returned (r, as_client (LegacySplice.on_outgoing_data f x))
            /\ (LegacySplice.deleted x = false ->
                (r = false <->
                 LegacySplice.deleted (LegacySplice.on_outgoing_data f x) = true))))
    /\ (Legacy.state_ (LegacySplice.members x) <> kESTABLISHED ->
        LegacySplice.on_incoming_data f x = x
        /\ LegacySplice.on_outgoing_data f x = x
        /\ Obfs2.on_incoming_data f (as_client x) = AssertFailed
        /\ Obfs2.on_outgoing_data f (as_client x) = AssertFailed).
Proof.
  intros f [m del]. split.
  - intros Hst. splice_simpl.
    assert (E : State_eqb (Legacy.state_ m) kESTABLISHED = true)
      by (rewrite Hst; reflexivity).
    clear Hst. split.
    + unfold Obfs2.on_incoming_data, LegacySplice.on_incoming_data, as_client.
      cbv zeta. splice_simpl. rewrite E. cbn [negb].
      destruct (Libevent.evbuffer_get_length (Libevent.input (Legacy.incoming_ m)) =? 0).
      { exists true. split; [reflexivity|]. intros ->. split; discriminate. }
      destruct (fault f 0).
      { rewrite pullup_fails. exists false. split; [reflexivity|].
        intros _. split; reflexivity. }
      rewrite pullup_all.
      destruct (AesCtr128.process (fault f 1) (Legacy.initiator_aes_ m)
                                  (Libevent.input (Legacy.incoming_ m))) as [[p aes]|] eqn:Ep.
      2:{ exists false. split; [reflexivity|]. intros _. split; reflexivity. }
      apply process_length in Ep.
      rewrite skipn_whole.
      unfold Libevent.bufferevent_write_buffer, Libevent.bufferevent_write.
      splice_simpl.
      destruct (fault f 2); cbn [Z.eqb negb]; splice_simpl.
      { exists false. split; [reflexivity|]. intros _. split; reflexivity. }
      exists true. rewrite (drain_processed _ _ Ep), app_nil_r.
      split; [reflexivity|]. intros ->. split; discriminate.
    + unfold Obfs2.on_outgoing_data, LegacySplice.on_outgoing_data, as_client.
      cbv zeta. splice_simpl. rewrite E. cbn [negb].
      destruct (Libevent.evbuffer_get_length
                  (Libevent.input (Legacy.outgoing_ m)) =? 0).
      { exists true. split; [reflexivity|]. intros ->. split; discriminate. }
      destruct (fault f 0).
      { rewrite pullup_fails. exists false. split; [reflexivity|].
        intros _. split; reflexivity. }
      rewrite pullup_all.
      destruct (AesCtr128.process (fault f 1) (Legacy.responder_aes_ m)
                                  (Libevent.input (Legacy.outgoing_ m)))
        as [[p aes]|] eqn:Ep.
      2:{ exists false. split; [reflexivity|]. intros _. split; reflexivity. }
      apply process_length in Ep.
      rewrite skipn_whole.
      unfold Libevent.bufferevent_write_buffer, Libevent.bufferevent_write.
      splice_simpl.
      destruct (fault f 2); cbn [Z.eqb negb]; splice_simpl.
      { exists false. split; [reflexivity|]. intros _. split; reflexivity. }
      exists true. rewrite (drain_processed _ _ Ep), app_nil_r.
      split; [reflexivity|]. intros ->. split; discriminate.
  - intros Hst. splice_simpl.
    unfold Obfs2.on_incoming_data, Obfs2.on_outgoing_data,
      LegacySplice.on_incoming_data, LegacySplice.on_outgoing_data, as_client.
    cbv zeta. splice_simpl.
    destruct (Legacy.state_ m); try contradiction; repeat split.
Qed.


(** *** The handshake *)

Lemma legacy_kdf_obfs2_ok (l : Legacy.Obfs2Client) :
  Legacy.init_seed_ l ++ Legacy.resp_seed_ l <> [] ->
  Legacy.kdf_obfs2 no_faults l
  = (true,
     Legacy.set_responder_aes
       (keyed_from (resp_secret (Legacy.init_seed_ l) (Legacy.resp_seed_ l)))
       (Legacy.set_initiator_aes
          (keyed_from (init_secret (Legacy.init_seed_ l) (Legacy.resp_seed_ l)))
          l)).
Proof.
  intros H. unfold Legacy.kdf_obfs2, no_faults, fault. cbv zeta. simpl nth.
  rewrite mac_ok by (trivial; discriminate). simpl negb. cbv iota.
  rewrite set_state_secret by apply sha256_length.
  cbn [Legacy.init_seed_ Legacy.resp_seed_ Legacy.set_initiator_aes].
  rewrite mac_ok by (trivial; try discriminate; apply sha256_length).
  simpl negb. cbv iota.
  rewrite set_state_secret by apply sha256_length.
  reflexivity.
Qed.

Lemma as_client_same_handshake (x : LegacySplice.Session) :
  same_handshake (LegacySplice.members x) (as_client x).
Proof. repeat split. Qed.

(** The padding block of the two versions: the same but for the record of
    the reply. *)
Lemma skip_responder_padding_agree (x : LegacySplice.Session) :
  let l := LegacySplice.members x in
  let l' := Legacy.skip_responder_padding l in
  exists s' : Obfs2.Client,
    Obfs2.skip_responder_padding (as_client x) = (true, s')
    /\ same_handshake l' s'
    /\ ((Legacy.state_ l' = Legacy.state_ l
         /\ Libevent.output (Legacy.incoming_ l')
            = Libevent.output (Legacy.incoming_ l)
         /\ Libevent.output (Obfs2.incoming_ s')
            = Libevent.output (Legacy.incoming_ l))
        \/ (Legacy.state_ l' = kESTABLISHED
            /\ Libevent.output (Legacy.incoming_ l')
               = Libevent.output (Legacy.incoming_ l) ++ socks4_reply_record true
            /\ Libevent.output (Obfs2.incoming_ s')
               = Libevent.output (Legacy.incoming_ l)
                 ++ socks5_reply_record kSUCCEDED)).
Proof.
  destruct x as [m del]. cbv zeta.
  unfold Obfs2.skip_responder_padding, Legacy.skip_responder_padding, as_client.
  unfold Obfs2.send_socks5_response, same_handshake.
  cbv zeta. splice_simpl. cbn [Reply_eqb].
  destruct (Legacy.resp_pad_len_ m >? 0); splice_simpl.
  - match goal with |- context [if ?c >? 0 then _ else _] =>
      destruct (c >? 0) end; splice_simpl.
    + eexists. split; [reflexivity|]. splice_simpl.
      split; [repeat split|]. left. repeat split.
    + eexists. split; [reflexivity|]. splice_simpl. rewrite map_app.
      split; [repeat split|]. right. repeat split.
  - eexists. split; [reflexivity|]. splice_simpl. rewrite map_app.
    split; [repeat split|]. right. repeat split.
Qed.

Lemma drain_seed_hdr (a b c : bytes) :
  length a = 16%nat -> length b = 8%nat ->
  Libevent.evbuffer_drain (a ++ b ++ c) 24 = c.
Proof.
  intros Ha Hb. unfold Libevent.evbuffer_drain.
  rewrite app_assoc, skipn_app.
  rewrite skipn_all2 by (rewrite length_app; lia).
  rewrite length_app, Ha, Hb. reflexivity.
Qed.

(** The first block of the two versions on 24 buffered bytes, nothing
    failing. *)
Lemma read_seed_hdr_agree (x : LegacySplice.Session) :
  let l := LegacySplice.members x in
  let buf := Libevent.input (Legacy.outgoing_ l) in
  24 <= Z.of_nat (length buf) ->
  exists l1 : Legacy.Obfs2Client,
    (Legacy.read_seed_hdr no_faults l = Legacy.Continue l1
     /\ Legacy.state_ l1 = Legacy.state_ l
     /\ Legacy.incoming_ l1 = Legacy.incoming_ l
     /\ Obfs2.read_seed_hdr no_faults (as_client x)
        = Obfs2.Continue (as_client (LegacySplice.set_members l1 x)))
    \/ (Legacy.read_seed_hdr no_faults l = Legacy.Return l1
        /\ Legacy.state_ l1 = kFLUSHING_INCOMING
        /\ (header_magic buf <> kMagicValue \/ header_padlen buf > kMaxPadding)
        /\ Libevent.input (Legacy.outgoing_ l1) = header_in_clear buf
        /\ Libevent.output (Legacy.incoming_ l1)
           = Libevent.output (Legacy.incoming_ l) ++ socks4_reply_record false
        /\ exists s1 : Obfs2.Client,
             Obfs2.read_seed_hdr no_faults (as_client x) = Obfs2.Return (false, s1)
             /\ Libevent.input (Obfs2.outgoing_ s1) = skipn 24 buf
             /\ Libevent.output (Obfs2.incoming_ s1)
                = Libevent.output (Legacy.incoming_ l)
                  ++ socks5_reply_record kGENERAL_FAILURE
             /\ same_handshake
                  (Legacy.set_outgoing
                     (Libevent.mk (skipn 24 buf)
                                  (Libevent.output (Legacy.outgoing_ l1))) l1)
                  s1).
Proof.
  destruct x as [m del]. intros l buf Hlen. subst l. splice_simpl.
  unfold Legacy.read_seed_hdr, Obfs2.read_seed_hdr, as_client.
  unfold Legacy.goto_out_error, Obfs2.refuse, Obfs2.send_socks5_response.
  cbv zeta. splice_simpl. cbn [Reply_eqb].
  unfold Libevent.evbuffer_get_length. fold buf.
  destruct (Z.of_nat (length buf) <? kSeedLength + 4 * 2) eqn:E0;
    [apply Z.ltb_lt in E0; unfold kSeedLength in E0; lia|].
  change (Z.to_nat (kSeedLength + 4 * 2)) with 24%nat.
  change (Z.to_nat kSeedLength) with 16%nat.
  assert (L16 : length (firstn 16 buf) = 16%nat)
    by (apply firstn_length_enough; lia).
  assert (L8 : length (firstn 8 (skipn 16 buf)) = 8%nat)
    by (apply firstn_length_enough; rewrite length_skipn; lia).
  assert (P16 : firstn 16 (firstn 24 buf) = firstn 16 buf)
    by (rewrite firstn_firstn; reflexivity).
  assert (P8 : skipn 16 (firstn 24 buf) = firstn 8 (skipn 16 buf))
    by (rewrite skipn_firstn_comm; reflexivity).
  change (skipn 5 no_faults) with no_faults.
  change (skipn 4 no_faults) with no_faults.
  change (fault no_faults 0) with false. change (fault no_faults 1) with false.
  change (fault no_faults 2) with false. change (fault no_faults 3) with false.
  change (fault no_faults 4) with false.
  rewrite pullup_seed_hdr by lia. unfold Libevent.evbuffer_remove.
  rewrite P16, P8. splice_simpl.
  rewrite L16. change (Z.of_nat 16 =? kSeedLength) with true. splice_simpl.
  rewrite !store_seed_full by assumption.
  rewrite mac_ok;
    [|discriminate
     |intros H; rewrite H in L16; discriminate L16
     |reflexivity].
  splice_simpl.
  fold (responder_pad_secret (firstn 16 buf)).
  set (ps := responder_pad_secret (firstn 16 buf)).
  rewrite set_state_secret by apply sha256_length.
  splice_simpl.
  rewrite L8. change (Z.of_nat 8 =? 4 * 2) with true. splice_simpl.
  rewrite skipn_skipn. change (8 + 16)%nat with 24%nat.
  rewrite process_ok by reflexivity.
  splice_simpl. rewrite L8.
  change (xor_bytes (firstn 8 (skipn 16 buf))
                    (AesCtr128.keystream (Obfs2.key_part ps) (Obfs2.iv_part ps) 0 8))
    with (responder_header buf).
  assert (LH : length (responder_header buf) = 8%nat).
  { unfold responder_header. cbv zeta. rewrite xor_bytes_length; [exact L8|].
    now rewrite keystream_length. }
  fold (header_magic buf).
  destruct (header_magic buf =? kMagicValue) eqn:Em; splice_simpl.
  2:{ eexists. right. split; [reflexivity|]. splice_simpl.
      split; [reflexivity|].
      split; [left; now apply Z.eqb_neq|].
      split; [reflexivity|]. split; [reflexivity|].
      eexists. split; [reflexivity|]. unfold same_handshake. splice_simpl.
      rewrite map_app. repeat split. }
  fold (header_padlen buf).
  destruct (header_padlen buf >? kMaxPadding) eqn:Ep.
  { eexists. right. split; [reflexivity|]. splice_simpl.
    split; [reflexivity|].
    split; [right; rewrite Z.gtb_ltb in Ep; apply Z.ltb_lt in Ep; lia|].
    split; [reflexivity|]. split; [reflexivity|].
    eexists. split; [reflexivity|]. unfold same_handshake. splice_simpl.
    rewrite map_app. repeat split. }
  rewrite (drain_seed_hdr _ _ _ L16 LH).
  rewrite kdf_obfs2_ok, legacy_kdf_obfs2_ok.
  - eexists. left. split; [reflexivity|]. splice_simpl.
    repeat split.
  - legacy_simpl. intros H. apply app_eq_nil in H. destruct H as (_ & H).
    rewrite H in L16. discriminate L16.
  - session_simpl. intros H. apply app_eq_nil in H. destruct H as (_ & H).
    rewrite H in L16. discriminate L16.
Qed.

(** X10.  While CONNECTING, and nothing failing, a call of
    [Obfs2Client::on_outgoing_data_connecting] does what a call of
    [Client]'s does.  On a session that does not refuse, the two leave the
    same state, queues to and from the bridge, seeds, ciphers, header flag
    and padding count, and each sends its reply at the same point: none
    while the session stays CONNECTING, and on becoming ESTABLISHED the
    SOCKS4 record of success from the earlier client where [Client] sends
    the SOCKS5 record of SUCCEDED.  They refuse the same headers, those
    with a wrong magic or an oversized PADLEN, the earlier client with the
    SOCKS4 record of a rejection and [Client] with the SOCKS5 record of
    GENERAL_FAILURE; after a refusal they agree on all the above but the
    read queue: [Client] has taken seed and header off it, the earlier
    client leaves them there with the header decrypted in place. *)
Theorem legacy_handshake_is_the_handshake_of_client :
  forall x : LegacySplice.Session,
    Legacy.state_ (LegacySplice.members x) = kCONNECTING ->
    let l := LegacySplice.members x in
    let buf := Libevent.input (Legacy.outgoing_ l) in
    exists (l' : Legacy.Obfs2Client) (r : bool) (s' : Obfs2.Client),
      Legacy.on_outgoing_data_connecting no_faults l = Returned l'
      /\ Obfs2.on_outgoing_data_connecting no_faults (as_client x)
         = Returned (r, s')
      /\ ((r = true
           /\ same_handshake l' s'
           /\ ((Legacy.state_ l' = kCONNECTING
                /\ Libevent.output (Legacy.incoming_ l')
                   = Libevent.output (Legacy.incoming_ l)
                /\ Libevent.output (Obfs2.incoming_ s')
                   = Libevent.output (Legacy.incoming_ l))
               \/ (Legacy.state_ l' = kESTABLISHED
                   /\ Libevent.output (Legacy.incoming_ l')
                      = Libevent.output (Legacy.incoming_ l)
                        ++ socks4_reply_record true
                   /\ Libevent.output (Obfs2.incoming_ s')
                      = Libevent.output (Legacy.incoming_ l)
                        ++ socks5_reply_record kSUCCEDED)))
          \/ (r = false
              /\ (header_magic buf <> kMagicValue
                  \/ header_padlen buf > kMaxPadding)
              /\ Legacy.state_ l' = kFLUSHING_INCOMING
              /\ Libevent.input (Legacy.outgoing_ l') = header_in_clear buf
              /\ Libevent.input (Obfs2.outgoing_ s') = skipn 24 buf
              /\ same_handshake
                   (Legacy.set_outgoing
                      (Libevent.mk (skipn 24 buf)
                                   (Libevent.output (Legacy.outgoing_ l'))) l')
                   s'
              /\ Libevent.output (Legacy.incoming_ l')
                 = Libevent.output (Legacy.incoming_ l)
                   ++ socks4_reply_record false
              /\ Libevent.output (Obfs2.incoming_ s')
                 = Libevent.output (Legacy.incoming_ l)
                   ++ socks5_reply_record kGENERAL_FAILURE)).
Proof.
  intros x Hst l buf.
  unfold Legacy.on_outgoing_data_connecting, Obfs2.on_outgoing_data_connecting.
  change (Obfs2.state_ (as_client x)) with (Legacy.state_ l).
  change (Obfs2.received_seed_hdr_ (as_client x))
    with (Legacy.received_seed_hdr_ l).
  assert (Est : State_eqb (Legacy.state_ l) kCONNECTING = true)
    by (subst l; rewrite Hst; reflexivity).
  rewrite Est. cbn [negb].
  assert (S : forall y : LegacySplice.Session,
             Legacy.state_ (LegacySplice.members y) = kCONNECTING ->
             Legacy.incoming_ (LegacySplice.members y) = Legacy.incoming_ l ->
             exists (l' : Legacy.Obfs2Client) (r : bool) (s' : Obfs2.Client),
               Returned (Legacy.skip_responder_padding (LegacySplice.members y))
               = Returned l'
               /\ Returned (Obfs2.skip_responder_padding (as_client y))
                  = Returned (r, s')
               /\ r = true
               /\ same_handshake l' s'
               /\ ((Legacy.state_ l' = kCONNECTING
                    /\ Libevent.output (Legacy.incoming_ l')
                       = Libevent.output (Legacy.incoming_ l)
                    /\ Libevent.output (Obfs2.incoming_ s')
                       = Libevent.output (Legacy.incoming_ l))
                   \/ (Legacy.state_ l' = kESTABLISHED
                       /\ Libevent.output (Legacy.incoming_ l')
                          = Libevent.output (Legacy.incoming_ l)
                            ++ socks4_reply_record true
                       /\ Libevent.output (Obfs2.incoming_ s')
                          = Libevent.output (Legacy.incoming_ l)
                            ++ socks5_reply_record kSUCCEDED))).
  { intros y Hy Hi.
    destruct (skip_responder_padding_agree y) as (s' & A1 & A2 & A3).
    cbv zeta in A1, A2, A3. rewrite Hy, Hi in A3.
    eexists _, true, s'. split; [reflexivity|].
    split; [rewrite A1; reflexivity|]. split; [reflexivity|].
    split; [exact A2 | exact A3]. }
  destruct (Legacy.received_seed_hdr_ l) eqn:Hrec; cbn [negb].
  - destruct (S x Hst eq_refl) as (l' & r & s' & E1 & E2 & -> & E3 & E4).
    exists l', true, s'. split; [exact E1|]. split; [exact E2|].
    left. split; [reflexivity|]. split; [exact E3 | exact E4].
  - destruct (Z_lt_dec (Z.of_nat (length buf)) 24) as [Hlt | Hge].
    + assert (E1 : Legacy.read_seed_hdr no_faults l = Legacy.Return l).
      { unfold Legacy.read_seed_hdr. cbv zeta.
        unfold Libevent.evbuffer_get_length. fold buf.
        destruct (Z.of_nat (length buf) <? kSeedLength + 4 * 2) eqn:E0;
          [reflexivity|].
        apply Z.ltb_ge in E0. unfold kSeedLength in E0. lia. }
      assert (E2 : Obfs2.read_seed_hdr no_faults (as_client x)
                   = Obfs2.Return (true, as_client x)).
      { unfold Obfs2.read_seed_hdr. cbv zeta.
        unfold Libevent.evbuffer_get_length.
        change (Libevent.input (Obfs2.outgoing_ (as_client x))) with buf.
        destruct (Z.of_nat (length buf) <? kSeedLength + 4 * 2) eqn:E0;
          [reflexivity|].
        apply Z.ltb_ge in E0. unfold kSeedLength in E0. lia. }
      rewrite E1, E2. exists l, true, (as_client x).
      split; [reflexivity|]. split; [reflexivity|].
      left. split; [reflexivity|].
      split; [apply as_client_same_handshake|].
      left. split; [exact Hst | split; reflexivity].
    + destruct (read_seed_hdr_agree x)
        as (l1 & [(E1 & E2 & E3 & E4)
                 | (E1 & E2 & E3 & E4 & E5 & s1 & E6 & E7 & E8 & E9)]);
        [fold l; fold buf; lia | |]; fold l in E1; rewrite E1.
      * rewrite E4.
        destruct (S (LegacySplice.set_members l1 x))
          as (l' & r & s' & F1 & F2 & -> & F3 & F4).
        { cbn [LegacySplice.members LegacySplice.set_members].
          rewrite E2. exact Hst. }
        { cbn [LegacySplice.members LegacySplice.set_members]. exact E3. }
        exists l', true, s'. split; [exact F1|]. split; [exact F2|].
        left. split; [reflexivity|]. split; [exact F3 | exact F4].
      * rewrite E6. exists l1, false, s1.
        split; [reflexivity|]. split; [reflexivity|]. right.
        split; [reflexivity|]. split; [exact E3|]. split; [exact E2|].
        split; [exact E4|]. split; [exact E7|]. split; [exact E9|].
        split; [exact E5 | exact E8].
Qed.

Lemma legacy_handshake_is_the_handshake_of_client_witness :
  (exists (l' : Legacy.Obfs2Client) (s' : Obfs2.Client),
      Legacy.on_outgoing_data_connecting no_faults
        (LegacySplice.members legacy_hello_session) = Returned l'
      /\ Obfs2.on_outgoing_data_connecting no_faults (as_client legacy_hello_session)
         = Returned (true, s')
      /\ same_handshake l' s'
      /\ Legacy.state_ l' = kESTABLISHED
      /\ Libevent.output (Legacy.incoming_ l') = socks4_reply_record true
      /\ Libevent.output (Obfs2.incoming_ s') = socks5_reply_record kSUCCEDED)
  /\ (exists (l' : Legacy.Obfs2Client) (s' : Obfs2.Client),
         Legacy.on_outgoing_data_connecting no_faults
           (LegacySplice.members legacy_bad_magic_session) = Returned l'
         /\ Obfs2.on_outgoing_data_connecting no_faults
              (as_client legacy_bad_magic_session)
            = Returned (false, s')
         /\ length (Libevent.input (Legacy.outgoing_ l')) = 24%nat
         /\ Libevent.input (Obfs2.outgoing_ s') = []
         /\ Libevent.output (Legacy.incoming_ l') = socks4_reply_record false
         /\ Libevent.output (Obfs2.incoming_ s')
            = socks5_reply_record kGENERAL_FAILURE).
Proof.
  split.
  - destruct (legacy_handshake_is_the_handshake_of_client legacy_hello_session eq_refl)
      as (l' & r & s' & E1 & E2
          & [(-> & H1 & [(Q & _) | (Q1 & Q2 & Q3)]) | (_ & [Hm | Hp] & _)]).
    + exfalso.
      assert (E : Legacy.on_outgoing_data_connecting no_faults
                    (LegacySplice.members legacy_hello_session) = Returned l')
        by exact E1.
      revert E Q. vm_compute. intros E. injection E as <-. discriminate.
    + exists l', s'. split; [exact E1|]. split; [exact E2|].
      split; [exact H1|]. split; [exact Q1|]. split; [exact Q2 | exact Q3].
    + exfalso. apply Hm. vm_compute. reflexivity.
    + exfalso. revert Hp. vm_compute. discriminate.
  - destruct (legacy_handshake_is_the_handshake_of_client
                legacy_bad_magic_session eq_refl)
      as (l' & r & s' & E1 & E2
          & [(_ & _ & [(Q & _) | (Q & _)]) | (-> & _ & Q1 & Q2 & Q3 & _ & Q5 & Q6)]).
    + exfalso.
      assert (E : Legacy.on_outgoing_data_connecting no_faults
                    (LegacySplice.members legacy_bad_magic_session) = Returned l')
        by exact E1.
      revert E Q. vm_compute. intros E. injection E as <-. discriminate.
    + exfalso.
      assert (E : Legacy.on_outgoing_data_connecting no_faults
                    (LegacySplice.members legacy_bad_magic_session) = Returned l')
        by exact E1.
      revert E Q. vm_compute. intros E. injection E as <-. discriminate.
    + exists l', s'. split; [exact E1|]. split; [exact E2|].
      split; [rewrite Q2; vm_compute; reflexivity|].
      split; [rewrite Q3; vm_compute; reflexivity|].
      split; [exact Q5 | exact Q6].
Defined.

(** ** Start-up *)

Ltac startup_simpl :=
  cbn [Startup.ev_base Startup.event_base_new_calls Startup.factories
       Startup.listeners Startup.allocated Startup.calls Startup.call
       Startup.factory Startup.scrub_addrs Startup.out_free
       fst snd negb] in *.

(** What one call of [init_pt] does. *)
Lemma init_pt_answers (h : Startup.Host) (name : String.string) (scrub : bool)
      (p : Startup.Program) :
  exists (r : bool) (p' : Startup.Program) (a : list Startup.Call),
    Startup.init_pt h name scrub p = (r, p')
    /\ Startup.calls p' = Startup.calls p ++ a
    /\ answered h name a
    /\ (r = true /\ a = [Startup.allium_ptcfg_cmethod_report name 5]
        /\ Startup.factories p' = Startup.factories p ++ [name]
        /\ Startup.listeners p'
           = Startup.listeners p ++ [Startup.mkListener name scrub]
        /\ Startup.allocated p' = (Startup.allocated p + 2)%nat
        /\ Startup.ev_base p' = true
        \/ r = false /\ a <> [Startup.allium_ptcfg_cmethod_report name 5]
           /\ Startup.factories p' = Startup.factories p
           /\ Startup.listeners p' = Startup.listeners p
           /\ Startup.allocated p' = Startup.allocated p
           /\ (Startup.ev_base p = true -> Startup.ev_base p' = true))
    /\ (Startup.ev_base p = true ->
        Startup.event_base_new_calls p' = Startup.event_base_new_calls p).
Proof.
  unfold Startup.init_pt, Startup.init_libevent, answered. cbv zeta.
  destruct (Startup.allium_ptcfg_method_requested h name =? 1) eqn:Er; cbn [negb].
  2:{ apply Z.eqb_neq in Er. exists false, p, []. rewrite app_nil_r.
      split; [reflexivity|]. split; [reflexivity|]. split; [now left|].
      split; [right; repeat split; trivial; discriminate | reflexivity]. }
  apply Z.eqb_eq in Er.
  destruct (Startup.ev_base p) eqn:Eb; cbn [negb]; startup_simpl.
  - rewrite Eb. cbn [negb].
    destruct (Startup.bind h name); cbn [negb]; startup_simpl.
    + destruct (Startup.addr h name); cbn [negb]; startup_simpl.
      * eexists true, _, _. split; [reflexivity|]. startup_simpl.
        split; [reflexivity|]. split; [right; split; [exact Er | now left]|].
        split; [left; repeat split | reflexivity].
      * eexists false, _, _. split; [reflexivity|]. startup_simpl.
        split; [reflexivity|].
        split; [right; split; [exact Er | right; eexists; reflexivity]|].
        split; [right; repeat split; trivial; try discriminate; lia
               | reflexivity].
    + eexists false, _, _. split; [reflexivity|]. startup_simpl.
      split; [reflexivity|].
      split; [right; split; [exact Er | right; eexists; reflexivity]|].
      split; [right; repeat split; trivial; try discriminate; lia
             | reflexivity].
  - destruct (Startup.event_base_new h (Startup.event_base_new_calls p));
      cbn [negb]; startup_simpl.
    + destruct (Startup.bind h name); cbn [negb]; startup_simpl.
      * destruct (Startup.addr h name); cbn [negb]; startup_simpl.
        -- eexists true, _, _. split; [reflexivity|]. startup_simpl.
           split; [reflexivity|]. split; [right; split; [exact Er | now left]|].
           split; [left; repeat split | discriminate].
        -- eexists false, _, _. split; [reflexivity|]. startup_simpl.
           split; [reflexivity|].
           split; [right; split; [exact Er | right; eexists; reflexivity]|].
           split; [right; repeat split; trivial; try discriminate; lia
                  | discriminate].
      * eexists false, _, _. split; [reflexivity|]. startup_simpl.
        split; [reflexivity|].
        split; [right; split; [exact Er | right; eexists; reflexivity]|].
        split; [right; repeat split; trivial; try discriminate; lia
               | discriminate].
    + eexists false, _, _. split; [reflexivity|]. startup_simpl.
      split; [reflexivity|].
      split; [right; split; [exact Er | right; eexists; reflexivity]|].
      split; [right; repeat split; trivial; try discriminate
             | discriminate].
Qed.

Lemma report_in_answer (h : Startup.Host) (name n : String.string)
      (a : list Startup.Call) :
  answered h name a ->
  In (Startup.allium_ptcfg_cmethod_report n 5) a ->
  a = [Startup.allium_ptcfg_cmethod_report name 5] /\ n = name.
Proof.
  intros [(_ & ->) | (_ & [-> | (msg & ->)])] H; cbn [In] in H.
  - contradiction.
  - destruct H as [H | []]. injection H as <-. now split.
  - destruct H as [H | []]. discriminate H.
Qed.

(** [init_pt] keeps the program well started. *)
Lemma init_pt_well_started (h : Startup.Host) (name : String.string)
      (p : Startup.Program) :
  well_started h p ->
  exists (r : bool) (p' : Startup.Program) (a : list Startup.Call),
    Startup.init_pt h name (negb (Startup.kUNSAFE_LOGS h)) p = (r, p')
    /\ well_started h p'
    /\ Startup.calls p' = Startup.calls p ++ a
    /\ answered h name a
    /\ (r = true -> Startup.listeners p' <> [])
    /\ (r = false -> Startup.listeners p' = Startup.listeners p).
Proof.
  intros (W1 & W2 & W3 & W4 & W5).
  destruct (init_pt_answers h name (negb (Startup.kUNSAFE_LOGS h)) p)
    as (r & p' & a & E & C & A & D & _).
  exists r, p', a. split; [exact E|].
  destruct D as [(-> & -> & F & L & M & B) | (-> & Ha & F & L & M & B)].
  - split.
    + unfold well_started. rewrite F, L, M, C, B.
      split; [rewrite map_app, W1; reflexivity|].
      split; [rewrite length_app; cbn [length]; lia|].
      split.
      { intros l Hl. apply in_app_or in Hl. destruct Hl as [Hl | [<- | []]];
          [now apply W3 | reflexivity]. }
      split; [|reflexivity].
      intros n. rewrite !in_app_iff, W4. cbn [In].
      split; (intros [H | [H | []]]; [now left | right; left]).
      * now subst.
      * now injection H as ->.
    + split; [exact C|]. split; [exact A|].
      split; [|discriminate].
      intros _. rewrite L. intros H. apply app_eq_nil in H.
      destruct H as (_ & H). discriminate H.
  - split.
    + unfold well_started. rewrite F, L, M, C.
      split; [exact W1|]. split; [exact W2|]. split; [exact W3|].
      split.
      * intros n. rewrite in_app_iff, W4.
        split; [now left|]. intros [H | H]; [exact H|].
        destruct (report_in_answer h name n a A H) as (Ea & _). contradiction.
      * intros H. apply B. now apply W5.
    + split; [exact C|]. split; [exact A|].
      split; [discriminate | intros _; exact L].
Qed.

Lemma call_well_started (h : Startup.Host) (c : Startup.Call) (p : Startup.Program) :
  (forall name, c <> Startup.allium_ptcfg_cmethod_report name 5) ->
  well_started h p -> well_started h (Startup.call c p).
Proof.
  intros Hc (W1 & W2 & W3 & W4 & W5). unfold well_started. startup_simpl.
  split; [exact W1|]. split; [exact W2|]. split; [exact W3|].
  split; [|exact W5].
  intros n. rewrite in_app_iff, W4. cbn [In].
  split; [now left|]. intros [H | [H | []]]; [exact H|].
  now destruct (Hc n).
Qed.

Lemma start_well_started (h : Startup.Host) : well_started h Startup.start.
Proof.
  unfold well_started. cbn.
  split; [reflexivity|]. split; [reflexivity|].
  split; [intros l []|]. split; [intros n; split; intros []|].
  intros H. now destruct H.
Qed.

Lemma well_started_sizes (h : Startup.Host) (p : Startup.Program) :
  well_started h p ->
  (length (Startup.factories p) =? length (Startup.listeners p))%nat = true.
Proof.
  intros (W1 & _). rewrite <- W1, length_map. apply Nat.eqb_refl.
Qed.

(** The three calls of [init_pt] in [main] and what follows them. *)
Lemma main_transports (h : Startup.Host) :
  Startup.parse_error h = false ->
  Startup.kHELP h || Startup.kUNKNOWN h = false ->
  Startup.kVERSION h = false ->
  Startup.kWAIT_FOR_DEBUGGER h = false ->
  Startup.allium_ptcfg_init h = true ->
  Startup.allium_ptcfg_is_server h = false ->
  Startup.init_statedir h = true ->
  exists (p : Startup.Program) (a3 a2 a1 : list Startup.Call),
    (Startup.main h = Startup.Dispatches p /\ Startup.listeners p <> []
     \/ Startup.main h = Startup.Returns 0 p /\ Startup.listeners p = [])
    /\ well_started h p
    /\ Startup.calls p
       = a3 ++ a2 ++ a1
         ++ [Startup.allium_ptcfg_methods_done; Startup.allium_ptcfg_free]
    /\ answered h Startup.kObfs3MethodName a3
    /\ answered h Startup.kObfs2MethodName a2
    /\ answered h Startup.kScrambleSuitMethodName a1.
Proof.
  intros H1 H2 H3 H4 H5 H6 H7.
  unfold Startup.main. rewrite H1, H2, H3, H4, H5, H6, H7. cbn [negb]. cbv zeta.
  destruct (init_pt_well_started h Startup.kObfs3MethodName Startup.start
              (start_well_started h))
    as (r3 & p3 & a3 & E3 & W3 & C3 & A3 & T3 & F3).
  rewrite E3.
  destruct (init_pt_well_started h Startup.kObfs2MethodName p3 W3)
    as (r2 & p2 & a2 & E2 & W2 & C2 & A2 & T2 & F2).
  rewrite E2.
  destruct (init_pt_well_started h Startup.kScrambleSuitMethodName p2 W2)
    as (r1 & p1 & a1 & E1 & W1 & C1 & A1 & T1 & F1).
  rewrite E1.
  set (p := Startup.call Startup.allium_ptcfg_free
              (Startup.call Startup.allium_ptcfg_methods_done p1)).
  assert (W : well_started h p).
  { subst p. apply call_well_started; [discriminate|].
    apply call_well_started; [discriminate | exact W1]. }
  rewrite (well_started_sizes h p W). cbn [negb].
  assert (L : Startup.listeners p = Startup.listeners p1) by reflexivity.
  assert (C : Startup.calls p
              = a3 ++ a2 ++ a1
                ++ [Startup.allium_ptcfg_methods_done; Startup.allium_ptcfg_free]).
  { subst p. startup_simpl. rewrite C1, C2, C3. cbn [Startup.start Startup.calls app].
    rewrite <- !app_assoc. reflexivity. }
  exists p, a3, a2, a1.
  split; [|split; [exact W|]; split; [exact C|]; repeat split; assumption].
  rewrite L.
  destruct r1; cbn [orb].
  - rewrite orb_true_r. left. split; [reflexivity | now apply T1].
  - rewrite orb_false_r, (F1 eq_refl).
    destruct r2; cbn [orb].
    + rewrite orb_true_r. left. split; [reflexivity | now apply T2].
    + rewrite orb_false_r, (F2 eq_refl).
      destruct r3; cbn [orb].
      * left. split; [reflexivity | now apply T3].
      * right. split; [reflexivity|]. now rewrite (F3 eq_refl).
Qed.

(** X11.  On a host where [main] gets as far as the transports, it
    answers the configuration library as the pluggable-transport protocol
    asks: for each of obfs3, obfs2 and scramblesuit, in this order, nothing
    when the method was not requested and otherwise exactly one answer,
    the method's report or an error of the method; then
    [allium_ptcfg_methods_done] and [allium_ptcfg_free], once each and as
    the last two calls.  It then enters the event loop or returns 0. *)
Theorem main_answers_each_requested_method_once :
  forall h : Startup.Host,
    configured h ->
    exists (p : Startup.Program) (a3 a2 a1 : list Startup.Call),
      (Startup.main h = Startup.Dispatches p
       \/ Startup.main h = Startup.Returns 0 p)
      /\ Startup.calls p
         = a3 ++ a2 ++ a1
           ++ [Startup.allium_ptcfg_methods_done; Startup.allium_ptcfg_free]
      /\ answered h Startup.kObfs3MethodName a3
      /\ answered h Startup.kObfs2MethodName a2
      /\ answered h Startup.kScrambleSuitMethodName a1.
Proof.
  intros h (H1 & H2 & H3 & H4 & H5 & H6 & H7 & H8).
  destruct (main_transports h) as (p & a3 & a2 & a1 & D & _ & C & A3 & A2 & A1);
    trivial.
  - now rewrite H2, H3.
  - unfold Startup.init_statedir. now rewrite H8.
  - exists p, a3, a2, a1.
    split; [destruct D as [(D & _) | (D & _)]; [now left | now right]|].
    repeat split; assumption.
Qed.

Lemma main_answers_each_requested_method_once_witness :
  exists (p : Startup.Program) (a3 a2 a1 : list Startup.Call),
    (Startup.main sample_host = Startup.Dispatches p
     \/ Startup.main sample_host = Startup.Returns 0 p)
    /\ Startup.calls p
       = a3 ++ a2 ++ a1
         ++ [Startup.allium_ptcfg_methods_done; Startup.allium_ptcfg_free]
    /\ answered sample_host Startup.kObfs3MethodName a3
    /\ answered sample_host Startup.kObfs2MethodName a2
    /\ answered sample_host Startup.kScrambleSuitMethodName a1.
Proof.
  apply (main_answers_each_requested_method_once sample_host).
  repeat split.
Defined.

(** X12.  [main] never fails its assertion, and what it serves is what
    it reported.  However the start-up goes, when [main] is past it the
    list of factories and the list of listeners go together, one listener
    per factory; a factory is in the list exactly when its method was
    reported with [allium_ptcfg_cmethod_report]; the two objects of every
    method that failed were deleted and no other; every listener scrubs
    addresses exactly when [--unsafe-logs] was not given; and [main]
    enters [event_base_dispatch] exactly when at least one listener exists,
    and then on an event base that is not null. *)
Theorem main_serves_exactly_what_it_reported :
  forall h : Startup.Host,
    (forall p, Startup.main h <> Startup.Asserts p)
    /\ (forall p,
           left_by (Startup.main h) = Some p ->
           map Startup.factory (Startup.listeners p) = Startup.factories p
           /\ Startup.allocated p = (2 * length (Startup.listeners p))%nat
           /\ (forall l, In l (Startup.listeners p) ->
                         Startup.scrub_addrs l = negb (Startup.kUNSAFE_LOGS h))
           /\ (forall name,
                  In name (Startup.factories p)
                  <-> In (Startup.allium_ptcfg_cmethod_report name 5)
                         (Startup.calls p))
           /\ (Startup.main h = Startup.Dispatches p
               <-> Startup.listeners p <> [])
           /\ (Startup.listeners p <> [] -> Startup.ev_base p = true)).
Proof.
  intros h.
  assert (Early : forall e : Startup.Ending,
             (exists code c, e = Startup.Returns code Startup.start
                             \/ e = Startup.Returns code (Startup.call c Startup.start)
                                /\ (forall name,
                                       c <> Startup.allium_ptcfg_cmethod_report name 5)
                             \/ e = Startup.Returns code
                                      (Startup.call Startup.allium_ptcfg_free
                                         (Startup.call Startup.allium_ptcfg_methods_done
                                            Startup.start)))
             \/ e = Startup.Sleeps ->
             (forall p, e <> Startup.Asserts p)
             /\ (forall p, left_by e = Some p ->
                           well_started h p
                           /\ (e = Startup.Dispatches p
                               <-> Startup.listeners p <> []))).
  { intros e [(code & c & [-> | [(-> & Hc) | ->]]) | ->];
      (split; [discriminate|]); intros p Hp; cbn [left_by] in Hp;
      try discriminate Hp; injection Hp as <-.
    - split; [apply start_well_started|].
      split; [discriminate | intros H; now destruct H].
    - split; [apply call_well_started; [exact Hc | apply start_well_started]|].
      split; [discriminate | intros H; now destruct H].
    - split.
      + apply call_well_started; [discriminate|].
        apply call_well_started; [discriminate | apply start_well_started].
      + split; [discriminate | intros H; now destruct H]. }
  assert (G : (forall p, Startup.main h <> Startup.Asserts p)
              /\ (forall p, left_by (Startup.main h) = Some p ->
                            well_started h p
                            /\ (Startup.main h = Startup.Dispatches p
                                <-> Startup.listeners p <> []))).
  { destruct (Startup.parse_error h) eqn:H1.
    { apply Early. left. exists 1, Startup.printUsage. left.
      unfold Startup.main. now rewrite H1. }
    destruct (Startup.kHELP h || Startup.kUNKNOWN h) eqn:H2.
    { apply Early. left. exists 0, Startup.printUsage. right; left.
      split; [|discriminate]. unfold Startup.main. now rewrite H1, H2. }
    destruct (Startup.kVERSION h) eqn:H3.
    { apply Early. left. exists 0, Startup.printVersion. right; left.
      split; [|discriminate]. unfold Startup.main. now rewrite H1, H2, H3. }
    destruct (Startup.kWAIT_FOR_DEBUGGER h) eqn:H4.
    { apply Early. right. unfold Startup.main. now rewrite H1, H2, H3, H4. }
    destruct (Startup.allium_ptcfg_init h) eqn:H5.
    2:{ apply Early. left. exists (-1), Startup.printUsage. left.
        unfold Startup.main. now rewrite H1, H2, H3, H4, H5. }
    destruct (Startup.allium_ptcfg_is_server h) eqn:H6.
    { apply Early. left. exists (-1), Startup.printUsage. right; right.
      unfold Startup.main. now rewrite H1, H2, H3, H4, H5, H6. }
    destruct (Startup.init_statedir h) eqn:H7.
    2:{ apply Early. left. exists (-1), Startup.printUsage. right; right.
        unfold Startup.main. now rewrite H1, H2, H3, H4, H5, H6, H7. }
    destruct (main_transports h H1 H2 H3 H4 H5 H6 H7)
      as (p & a3 & a2 & a1 & D & W & _).
    destruct D as [(D & L) | (D & L)]; rewrite D.
    - split; [discriminate|]. intros q Hq. injection Hq as <-.
      split; [exact W|]. split; [intros _; exact L | reflexivity].
    - split; [discriminate|]. intros q Hq. injection Hq as <-.
      split; [exact W|]. split; [discriminate|].
      intros H. now destruct H. }
  destruct G as (G1 & G2). split; [exact G1|].
  intros p Hp. destruct (G2 p Hp) as ((W1 & W2 & W3 & W4 & W5) & D).
  repeat split; trivial; apply D || apply W4.
Qed.

Lemma answer_is_no_release (h : Startup.Host) (name : String.string)
      (a : list Startup.Call) :
  answered h name a ->
  ~ In Startup.allium_ptcfg_methods_done a /\ ~ In Startup.allium_ptcfg_free a.
Proof.
  intros [(_ & ->) | (_ & [-> | (msg & ->)])]; cbn [In]; split;
    intros H; try contradiction; destruct H as [H | []]; discriminate H.
Qed.

(** X13.  Once the command line is parsed and asks for neither help nor
    the version nor the debugger's wait, [main] releases the configuration
    on every path, and only a configuration it has: when
    [allium_ptcfg_init] gives none it returns -1 without another call to
    the library; when it gives one, [allium_ptcfg_methods_done] and then
    [allium_ptcfg_free] are the last two calls and are made once each,
    whatever fails before.  It returns -1 exactly when it has no
    configuration, or the configuration is a server's, or there is no state
    directory, and then no method is answered and nothing listens. *)
Theorem main_releases_the_configuration_once :
  forall h : Startup.Host,
    Startup.parse_error h = false ->
    Startup.kHELP h || Startup.kUNKNOWN h = false ->
    Startup.kVERSION h = false ->
    Startup.kWAIT_FOR_DEBUGGER h = false ->
    exists p : Startup.Program,
      left_by (Startup.main h) = Some p
      /\ (Startup.main h = Startup.Returns (-1) p
          <-> Startup.allium_ptcfg_init h = false
              \/ Startup.allium_ptcfg_is_server h = true
              \/ Startup.allium_ptcfg_state_dir h <> 0)
      /\ (Startup.main h = Startup.Returns (-1) p ->
          Startup.listeners p = []
          /\ forall c, In c (Startup.calls p) ->
                       c = Startup.allium_ptcfg_methods_done
                       \/ c = Startup.allium_ptcfg_free)
      /\ (Startup.allium_ptcfg_init h = false -> Startup.calls p = [])
      /\ (Startup.allium_ptcfg_init h = true ->
          exists before : list Startup.Call,
            Startup.calls p
            = before
              ++ [Startup.allium_ptcfg_methods_done; Startup.allium_ptcfg_free]
            /\ ~ In Startup.allium_ptcfg_methods_done before
            /\ ~ In Startup.allium_ptcfg_free before).
Proof.
  intros h H1 H2 H3 H4.
  destruct (Startup.allium_ptcfg_init h) eqn:H5.
  2:{ exists Startup.start.
      assert (E : Startup.main h = Startup.Returns (-1) Startup.start)
        by (unfold Startup.main; now rewrite H1, H2, H3, H4, H5).
      rewrite E. split; [reflexivity|].
      split; [split; [now left | reflexivity]|].
      split; [intros _; split; [reflexivity | intros c []]|].
      split; [reflexivity | discriminate]. }
  set (released := Startup.call Startup.allium_ptcfg_free
                     (Startup.call Startup.allium_ptcfg_methods_done Startup.start)).
  assert (R : forall why : Prop,
             why ->
             (why -> Startup.allium_ptcfg_is_server h = true
                     \/ Startup.allium_ptcfg_state_dir h <> 0) ->
             Startup.main h = Startup.Returns (-1) released ->
             exists p : Startup.Program,
               left_by (Startup.main h) = Some p
               /\ (Startup.main h = Startup.Returns (-1) p
                   <-> false = false
                       \/ Startup.allium_ptcfg_is_server h = true
                       \/ Startup.allium_ptcfg_state_dir h <> 0)
               /\ (Startup.main h = Startup.Returns (-1) p ->
                   Startup.listeners p = []
                   /\ forall c, In c (Startup.calls p) ->
                                c = Startup.allium_ptcfg_methods_done
                                \/ c = Startup.allium_ptcfg_free)
               /\ (true = false -> Startup.calls p = [])
               /\ (true = true ->
                   exists before : list Startup.Call,
                     Startup.calls p
                     = before ++ [Startup.allium_ptcfg_methods_done;
                                  Startup.allium_ptcfg_free]
                     /\ ~ In Startup.allium_ptcfg_methods_done before
                     /\ ~ In Startup.allium_ptcfg_free before)).
  { intros why Hw Hy E. exists released. rewrite E.
    split; [reflexivity|].
    split; [split; [now left | reflexivity]|].
    split.
    { intros _. split; [reflexivity|].
      intros c [<- | [<- | []]]; [now left | now right]. }
    split; [discriminate|].
    intros _. exists []. split; [reflexivity|]. split; intros []. }
  destruct (Startup.allium_ptcfg_is_server h) eqn:H6.
  { destruct (R (true = true) eq_refl) as (p & Q1 & Q2 & Q3 & Q4 & Q5);
      [now left | unfold Startup.main; now rewrite H1, H2, H3, H4, H5, H6|].
    exists p. split; [exact Q1|].
    split; [split; [intros _; right; now left | intros _; apply Q2; now left]|].
    split; [exact Q3|]. split; [exact Q4 | exact Q5]. }
  destruct (Startup.init_statedir h) eqn:H7.
  2:{ assert (Hd : Startup.allium_ptcfg_state_dir h <> 0)
        by (unfold Startup.init_statedir in H7; now apply Z.eqb_neq).
      destruct (R (true = true) eq_refl) as (p & Q1 & Q2 & Q3 & Q4 & Q5);
        [now right | unfold Startup.main; now rewrite H1, H2, H3, H4, H5, H6, H7|].
      exists p. split; [exact Q1|].
      split; [split; [intros _; right; now right | intros _; apply Q2; now left]|].
      split; [exact Q3|]. split; [exact Q4 | exact Q5]. }
  assert (Hd : Startup.allium_ptcfg_state_dir h = 0)
    by (unfold Startup.init_statedir in H7; now apply Z.eqb_eq).
  destruct (main_transports h H1 H2 H3 H4 H5 H6 H7)
    as (p & a3 & a2 & a1 & D & _ & C & A3 & A2 & A1).
  assert (N : Startup.main h <> Startup.Returns (-1) p)
    by (destruct D as [(D & _) | (D & _)]; rewrite D; discriminate).
  exists p.
  split; [destruct D as [(D & _) | (D & _)]; rewrite D; reflexivity|].
  split.
  { split; [intros H; now destruct N|].
    intros [H | [H | H]]; [discriminate H | discriminate H | contradiction]. }
  split; [intros H; now destruct N|].
  split; [discriminate|].
  intros _. exists (a3 ++ a2 ++ a1).
  split; [rewrite C, <- !app_assoc; reflexivity|].
  destruct (answer_is_no_release _ _ _ A3) as (N3 & M3).
  destruct (answer_is_no_release _ _ _ A2) as (N2 & M2).
  destruct (answer_is_no_release _ _ _ A1) as (N1 & M1).
  split; intros H; repeat (apply in_app_or in H; destruct H as [H | H]);
    contradiction.
Qed.

Lemma main_releases_the_configuration_once_witness :
  exists p : Startup.Program,
    left_by (Startup.main sample_host) = Some p
    /\ exists before : list Startup.Call,
         Startup.calls p
         = before ++ [Startup.allium_ptcfg_methods_done; Startup.allium_ptcfg_free]
         /\ ~ In Startup.allium_ptcfg_methods_done before
         /\ ~ In Startup.allium_ptcfg_free before.
Proof.
  destruct (main_releases_the_configuration_once
              sample_host eq_refl eq_refl eq_refl eq_refl)
    as (p & E & _ & _ & _ & H).
  exists p. split; [exact E | exact (H eq_refl)].
Defined.

(** What [main] does on the sample host: the first [event_base_new] fails
    and obfs3 is answered with an error, the second call gives a base, the
    port of obfs2 cannot be bound, scramblesuit was not requested; nothing
    listens and [main] returns 0. *)
Example main_on_sample_host :
  match Startup.main sample_host with
  | Startup.Returns 0 p =>
      (exists msg3 msg2 : String.string,
          msg3 <> msg2
          /\ Startup.calls p
             = [Startup.allium_ptcfg_method_error Startup.kObfs3MethodName msg3;
                Startup.allium_ptcfg_method_error Startup.kObfs2MethodName msg2;
                Startup.allium_ptcfg_methods_done; Startup.allium_ptcfg_free])
      /\ Startup.event_base_new_calls p = 2%nat
      /\ Startup.ev_base p = true
      /\ Startup.allocated p = 0%nat
  | _ => False
  end.
Proof.
  vm_compute. split; [|repeat split].
  eexists _, _. split; [|reflexivity]. discriminate.
Qed.

(** ** Reading back a responder's hello *)

Lemma firstn_exact (n : nat) (a b : bytes) :
  length a = n -> firstn n (a ++ b) = a.
Proof.
  intros <-. rewrite firstn_app, Nat.sub_diag, firstn_all. apply app_nil_r.
Qed.

Lemma skipn_exact (n : nat) (a b : bytes) :
  length a = n -> skipn n (a ++ b) = b.
Proof. intros <-. now rewrite skipn_app, skipn_all, Nat.sub_diag. Qed.

Lemma responder_hello_bytes (seed : bytes) (magic padlen : Z) (padding : bytes) :
  seed <> [] ->
  let k := responder_pad_secret seed in
  Run.responder_hello seed magic padlen padding
  = seed
    ++ xor_bytes (htonl_bytes magic ++ htonl_bytes padlen)
         (AesCtr128.keystream (Obfs2.key_part k) (Obfs2.iv_part k) 0 8)
    ++ xor_bytes padding
         (AesCtr128.keystream (Obfs2.key_part k) (Obfs2.iv_part k) 8
                              (length padding)).
Proof.
  intros Hs k. unfold Run.responder_hello.
  rewrite mac_ok; [|discriminate | exact Hs | reflexivity].
  fold (responder_pad_secret seed). fold k.
  rewrite (app_assoc (htonl_bytes magic)).
  change (8 + length padding)%nat
    with (length (htonl_bytes magic ++ htonl_bytes padlen) + length padding)%nat.
  rewrite <- length_app, xor_keystream_app.
  reflexivity.
Qed.

(** The header of a responder's hello says what was put in it. *)
Lemma responder_hello_header (seed : bytes) (magic padlen : Z)
      (padding rest : bytes) :
  length seed = 16%nat ->
  responder_header (Run.responder_hello seed magic padlen padding ++ rest)
  = htonl_bytes magic ++ htonl_bytes padlen.
Proof.
  intros Hs.
  assert (Hn : seed <> []) by (intros ->; discriminate Hs).
  rewrite (responder_hello_bytes seed magic padlen padding Hn). cbv zeta.
  set (k := responder_pad_secret seed).
  set (hdr := xor_bytes (htonl_bytes magic ++ htonl_bytes padlen)
                (AesCtr128.keystream (Obfs2.key_part k) (Obfs2.iv_part k) 0 8)).
  assert (Lh : length hdr = 8%nat)
    by (subst hdr; rewrite xor_bytes_length; [reflexivity|];
        now rewrite keystream_length).
  unfold responder_header. cbv zeta. rewrite <- !app_assoc.
  rewrite (firstn_exact 16) by exact Hs. fold k.
  rewrite (skipn_exact 16) by exact Hs.
  rewrite (firstn_exact 8) by exact Lh.
  subst hdr. apply xor_bytes_involutive. now rewrite keystream_length.
Qed.

(** The session reading a whole hello and what follows it in one call. *)
Lemma responder_hello_read (s : Obfs2.Client) (seed padding rest : bytes) :
  Obfs2.state_ s = kCONNECTING ->
  Obfs2.received_seed_hdr_ s = false ->
  Libevent.input (Obfs2.outgoing_ s) = [] ->
  length seed = 16%nat ->
  Z.of_nat (length padding) <= kMaxPadding ->
  let hello :=
    Run.responder_hello seed kMagicValue (Z.of_nat (length padding)) padding in
  header_magic (hello ++ rest) = kMagicValue
  /\ header_padlen (hello ++ rest) = Z.of_nat (length padding)
  /\ exists s' : Obfs2.Client,
       Obfs2.on_outgoing_data_connecting no_faults
         (Run.arrive_outgoing (hello ++ rest) s)
       = Returned (true, s')
       /\ Obfs2.state_ s' = kESTABLISHED
       /\ Obfs2.replies_ s' = Obfs2.replies_ s ++ [kSUCCEDED]
       /\ Obfs2.resp_seed_ s' = seed
       /\ Libevent.input (Obfs2.outgoing_ s') = rest
       /\ Libevent.output (Obfs2.incoming_ s')
          = Libevent.output (Obfs2.incoming_ s) ++ socks5_reply_record kSUCCEDED
       /\ kept s s'.
Proof.
  intros Hst Hrec Hbuf Hs Hp hello.
  assert (Hn : seed <> []) by (intros ->; discriminate Hs).
  pose proof (responder_hello_header seed kMagicValue (Z.of_nat (length padding))
                padding rest Hs) as Hh.
  fold hello in Hh.
  assert (Hm : header_magic (hello ++ rest) = kMagicValue).
  { unfold header_magic. rewrite Hh.
    rewrite (firstn_exact 4) by apply htonl_bytes_length.
    apply ntohl_htonl. unfold kMagicValue. lia. }
  assert (Hl : header_padlen (hello ++ rest) = Z.of_nat (length padding)).
  { unfold header_padlen. rewrite Hh.
    rewrite (skipn_exact 4) by apply htonl_bytes_length.
    apply ntohl_htonl. unfold kMaxPadding in Hp. lia. }
  assert (Hlen : length hello = (24 + length padding)%nat).
  { subst hello. rewrite responder_hello_bytes by exact Hn. cbv zeta.
    rewrite !length_app, !xor_bytes_length; rewrite ?keystream_length;
      try reflexivity.
    rewrite length_app, !htonl_bytes_length. lia. }
  assert (H16 : firstn 16 (hello ++ rest) = seed).
  { subst hello. rewrite responder_hello_bytes by exact Hn. cbv zeta.
    rewrite <- !app_assoc. apply firstn_exact. exact Hs. }
  split; [exact Hm|]. split; [exact Hl|].
  destruct (hello_read_step s s (hello ++ rest) [] (hello ++ rest) [])
    as (s1 & E & [(Hshort & _) | (_ & D)]).
  - now rewrite app_nil_r.
  - exact Hm.
  - rewrite Hl. exact Hp.
  - split; [exact Hst|]. split; [reflexivity|]. split; [reflexivity|].
    split; [repeat split|].
    left. split; [exact Hrec|]. split; [exact Hbuf|]. cbn [length]. lia.
  - exfalso. cbn [app] in Hshort. rewrite Hl, length_app, Hlen in Hshort. lia.
  - cbn [app] in D. destruct D as (D1 & D2 & Do & D3 & _ & D5 & _ & D7).
    exists s1. split; [exact E|]. split; [exact D1|]. split; [exact D2|].
    split; [now rewrite D5|].
    split; [|split; [exact Do | exact D3]].
    rewrite D7, Hl, Nat2Z.id. apply skipn_exact. exact Hlen.
Qed.

(** X14.  What a responder puts in its hello is what the session reads
    out of it.  For a 16-byte seed and padding of at most [kMaxPadding]
    bytes, the hello made of the seed in clear and, under the stream keyed
    from MAC("Responder obfuscation padding", seed), the magic value, the
    padding length and the padding, followed by any bytes [rest]: the
    session reads the magic value and the padding length back from the
    header, stores the seed as RESP_SEED, replies SUCCEDED, becomes
    ESTABLISHED, and leaves exactly [rest] in the read queue. *)
Theorem responder_hello_is_read_back :
  forall (s : Obfs2.Client) (seed padding rest : bytes),
    Obfs2.state_ s = kCONNECTING ->
    Obfs2.received_seed_hdr_ s = false ->
    Libevent.input (Obfs2.outgoing_ s) = [] ->
    length seed = 16%nat ->
    Z.of_nat (length padding) <= kMaxPadding ->
    let hello :=
      Run.responder_hello seed kMagicValue (Z.of_nat (length padding)) padding in
    header_magic (hello ++ rest) = kMagicValue
    /\ header_padlen (hello ++ rest) = Z.of_nat (length padding)
    /\ exists s' : Obfs2.Client,
         Obfs2.on_outgoing_data_connecting no_faults
           (Run.arrive_outgoing (hello ++ rest) s)
         = Returned (true, s')
         /\ Obfs2.state_ s' = kESTABLISHED
         /\ Obfs2.replies_ s' = Obfs2.replies_ s ++ [kSUCCEDED]
         /\ Obfs2.resp_seed_ s' = seed
         /\ Libevent.input (Obfs2.outgoing_ s') = rest.
Proof.
  intros s seed padding rest Hst Hrec Hbuf Hs Hp hello.
  destruct (responder_hello_read s seed padding rest Hst Hrec Hbuf Hs Hp)
    as (Hm & Hl & s' & E & H1 & H2 & H3 & H4 & _ & _).
  split; [exact Hm|]. split; [exact Hl|].
  exists s'. repeat split; assumption.
Qed.

Lemma responder_hello_is_read_back_witness :
  exists s' : Obfs2.Client,
    Obfs2.on_outgoing_data_connecting no_faults hello_session = Returned (true, s')
    /\ Obfs2.state_ s' = kESTABLISHED
    /\ Obfs2.resp_seed_ s' = Run.sample_peer_seed
    /\ Libevent.input (Obfs2.outgoing_ s') = [1; 2].
Proof.
  destruct (responder_hello_is_read_back
              (Run.connecting Run.sample_rand) Run.sample_peer_seed [9; 9; 9] [1; 2])
    as (_ & _ & s' & E & H1 & _ & H3 & H4).
  - reflexivity.
  - reflexivity.
  - reflexivity.
  - reflexivity.
  - vm_compute. discriminate.
  - exists s'. split; [exact E|]. split; [exact H1|]. split; [exact H3 | exact H4].
Defined.

(** ** Data that follows the hello *)

(** X15.  Data the bridge sends right behind its hello is not lost and
    is the start of the responder's stream.  When a read brings a whole
    well-formed hello and [data] behind it, the handshake call queues the
    record of the reply SUCCEDED for the SOCKS client and leaves [data]
    buffered; the call of [on_outgoing_data] at the next read, which brings
    [more], queues [data] and then [more] behind that record, under the
    stream of the responder cipher keyed from RESP_SECRET =
    MAC("Responder obfuscated data", INIT_SEED || RESP_SEED), taken from its
    first byte, and empties the read queue. *)
Theorem data_behind_the_hello_is_delivered :
  forall (s : Obfs2.Client) (seed padding data more : bytes),
    Obfs2.state_ s = kCONNECTING ->
    Obfs2.received_seed_hdr_ s = false ->
    Libevent.input (Obfs2.outgoing_ s) = [] ->
    length seed = 16%nat ->
    Z.of_nat (length padding) <= kMaxPadding ->
    let hello :=
      Run.responder_hello seed kMagicValue (Z.of_nat (length padding)) padding in
    let rsec := resp_secret (Obfs2.init_seed_ s) seed in
    exists s1 s2 : Obfs2.Client,
      Obfs2.on_outgoing_data_connecting no_faults
        (Run.arrive_outgoing (hello ++ data) s)
      = Returned (true, s1)
      /\ Libevent.input (Obfs2.outgoing_ s1) = data
      /\ Libevent.output (Obfs2.incoming_ s1)
         = Libevent.output (Obfs2.incoming_ s) ++ socks5_reply_record kSUCCEDED
      /\ Obfs2.on_outgoing_data no_faults (Run.arrive_outgoing more s1)
         = Returned (true, s2)
      /\ Libevent.output (Obfs2.incoming_ s2)
         = Libevent.output (Obfs2.incoming_ s)
           ++ socks5_reply_record kSUCCEDED
           ++ xor_bytes (data ++ more)
                (AesCtr128.keystream (Obfs2.key_part rsec) (Obfs2.iv_part rsec) 0
                                     (length (data ++ more)))
      /\ Libevent.input (Obfs2.outgoing_ s2) = []
      /\ AesCtr128.pos (Obfs2.responder_aes_ s2) = length (data ++ more).
Proof.
  intros s seed padding data more Hst Hrec Hbuf Hs Hp hello rsec.
  destruct (responder_hello_read s seed padding data Hst Hrec Hbuf Hs Hp)
    as (_ & _ & s1 & E & H1 & H2 & H3 & H4 & Ho & (K1 & K2 & K3 & K4 & K5)).
  fold hello in E.
  assert (Hk : session_keyed (Run.arrive_outgoing (hello ++ data) s)).
  { intros H. change (Obfs2.received_seed_hdr_ s = true) in H.
    rewrite Hrec in H. discriminate H. }
  destruct (connecting_step _ _ _ _ Hk E) as (_ & _ & C).
  destruct (C eq_refl) as (Hk1 & Hr1).
  destruct (Hk1 (Hr1 H1)) as (_ & Kr).
  rewrite K5, H3 in Kr. fold rsec in Kr.
  destruct (on_outgoing_data_ok (Run.arrive_outgoing more s1))
    as (s2 & E2 & D1 & D2 & D3 & D4 & D5 & D6 & D7 & D8).
  - exact H1.
  - change (AesCtr128.has_state (Obfs2.responder_aes_ s1) = true).
    rewrite Kr. reflexivity.
  - exists s1, s2. split; [exact E|]. split; [exact H4|].
    split; [exact Ho|]. split; [exact E2|].
    assert (Hin : Libevent.input (Obfs2.outgoing_ (Run.arrive_outgoing more s1))
                  = data ++ more)
      by (unfold Run.arrive_outgoing; session_simpl; now rewrite H4).
    rewrite Hin in D5, D6.
    change (Obfs2.responder_aes_ (Run.arrive_outgoing more s1))
      with (Obfs2.responder_aes_ s1) in D5, D6.
    change (Libevent.output (Obfs2.incoming_ (Run.arrive_outgoing more s1)))
      with (Libevent.output (Obfs2.incoming_ s1)) in D5.
    rewrite Kr in D5, D6. rewrite Ho, <- app_assoc in D5.
    split; [exact D5|]. split; [exact D2|].
    rewrite D6. reflexivity.
Qed.

Lemma data_behind_the_hello_is_delivered_witness :
  exists s1 s2 : Obfs2.Client,
    Obfs2.on_outgoing_data_connecting no_faults hello_session = Returned (true, s1)
    /\ Libevent.input (Obfs2.outgoing_ s1) = [1; 2]
    /\ Libevent.output (Obfs2.incoming_ s1) = socks5_reply_record kSUCCEDED
    /\ Obfs2.on_outgoing_data no_faults (Run.arrive_outgoing [3] s1)
       = Returned (true, s2)
    /\ Libevent.input (Obfs2.outgoing_ s2) = []
    /\ AesCtr128.pos (Obfs2.responder_aes_ s2) = 3%nat.
Proof.
  destruct (data_behind_the_hello_is_delivered
              (Run.connecting Run.sample_rand) Run.sample_peer_seed
              [9; 9; 9] [1; 2] [3])
    as (s1 & s2 & E & H1 & Ho & E2 & _ & H3 & H4).
  - reflexivity.
  - reflexivity.
  - reflexivity.
  - reflexivity.
  - vm_compute. discriminate.
  - exists s1, s2. split; [exact E|]. split; [exact H1|]. split; [exact Ho|].
    split; [exact E2|]. split; [exact H3 | exact H4].
Defined.
